(** * chrome_update_manifest: regenerating the autogenerated manifest region

    A shallow embedding of [bin/chrome_update_manifest.py]: the regular
    expressions it uses, the manifest partitioner, the project-list
    converter, the safety checker, the manifest builder and the update
    driver, followed by the properties of the specification. *)

From Stdlib Require Import Ascii String Bool Arith Lia List.
Import ListNotations.

Local Open Scope list_scope.
Local Open Scope bool_scope.

(** ** Strings

    Python 2 [str] values are byte strings; they are modelled as lists of
    characters so that slicing and concatenation are the list operations. *)

Definition str := list ascii.

Definition lit (s : string) : str := list_ascii_of_string s.

Definition nl : ascii := "010"%char.
Definition dq : ascii := "034"%char.

Fixpoint str_eqb (a b : str) : bool :=
  match a, b with
  | [], [] => true
  | x :: a', y :: b' => Ascii.eqb x y && str_eqb a' b'
  | _, _ => false
  end.

(** [c in string.whitespace], which is also what [\s] matches in a byte
    pattern without the LOCALE or UNICODE flag. *)
Definition isspace (c : ascii) : bool :=
  match nat_of_ascii c with
  | 9 | 10 | 11 | 12 | 13 | 32 => true
  | _ => false
  end.

Arguments isspace : simpl never.

Fixpoint lstrip (s : str) : str :=
  match s with
  | c :: s' => if isspace c then lstrip s' else s
  | [] => []
  end.

Definition rstrip (s : str) : str := rev (lstrip (rev s)).

(** [s.strip()] *)
Definition strip (s : str) : str := rstrip (lstrip s).

(** [s.startswith(p)] *)
Fixpoint startswith (s p : str) {struct p} : bool :=
  match p, s with
  | [], _ => true
  | a :: p', b :: s' => Ascii.eqb a b && startswith s' p'
  | _ :: _, [] => false
  end.

(** ** The fragment of [re] the program uses

    A backtracking matcher in continuation-passing style. Greedy
    repetition tries the longest run first and gives characters back one
    at a time, which is the order in which Python's engine explores the
    alternatives; the first complete match wins. *)

Module Re.

Record flags := { DOTALL : bool; MULTILINE : bool }.

(** One-character atoms: [.], [\s] and [\S]. *)
Inductive cls := Dot | Space | NonSpace.

Inductive regex :=
| Lit (s : str)                  (* the text of [re.escape(s)] *)
| Star (k : cls)                 (* [k*], greedy *)
| Plus (k : cls)                 (* [k+], greedy *)
| Bol                            (* [^] *)
| Group (n : nat) (r : regex)    (* the [n]-th capturing group *)
| Seq (r1 r2 : regex).

Definition escape (s : str) : regex := Lit s.

Definition cls_in (f : flags) (k : cls) (c : ascii) : bool :=
  match k with
  | Dot => DOTALL f || negb (Ascii.eqb c nl)
  | Space => isspace c
  | NonSpace => negb (isspace c)
  end.

(** The matcher's position: the character before it (for [^]), the text
    still to be matched and the groups captured so far. *)
Record mstate := { prev : option ascii; rest : str; caps : list (nat * str) }.

Definition at_bol (f : flags) (st : mstate) : bool :=
  match prev st with
  | None => true
  | Some c => MULTILINE f && Ascii.eqb c nl
  end.

Fixpoint last_of (a : str) (d : option ascii) : option ascii :=
  match a with
  | [] => d
  | c :: a' => last_of a' (Some c)
  end.

(** Moving over the first [length a] characters, which are [a]. *)
Definition advance (a : str) (st : mstate) : mstate :=
  {| prev := last_of a (prev st);
     rest := skipn (length a) (rest st);
     caps := caps st |}.

Section Matcher.
Variable f : flags.
Context {R : Type}.

Fixpoint star (c : ascii -> bool) (p : option ascii) (s : str)
         (k : option ascii -> str -> option R) : option R :=
  match s with
  | x :: s' =>
      if c x then
        match star c (Some x) s' k with
        | Some r => Some r
        | None => k p s
        end
      else k p s
  | [] => k p s
  end.

Fixpoint m (r : regex) (st : mstate) (k : mstate -> option R) : option R :=
  match r with
  | Lit s =>
      if startswith (rest st) s then k (advance s st) else None
  | Star c =>
      star (cls_in f c) (prev st) (rest st)
           (fun p s => k {| prev := p; rest := s; caps := caps st |})
  | Plus c =>
      match rest st with
      | x :: s' =>
          if cls_in f c x then
            star (cls_in f c) (Some x) s'
                 (fun p s => k {| prev := p; rest := s; caps := caps st |})
          else None
      | [] => None
      end
  | Bol => if at_bol f st then k st else None
  | Group n r1 =>
      m r1 st (fun st' =>
        let got := firstn (length (rest st) - length (rest st')) (rest st) in
        k {| prev := prev st'; rest := rest st';
             caps := (n, got) :: caps st' |})
  | Seq r1 r2 => m r1 st (fun st' => m r2 st' k)
  end.
End Matcher.

(** The end of the pattern: the match object is the list of the groups. *)
Definition finish (st : mstate) : option (list (nat * str)) := Some (caps st).

(** [re.match(r, s, f)]: anchored at the start, not at the end. *)
Definition match_ (r : regex) (s : str) (f : flags) : option (list (nat * str)) :=
  m f r {| prev := None; rest := s; caps := [] |} finish.

(** [mo.group(n)] for a group that took part in the match. *)
Fixpoint group (mo : list (nat * str)) (n : nat) : str :=
  match mo with
  | [] => []
  | (i, s) :: mo' => if Nat.eqb i n then s else group mo' n
  end.

End Re.

(** ** Exceptions and the state of a run

    A run reads and writes files and drives external tools. The files are
    a map from paths to contents; every effect of the run is also recorded,
    in order, in a trace. An external command is recorded when it is
    called and fails or returns as the collaborators say; what it does to
    the checkout and to the network is not part of the state. *)

Inductive exn :=
| ManifestException (msg : str)
| AttributeError (msg : str)
| KeyError (key : str)
| ValueError (msg : str)
| IOError (path : str)
| OSError (path : str)
| External (msg : str).

Definition result (A : Type) : Type := (exn + A)%type.

(** Operations of the collaborators ([manifest_version], [repository],
    [cros_build_lib], [os]) that act on the checkout and the network. *)
Inductive ext_call :=
| PrepForChanges (git_repo : str) (dry_run : bool)
| Sync (git_url directory local_manifest : str) (jobs : nat)
| RunCommand (cmd : list str) (cwd : str)
| GitPushWithRetry (branch cwd : str) (dryrun : bool)
| makedirs (path : str).

Inductive level := WARNING | ERROR.

(** [Log l fmt args] is a call of [cros_lib.Warning] or [cros_lib.Error]
    on the message [fmt % args]. *)

Inductive event :=
| Call (c : ext_call)
| OpenW (path : str)
| Write (path : str) (data : str)
| Move (src dst : str)
| Log (l : level) (fmt : str) (args : list str).

Definition fs := str -> option str.

Definition fs_set (f : fs) (path : str) (v : option str) : fs :=
  fun q => if str_eqb q path then v else f q.

Record world := { files : fs; trace : list event }.

Definition M (A : Type) : Type := world -> result A * world.

Definition ret {A} (a : A) : M A := fun w => (inr a, w).

Definition raise {A} (e : exn) : M A := fun w => (inl e, w).

Definition bind {A C} (c : M A) (k : A -> M C) : M C :=
  fun w =>
    match c w with
    | (inl e, w') => (inl e, w')
    | (inr a, w') => k a w'
    end.

Declare Scope run_scope.
Delimit Scope run_scope with run.
Notation "x <- c ;; k" := (bind c (fun x => k))
  (at level 61, c at next level, right associativity) : run_scope.
Notation "' p <- c ;; k" := (bind c (fun x => let p := x in k))
  (at level 61, p pattern, c at next level, right associativity) : run_scope.
Notation "c ;; k" := (bind c (fun _ => k))
  (at level 61, right associativity) : run_scope.
Local Open Scope run_scope.

Definition lift {A} (r : result A) : M A := fun w => (r, w).

Definition emit (e : event) : M unit :=
  fun w => (inr tt, {| files := files w; trace := trace w ++ [e] |}).

(** [try: body finally: fin] *)
Definition try_finally {A} (body : M A) (fin : M unit) : M A :=
  fun w =>
    let '(r, w1) := body w in
    match fin w1 with
    | (inl e, w2) => (inl e, w2)
    | (inr _, w2) => (r, w2)
    end.

(** [try: body except Exception: handler; raise] and
    [try: body except ManifestException: handler; raise] *)
Definition try_except_reraise {A} (catches : exn -> bool) (body : M A)
           (handler : M unit) : M A :=
  fun w =>
    match body w with
    | (inl e, w1) =>
        if catches e then
          match handler w1 with
          | (inl e', w2) => (inl e', w2)
          | (inr _, w2) => (inl e, w2)
          end
        else (inl e, w1)
    | (inr a, w1) => (inr a, w1)
    end.

(** [open(path, 'r').read()] *)
Definition read_file (path : str) : M str :=
  fun w =>
    match files w path with
    | Some data => (inr data, w)
    | None => (inl (IOError path), w)
    end.

(** [open(path, 'w')]: the file is created or truncated. *)
Definition open_w (path : str) : M unit :=
  fun w => (inr tt, {| files := fs_set (files w) path (Some []);
                       trace := trace w ++ [OpenW path] |}).

(** [f.write(data)] on a file opened by [open_w]. *)
Definition write (path : str) (data : str) : M unit :=
  fun w =>
    let old := match files w path with Some d => d | None => [] end in
    (inr tt, {| files := fs_set (files w) path (Some (old ++ data));
                trace := trace w ++ [Write path data] |}).

(** [cros_lib.Warning(fmt % args)] and [cros_lib.Error(fmt % args)] *)
Definition Warning (fmt : string) (args : list str) : M unit :=
  emit (Log WARNING (lit fmt) args).

Definition Error (fmt : string) (args : list str) : M unit :=
  emit (Log ERROR (lit fmt) args).

(** ** [os.path] *)

Definition endswith_slash (s : str) : bool :=
  match rev s with
  | c :: _ => Ascii.eqb c "/"
  | [] => false
  end.

(** [os.path.join(a, b)] *)
Definition os_path_join (a b : str) : str :=
  if startswith b (lit "/") then b
  else if (str_eqb a []) || endswith_slash a then a ++ b
  else a ++ lit "/" ++ b.

(** [p.rfind('/') + 1] *)
Fixpoint rfind_slash_end (p : str) : nat :=
  match p with
  | [] => 0
  | c :: p' =>
      match rfind_slash_end p' with
      | 0 => if Ascii.eqb c "/" then 1 else 0
      | S i => S (S i)
      end
  end.

Fixpoint rstrip_slash_rev (r : str) : str :=
  match r with
  | c :: r' => if Ascii.eqb c "/" then rstrip_slash_rev r' else r
  | [] => []
  end.

(** [os.path.dirname(p)] *)
Definition os_path_dirname (p : str) : str :=
  let head := firstn (rfind_slash_end p) p in
  if forallb (fun c => Ascii.eqb c "/") head then head
  else rev (rstrip_slash_rev (rev head)).

(** ** [%] on a template and a dictionary

    The templates of this module only use [%(key)s] conversions. *)

Fixpoint dict_get (d : list (str * str)) (key : str) : option str :=
  match d with
  | [] => None
  | (k, v) :: d' => if str_eqb k key then Some v else dict_get d' key
  end.

Fixpoint percent (t : str) (key : option str) (d : list (str * str)) : result str :=
  match key with
  | None =>
      match t with
      | [] => inr []
      | "%"%char :: "("%char :: t' => percent t' (Some []) d
      | "%"%char :: _ => inl (ValueError (lit "unsupported format character"))
      | c :: t' =>
          match percent t' None d with
          | inr out => inr (c :: out)
          | inl e => inl e
          end
      end
  | Some k =>
      match t with
      | [] => inl (ValueError (lit "incomplete format key"))
      | ")"%char :: "s"%char :: t' =>
          match dict_get d (rev k) with
          | Some v =>
              match percent t' None d with
              | inr out => inr (v ++ out)
              | inl e => inl e
              end
          | None => inl (KeyError (rev k))
          end
      | ")"%char :: _ => inl (ValueError (lit "unsupported format character"))
      | c :: t' => percent t' (Some (c :: k)) d
      end
  end.

Definition format (template : str) (d : list (str * str)) : result str :=
  percent template None d.

(** ** Module constants *)

Definition _BEGIN_MARKER : str :=
  lit "<!-- @@@@ BEGIN AUTOGENERATED BROWSER PROJECTS - DON'T MODIFY! @@@@ -->"
    ++ [nl; nl].

Definition _END_MARKER : str :=
  lit "<!-- @@@@ END AUTOGENERATED BROWSER PROJECTS - DON'T MODIFY! @@@@ -->"
    ++ [nl; nl].

Definition hardcoded_note : str :=
  lit "  <!-- Hardcoded revision=" ++ [dq] ++ lit "refs/heads/master" ++ [dq]
    ++ lit " is intentional here -->" ++ [nl; nl].

Definition _EXTERNAL_HEADER : str :=
  lit "  <!-- Begin Chromium (browser) projects -->" ++ [nl] ++ hardcoded_note.

Definition revision_line : str :=
  lit "           revision=" ++ [dq] ++ lit "refs/heads/master" ++ [dq]
    ++ lit " />" ++ [nl].

Definition _EXTERNAL_PROJECT : str :=
  lit "  <project path=" ++ [dq] ++ lit "%(path)s" ++ [dq] ++ [nl]
    ++ lit "           name=" ++ [dq] ++ lit "%(name)s" ++ [dq] ++ [nl]
    ++ revision_line.

Definition _CROS_HEADER : str :=
  lit "  <!-- Begin CrOS-specific Chromium (browser) projects -->" ++ [nl]
    ++ hardcoded_note.

Definition _INTERNAL_HEADER : str :=
  lit "  <!-- Begin Chrome browser (PRIVATE) projects -->" ++ [nl]
    ++ hardcoded_note.

Definition _INTERNAL_PROJECT : str :=
  lit "  <project remote=" ++ [dq] ++ lit "cros-internal" ++ [dq] ++ [nl]
    ++ lit "           path=" ++ [dq] ++ lit "%(path)s" ++ [dq] ++ [nl]
    ++ lit "           name=" ++ [dq] ++ lit "%(name)s" ++ [dq] ++ [nl]
    ++ revision_line.

Definition _CHROMIUM_ROOT : str := lit "chromium".
Definition _CHROMIUM_SRC_ROOT : str := os_path_join _CHROMIUM_ROOT (lit "src").
Definition _CHROMIUM_SRC_INTERNAL : str :=
  os_path_join _CHROMIUM_ROOT (lit "src-internal").

Definition _EXTERNAL_TEST_DIR : str := lit "external".
Definition _INTERNAL_TEST_DIR : str := lit "internal".

Definition _TEST_MANIFEST_TEMPLATE : str :=
  lit "<?xml version=" ++ [dq] ++ lit "1.0" ++ [dq] ++ lit " encoding=" ++ [dq]
    ++ lit "UTF-8" ++ [dq] ++ lit "?>" ++ [nl]
    ++ lit "<manifest>" ++ [nl]
    ++ lit "%(content)s" ++ [nl]
    ++ lit "</manifest>".

Definition entry (path name : str) : list (str * str) :=
  [(lit "path", path); (lit "name", name)].

(** ** [sorted(items, key=...)]

    Python compares [str] keys byte by byte; its sort is stable. *)

Fixpoint str_leb (a b : str) : bool :=
  match a, b with
  | [], _ => true
  | _ :: _, [] => false
  | x :: a', y :: b' =>
      match Nat.compare (nat_of_ascii x) (nat_of_ascii y) with
      | Lt => true
      | Gt => false
      | Eq => str_leb a' b'
      end
  end.

Section Sorted.
Context {A : Type} (key : A -> str).

Fixpoint insert_by (x : A) (l : list A) : list A :=
  match l with
  | [] => [x]
  | y :: l' => if str_leb (key x) (key y) then x :: l else y :: insert_by x l'
  end.

Definition sorted (l : list A) : list A := fold_right insert_by [] l.
End Sorted.

(** ** The collaborators

    Code and constants of other modules ([chrome_set_ver], [cros_build_lib],
    [constants], [manifest_version], [repository]) and the outcome of the
    external commands are parameters of the development. *)

Definition attributes := list (str * str).

(** [cros_lib.ManifestHandler]: [projects] is a dictionary from project
    name to the attributes of its [<project>] tag, listed here in
    iteration order. *)
Record ManifestHandler := {
  default : option attributes;
  projects : list (str * attributes)
}.

Record collaborators := {
  deps : Type;
  GetParsedDeps : str -> deps * deps;
  (** the items of the returned dictionary, in iteration order *)
  GetPathToProjectMappings : deps -> list (str * str);
  ParseManifest : str -> result ManifestHandler;
  (** what an external command does when it is run: fail or return *)
  outcome : ext_call -> world -> option exn;
  isdir : str -> world -> bool;
  MANIFEST_URL : str;
  MANIFEST_INT_URL : str;
  DEFAULT_MANIFEST : str;
  PUSH_BRANCH : str
}.

(** [d.get(key, default)] *)
Definition get (d : attributes) (key : str) (dflt : str) : str :=
  match dict_get d key with
  | Some v => v
  | None => dflt
  end.

(** [x in l] *)
Definition mem (x : str) (l : list str) : bool := existsb (str_eqb x) l.

(** Truth value of an optional list: [None] and [[]] are false. *)
Definition truthy (l : option (list str)) : bool :=
  match l with
  | Some (_ :: _) => true
  | _ => false
  end.

Definition in_blacklist (project : str) (blacklist : option (list str)) : bool :=
  truthy blacklist &&
  match blacklist with
  | Some l => mem project l
  | None => false
  end.

Record Manifest := {
  repo_root : str;
  testroot : str;
  manifest_path : str;
  manifest_dir : str;
  new_manifest_path : str;
  internal : bool;
  dryrun : bool
}.

Definition Manifest__init__ (repo_root manifest_path testroot : str)
           (internal dryrun : bool) : Manifest :=
  {| repo_root := repo_root;
     testroot := testroot;
     manifest_path := manifest_path;
     manifest_dir := os_path_dirname manifest_path;
     new_manifest_path :=
       os_path_join (os_path_dirname manifest_path) (lit "new_update_manifest.xml");
     internal := internal;
     dryrun := dryrun |}.

(** The pattern of [_PartitionManifest], five groups: anything, the begin
    marker, anything, the end marker, anything. *)
Definition end_part (end_ : Re.regex) : Re.regex :=
  Re.Seq (Re.Group 4 end_) (Re.Group 5 (Re.Star Re.Dot)).

Definition begin_part (begin_ end_ : Re.regex) : Re.regex :=
  Re.Seq (Re.Group 2 begin_) (Re.Seq (Re.Group 3 (Re.Star Re.Dot)) (end_part end_)).

Definition partition_pattern (begin_ end_ : Re.regex) : Re.regex :=
  Re.Seq (Re.Group 1 (Re.Star Re.Dot)) (begin_part begin_ end_).

(** The pattern of the last write of [CreateNewManifest]: any whitespace,
    then group 1, which starts at the beginning of a line and holds
    optional whitespace, a run of non-whitespace characters and the rest
    of the text. *)
Definition line_regex : Re.regex :=
  Re.Seq Re.Bol
   (Re.Seq (Re.Star Re.Space) (Re.Seq (Re.Plus Re.NonSpace) (Re.Star Re.Dot))).

Definition bottom_regex : Re.regex :=
  Re.Seq (Re.Star Re.Space) (Re.Group 1 line_regex).

Definition re_DOTALL : Re.flags := {| Re.DOTALL := true; Re.MULTILINE := false |}.
Definition re_S_M : Re.flags := {| Re.DOTALL := true; Re.MULTILINE := true |}.

Section Program.
Variable env : collaborators.

(** Running an external command. *)
Definition call (c : ext_call) : M unit :=
  fun w =>
    let w' := {| files := files w; trace := trace w ++ [Call c] |} in
    match outcome env c w with
    | Some e => (inl e, w')
    | None => (inr tt, w')
    end.

(** The body of the loop of [ConvertDepsToManifest], over the sorted
    items still to be visited. *)
Fixpoint convert_loop (deps_file manifest_file template : str)
         (blacklist : option (list str)) (items : list (str * str))
         (previous_projects : list str) : M unit :=
  match items with
  | [] => ret tt
  | (rel_path, project) :: items' =>
      let rel_path := os_path_join (lit "chromium") rel_path in
      if in_blacklist project blacklist then
        Warning "Skipping project %s in %s" [project; deps_file] ;;
        convert_loop deps_file manifest_file template blacklist items'
                     previous_projects
      else if mem project previous_projects then
        Warning "Found double checkout of %s to %s" [project; rel_path] ;;
        convert_loop deps_file manifest_file template blacklist items'
                     previous_projects
      else
        text <- lift (format template (entry rel_path project)) ;;
        write manifest_file text ;;
        convert_loop deps_file manifest_file template blacklist items'
                     (project :: previous_projects)
  end.

Definition ConvertDepsToManifest (deps_file manifest_file template : str)
           (blacklist : option (list str)) : M unit :=
  let '(_, merged_deps) := GetParsedDeps env deps_file in
  let mappings := GetPathToProjectMappings env merged_deps in
  convert_loop deps_file manifest_file template blacklist
               (sorted snd mappings) [].

Definition ParseManifestString (manifest_xml : str) : M ManifestHandler :=
  lift (ParseManifest env manifest_xml).

Fixpoint check_projects (items : list (str * attributes)) : M unit :=
  match items with
  | [] => ret tt
  | (project, attrs) :: items' =>
      if negb (startswith (get attrs (lit "path") []) (lit "chromium/")) then
        raise (ManifestException
                 (lit "Project " ++ project
                    ++ lit " was about to be accidentally removed!"))
      else check_projects items'
  end.

Definition CheckForNonChromeProjects (manifest_xml : str) : M unit :=
  handler <- ParseManifestString manifest_xml ;;
  check_projects (projects handler).

Definition GetListOfProjects (manifest_xml : str) : M (list str) :=
  handler <- ParseManifestString manifest_xml ;;
  ret (map fst (projects handler)).

Definition _PartitionManifest (self : Manifest) : M (str * str * str) :=
  lines <- read_file (manifest_path self) ;;
  let regex := partition_pattern (Re.escape (strip _BEGIN_MARKER))
                                 (Re.escape (strip _END_MARKER)) in
  match Re.match_ regex lines re_DOTALL with
  | Some result => ret (Re.group result 1, Re.group result 3, Re.group result 5)
  | None => raise (ManifestException
                     (lit "Chromium projects begin/end markers not found!"))
  end.

(** The body of the [with open(self.new_manifest_path, 'w')] block of
    [CreateNewManifest]. *)
Definition write_new_manifest (self : Manifest) (new_manifest : str)
           (top_part bottom_part : str) : M unit :=
  write new_manifest top_part ;;
  write new_manifest (_BEGIN_MARKER ++ _EXTERNAL_HEADER) ;;
  text <- lift (format _EXTERNAL_PROJECT
                       (entry (lit "chromium/src") (lit "chromium/src"))) ;;
  write new_manifest text ;;
  let src_root := os_path_join (repo_root self) _CHROMIUM_SRC_ROOT in
  ConvertDepsToManifest (os_path_join src_root (lit ".DEPS.git")) new_manifest
                        _EXTERNAL_PROJECT None ;;
  write new_manifest [nl] ;;
  write new_manifest _CROS_HEADER ;;
  blacklist <- GetListOfProjects (top_part ++ bottom_part) ;;
  ConvertDepsToManifest (os_path_join src_root (lit "tools/cros.DEPS/DEPS"))
                        new_manifest _EXTERNAL_PROJECT (Some blacklist) ;;
  write new_manifest [nl] ;;
  (if internal self then
     write new_manifest _INTERNAL_HEADER ;;
     text <- lift (format _INTERNAL_PROJECT
                          (entry (lit "chromium/src-internal")
                                 (lit "chrome/src-internal"))) ;;
     write new_manifest text ;;
     let internal_deps :=
       os_path_join (os_path_join (repo_root self) _CHROMIUM_SRC_INTERNAL)
                    (lit ".DEPS.git") in
     ConvertDepsToManifest internal_deps new_manifest _INTERNAL_PROJECT None ;;
     write new_manifest [nl]
   else ret tt) ;;
  write new_manifest _END_MARKER ;;
  match Re.match_ bottom_regex bottom_part re_S_M with
  | Some mo => write new_manifest (Re.group mo 1)
  | None => raise (AttributeError
                     (lit "'NoneType' object has no attribute 'group'"))
  end.

Definition CreateNewManifest (self : Manifest) : M unit :=
  call (PrepForChanges (manifest_dir self) false) ;;
  parts <- _PartitionManifest self ;;
  let '(top_part, overwritten, bottom_part) := parts in
  xml <- lift (format _TEST_MANIFEST_TEMPLATE [(lit "content", overwritten)]) ;;
  CheckForNonChromeProjects xml ;;
  open_w (new_manifest_path self) ;;
  write_new_manifest self (new_manifest_path self) top_part bottom_part.

(** [filecmp.cmp(f1, f2, shallow=False)] *)
Definition filecmp_cmp (f1 f2 : str) : M bool :=
  fun w =>
    match files w f1, files w f2 with
    | Some a, Some b => (inr (str_eqb a b), w)
    | None, _ => (inl (OSError f1), w)
    | _, None => (inl (OSError f2), w)
    end.

Definition IsNewManifestDifferent (self : Manifest) : M bool :=
  same <- filecmp_cmp (new_manifest_path self) (manifest_path self) ;;
  ret (negb same).

(** [repository.RepoRepository(git_url, test_dir)] is taken to do no more
    than build the object on which [Sync] is called: its two arguments are
    carried by the two [Sync] events. What a sync writes under the test
    directory is not part of the state. *)
Definition TestNewManifest (self : Manifest) : M unit :=
  let test_dir :=
    os_path_join (testroot self)
                 (if internal self then _INTERNAL_TEST_DIR
                  else _EXTERNAL_TEST_DIR) in
  (fun w => if isdir env test_dir w then ret tt w
            else call (makedirs test_dir) w) ;;
  let git_url :=
    if internal self then MANIFEST_INT_URL env else MANIFEST_URL env in
  try_finally
    (try_except_reraise (fun _ => true)
       (call (Sync git_url test_dir (new_manifest_path self) 12))
       (Error "Failed to sync with new manifest!" []))
    (call (Sync git_url test_dir (DEFAULT_MANIFEST env) 12)).

(** [shutil.move(src, dst)] *)
Definition shutil_move (src dst : str) : M unit :=
  fun w =>
    match files w src with
    | Some data =>
        (inr tt, {| files := fs_set (fs_set (files w) src None) dst (Some data);
                    trace := trace w ++ [Move src dst] |})
    | None => (inl (IOError src), w)
    end.

Definition PushChanges (self : Manifest) : M unit :=
  shutil_move (new_manifest_path self) (manifest_path self) ;;
  call (RunCommand [lit "git"; lit "add"; manifest_path self]
                   (manifest_dir self)) ;;
  call (RunCommand [lit "git"; lit "commit"; lit "-m";
                    lit "Auto-updating manifest to match .DEPS.git file"]
                   (manifest_dir self)) ;;
  call (GitPushWithRetry (PUSH_BRANCH env) (manifest_dir self) (dryrun self)).

Definition is_ManifestException (e : exn) : bool :=
  match e with
  | ManifestException _ => true
  | _ => false
  end.

Definition PerformUpdate (self : Manifest) : M unit :=
  try_except_reraise is_ManifestException
    (CreateNewManifest self ;;
     different <- IsNewManifestDifferent self ;;
     if different then
       TestNewManifest self ;;
       PushChanges self
     else ret tt)
    (Error "Errors encountered while updating manifest!" []).

End Program.


(** * Vocabulary of the properties *)

(** The state of the matcher after a group [n] has taken [a] and left [b]. *)
Definition after (n : nat) (a b : str) (st : Re.mstate) : Re.mstate :=
  {| Re.prev := Re.last_of a (Re.prev st);
     Re.rest := b;
     Re.caps := (n, a) :: Re.caps st |}.

(** A run of [c]-characters cannot be extended into [b]. *)
Definition stops (c : ascii -> bool) (b : str) : Prop :=
  match b with
  | [] => True
  | y :: _ => c y = false
  end.

(** [s] holds a character that is not whitespace. *)
Definition has_nonspace (s : str) : bool :=
  existsb (fun c => negb (isspace c)) s.

(** A position at the beginning of the text or just after a newline. *)
Definition line_start (blank : str) : Prop :=
  blank = [] \/ exists b0, blank = b0 ++ [nl].

(** The first line of [s], up to its newline. *)
Fixpoint first_line (s : str) : str :=
  match s with
  | [] => []
  | c :: s' => if Ascii.eqb c nl then [] else c :: first_line s'
  end.

(** The marker texts the partitioner looks for. *)
Definition begin_text : str := strip _BEGIN_MARKER.
Definition end_text : str := strip _END_MARKER.

(** [marker] occurs in [doc] at offset [i]. *)
Definition occurs_at (marker doc : str) (i : nat) : Prop :=
  exists p s, doc = p ++ marker ++ s /\ length p = i.

(** [doc] is [p], the begin marker, [b], the end marker and [s]. *)
Definition splits (doc p b s : str) : Prop :=
  doc = p ++ begin_text ++ b ++ end_text ++ s.

(** The text of [template % {'path': ..., 'name': ...}]. *)
Definition render (template : str) (e : str * str) : str :=
  match format template (entry (fst e) (snd e)) with
  | inr text => text
  | inl _ => []
  end.

(** The two templates [ConvertDepsToManifest] is documented to take. *)
Definition project_template (template : str) : Prop :=
  template = _EXTERNAL_PROJECT \/ template = _INTERNAL_PROJECT.

(** The items of the dictionary read from [deps_file]. *)
Definition mappings_of (env : collaborators) (deps_file : str) : list (str * str) :=
  GetPathToProjectMappings env (snd (GetParsedDeps env deps_file)).

(** The (path, name) pairs of the entries the loop of
    [ConvertDepsToManifest] writes, in order. *)
Fixpoint emitted (blacklist : option (list str)) (items : list (str * str))
         (previous_projects : list str) : list (str * str) :=
  match items with
  | [] => []
  | (rel_path, project) :: items' =>
      if in_blacklist project blacklist then
        emitted blacklist items' previous_projects
      else if mem project previous_projects then
        emitted blacklist items' previous_projects
      else (os_path_join (lit "chromium") rel_path, project)
             :: emitted blacklist items' (project :: previous_projects)
  end.

(** The events of the loop of [ConvertDepsToManifest], in order. *)
Fixpoint loop_events (deps_file manifest_file template : str)
         (blacklist : option (list str)) (items : list (str * str))
         (previous_projects : list str) : list event :=
  match items with
  | [] => []
  | (rel_path, project) :: items' =>
      let rel_path := os_path_join (lit "chromium") rel_path in
      if in_blacklist project blacklist then
        Log WARNING (lit "Skipping project %s in %s") [project; deps_file]
          :: loop_events deps_file manifest_file template blacklist items'
                         previous_projects
      else if mem project previous_projects then
        Log WARNING (lit "Found double checkout of %s to %s") [project; rel_path]
          :: loop_events deps_file manifest_file template blacklist items'
                         previous_projects
      else
        Write manifest_file (render template (rel_path, project))
          :: loop_events deps_file manifest_file template blacklist items'
                         (project :: previous_projects)
  end.

(** Selections from a trace and from a list of entries. *)
Definition is_double_checkout (project : str) (e : event) : bool :=
  match e with
  | Log WARNING fmt [p; _] =>
      str_eqb fmt (lit "Found double checkout of %s to %s") && str_eqb p project
  | _ => false
  end.

Definition is_skipping (project : str) (e : event) : bool :=
  match e with
  | Log WARNING fmt [p; _] =>
      str_eqb fmt (lit "Skipping project %s in %s") && str_eqb p project
  | _ => false
  end.

Definition is_write (e : event) : bool :=
  match e with
  | Write _ _ => true
  | _ => false
  end.

Definition named (project : str) (it : str * str) : bool :=
  str_eqb (snd it) project.

(** The file at [path] has grown by [data]; the other files are as they
    were. *)
Definition appended (path data : str) (w w' : world) : Prop :=
  (forall old, files w path = Some old -> files w' path = Some (old ++ data)) /\
  (forall q, q <> path -> files w' q = files w q).

(** [c] returns [a] and appends [data] to the file at [path]. *)
Definition appends {A} (c : M A) (path : str) (a : A) (data : str) : Prop :=
  forall w, exists w', c w = (inr a, w') /\ appended path data w w'.

(** [c] appends [data] to the file at [path] and goes on as [final]. *)
Definition reaches {A} (c : M A) (w : world) (path data : str) (final : M A) : Prop :=
  exists w', appended path data w w' /\ c w = final w'.

(** Every event [c] adds to the trace satisfies [P], however [c] ends. *)
Definition emits_only (P : event -> bool) {A} (c : M A) : Prop :=
  forall w, exists evs, trace (snd (c w)) = trace w ++ evs /\ forallb P evs = true.

(** Events of the trial checkout and of publishing. *)
Definition is_trial_or_push (e : event) : bool :=
  match e with
  | Call (Sync _ _ _ _) | Call (RunCommand _ _) | Call (GitPushWithRetry _ _ _)
  | Call (makedirs _) | Move _ _ => true
  | _ => false
  end.

(** Events that create, change or replace a file. *)
Definition is_file_change (e : event) : bool :=
  match e with
  | OpenW _ | Write _ _ | Move _ _ => true
  | _ => false
  end.

(** What the converter appends for one dependency file. *)
Definition converted (env : collaborators) (deps_file template : str)
           (blacklist : option (list str)) : str :=
  concat (map (render template)
              (emitted blacklist (sorted snd (mappings_of env deps_file)) [])).

(** The text [write_new_manifest] puts between the two markers. *)
Definition autogenerated (env : collaborators) (self : Manifest)
           (blacklist : list str) : str :=
  let src_root := os_path_join (repo_root self) _CHROMIUM_SRC_ROOT in
  _EXTERNAL_HEADER
    ++ render _EXTERNAL_PROJECT (lit "chromium/src", lit "chromium/src")
    ++ converted env (os_path_join src_root (lit ".DEPS.git")) _EXTERNAL_PROJECT None
    ++ [nl]
    ++ _CROS_HEADER
    ++ converted env (os_path_join src_root (lit "tools/cros.DEPS/DEPS"))
                 _EXTERNAL_PROJECT (Some blacklist)
    ++ [nl]
    ++ (if internal self then
          _INTERNAL_HEADER
            ++ render _INTERNAL_PROJECT
                      (lit "chromium/src-internal", lit "chrome/src-internal")
            ++ converted env
                 (os_path_join (os_path_join (repo_root self) _CHROMIUM_SRC_INTERNAL)
                               (lit ".DEPS.git"))
                 _INTERNAL_PROJECT None
            ++ [nl]
        else []).

(** The last step of [write_new_manifest]. *)
Definition write_bottom (new_manifest bottom_part : str) : M unit :=
  match Re.match_ bottom_regex bottom_part re_S_M with
  | Some mo => write new_manifest (Re.group mo 1)
  | None => raise (AttributeError
                     (lit "'NoneType' object has no attribute 'group'"))
  end.

(** The region to be replaced, wrapped as [CreateNewManifest] wraps it. *)
Definition test_manifest (content : str) : str :=
  lit "<?xml version=" ++ [dq] ++ lit "1.0" ++ [dq] ++ lit " encoding=" ++ [dq]
    ++ lit "UTF-8" ++ [dq] ++ lit "?>" ++ [nl]
    ++ lit "<manifest>" ++ [nl]
    ++ content ++ [nl]
    ++ lit "</manifest>".

(** The test of [CheckForNonChromeProjects] on one project. *)
Definition outside_chromium (attrs : attributes) : bool :=
  negb (startswith (get attrs (lit "path") []) (lit "chromium/")).

(** The texts of the two project templates, filled in. *)
Definition external_project (path name : str) : str :=
  lit "  <project path=" ++ [dq] ++ path ++ [dq] ++ [nl]
    ++ lit "           name=" ++ [dq] ++ name ++ [dq] ++ [nl]
    ++ revision_line.

Definition internal_project (path name : str) : str :=
  lit "  <project remote=" ++ [dq] ++ lit "cros-internal" ++ [dq] ++ [nl]
    ++ lit "           path=" ++ [dq] ++ path ++ [dq] ++ [nl]
    ++ lit "           name=" ++ [dq] ++ name ++ [dq] ++ [nl]
    ++ revision_line.

(** An item of the mapping with its path under the checkout root. *)
Definition joined (it : str * str) : str * str :=
  (os_path_join (lit "chromium") (fst it), snd it).

(** The warnings of the loop for an item. *)
Definition double_checkout_warning (it : str * str) : event :=
  Log WARNING (lit "Found double checkout of %s to %s")
      [snd it; os_path_join (lit "chromium") (fst it)].

Definition skipping_warning (deps_file : str) (it : str * str) : event :=
  Log WARNING (lit "Skipping project %s in %s") [snd it; deps_file].

(** The first project [CheckForNonChromeProjects] objects to. *)
Fixpoint first_outside (items : list (str * attributes)) : option str :=
  match items with
  | [] => None
  | (project, attrs) :: items' =>
      if outside_chromium attrs then Some project else first_outside items'
  end.

Definition removed_message (project : str) : str :=
  lit "Project " ++ project ++ lit " was about to be accidentally removed!".

Definition markers_not_found : exn :=
  ManifestException (lit "Chromium projects begin/end markers not found!").

(** The three parts the partitioning pattern finds in [doc], if it matches. *)
Definition partition_of (doc : str) : option (str * str * str) :=
  match Re.match_ (partition_pattern (Re.escape begin_text) (Re.escape end_text))
                  doc re_DOTALL with
  | Some mo => Some (Re.group mo 1, Re.group mo 3, Re.group mo 5)
  | None => None
  end.

(** The world once [PrepForChanges] has been called. *)
Definition prepared (self : Manifest) (w : world) : world :=
  {| files := files w;
     trace := trace w ++ [Call (PrepForChanges (manifest_dir self) false)] |}.

(** Events other than those of the trial checkout and of publishing. *)
Definition quiet (e : event) : bool := negb (is_trial_or_push e).

(** The message logged when an update fails with a [ManifestException]. *)
Definition update_error : event :=
  Log ERROR (lit "Errors encountered while updating manifest!") [].

(** The split the specification describes: at the first begin marker and
    at the first end marker after it. *)
Definition first_split (doc p b s : str) : Prop :=
  splits doc p b s /\
  (forall p' t, doc = p' ++ begin_text ++ t -> length p <= length p') /\
  (forall b' s', b ++ end_text ++ s = b' ++ end_text ++ s' ->
                 length b <= length b').

(** The reading of the safety check in the specification: a project has a
    path attribute, and its value does not start with the prefix. *)
Definition has_foreign_path (h : ManifestHandler) : Prop :=
  exists project attrs v,
    In (project, attrs) (projects h) /\
    dict_get attrs (lit "path") = Some v /\
    startswith v (lit "chromium/") = false.

(** What the checker tests: a project without a path attribute, or with
    one whose value does not start with the prefix. *)
Definition has_project_outside (h : ManifestHandler) : Prop :=
  exists project attrs,
    In (project, attrs) (projects h) /\
    (dict_get attrs (lit "path") = None \/
     exists v, dict_get attrs (lit "path") = Some v /\
               startswith v (lit "chromium/") = false).

(** ** A small checkout, for examples *)

Module Demo.

Definition project_attrs (path name : str) : attributes :=
  [(lit "path", path); (lit "name", name)].

(** A parser for the two documents of the example: the wrapped region,
    which starts with the XML declaration, and the surrounding document. *)
Definition parse (region outer : list (str * attributes)) (xml : str)
  : result ManifestHandler :=
  if startswith xml (lit "<?xml")
  then inr {| default := None; projects := region |}
  else inr {| default := None; projects := outer |}.

Definition mappings (deps_file : str) : list (str * str) :=
  if str_eqb deps_file (lit "/repo/chromium/src/.DEPS.git") then
    [(lit "src/foo", lit "chromium/foo");
     (lit "src/bar", lit "chromium/bar");
     (lit "src/third_party/bar", lit "chromium/bar")]
  else if str_eqb deps_file (lit "/repo/chromium/src/tools/cros.DEPS/DEPS") then
    [(lit "src/cros", lit "chromium/cros");
     (lit "src/b", lit "b");
     (lit "src/third_party/b", lit "b")]
  else [].

Definition env_with (region : list (str * attributes)) : collaborators :=
  {| deps := list (str * str);
     GetParsedDeps := fun deps_file => ([], mappings deps_file);
     GetPathToProjectMappings := fun merged_deps => merged_deps;
     ParseManifest :=
       parse region [(lit "a", project_attrs (lit "a") (lit "a"));
                     (lit "b", project_attrs (lit "b") (lit "b"))];
     outcome := fun _ _ => None;
     isdir := fun _ _ => true;
     MANIFEST_URL := lit "ssh://gerrit/chromiumos/manifest";
     MANIFEST_INT_URL := lit "ssh://gerrit-int/chromeos/manifest-internal";
     DEFAULT_MANIFEST := lit "default";
     PUSH_BRANCH := lit "temp_auto_checkin_branch" |}.

(** The region to be replaced holds one project, under [chromium/]. *)
Definition env : collaborators :=
  env_with [(lit "chromium/old",
             project_attrs (lit "chromium/src/old") (lit "chromium/old"))].

(** The region to be replaced holds a project without a path attribute. *)
Definition env_no_path : collaborators :=
  env_with [(lit "foo", [(lit "name", lit "foo")])].

Definition self : Manifest :=
  Manifest__init__ (lit "/repo") (lit "/tmp/update-manifest/oldlayout.xml")
                   (lit "/tmp/test") false true.

Definition top : str :=
  lit "<manifest>" ++ [nl] ++ lit "  <project path='a' name='a' />" ++ [nl].

Definition old_region : str :=
  [nl; nl] ++ lit "  <project path='chromium/src/old' name='chromium/old' />"
    ++ [nl].

Definition bottom : str :=
  [nl; nl] ++ lit "  <project path='b' name='b' />" ++ [nl]
    ++ lit "</manifest>" ++ [nl].

Definition doc : str := top ++ begin_text ++ old_region ++ end_text ++ bottom.

Definition world_of (live : str) : world :=
  {| files := fs_set (fun _ => None) (manifest_path self) (Some live);
     trace := [] |}.

Definition fresh : world := world_of doc.

Definition staged_of (w : world) : str :=
  match files w (new_manifest_path self) with
  | Some data => data
  | None => []
  end.

(** The document the builder stages from [doc]; taken as the live
    manifest, it is staged again unchanged. *)
Definition settled_doc : str := staged_of (snd (CreateNewManifest env self fresh)).

Definition settled : world := world_of settled_doc.

(** A region to be replaced that holds a project without a path
    attribute. *)
Definition no_path_region : str :=
  [nl; nl] ++ lit "  <project name='foo' />" ++ [nl].

Definition no_path_doc : str :=
  top ++ begin_text ++ no_path_region ++ end_text ++ bottom.

(** A manifest without markers. *)
Definition plain_doc : str := lit "<manifest></manifest>".

(** Two regions one after the other. *)
Definition two_regions : str :=
  begin_text ++ lit "x" ++ end_text ++ lit "y"
    ++ begin_text ++ lit "z" ++ end_text.

(** A bottom part of blank lines only. *)
Definition blank_bottom_doc : str :=
  top ++ begin_text ++ old_region ++ end_text ++ [nl; nl].

End Demo.

Module DemoFiles.

(** The staged file of the example, just opened. *)
Definition opened : world :=
  snd (open_w (new_manifest_path Demo.self) Demo.fresh).

Definition DEPS : str := lit "/repo/chromium/src/.DEPS.git".
Definition cros_DEPS : str := lit "/repo/chromium/src/tools/cros.DEPS/DEPS".

End DemoFiles.

(** ** Vocabulary of the further properties *)

(** [c] changes no file other than the one at [path], however it ends. *)
Definition touches_only (path : str) {A} (c : M A) : Prop :=
  forall w q, q <> path -> files (snd (c w)) q = files w q.

(** [c] changes no file at all, however it ends. *)
Definition touches_nothing {A} (c : M A) : Prop :=
  forall w q, files (snd (c w)) q = files w q.

(** [s.endswith(suffix)] *)
Definition endswith (s suffix : str) : bool :=
  startswith (rev s) (rev suffix).

(** The directory, the commands and the message of the trial checkout. *)
Definition test_dir (self : Manifest) : str :=
  os_path_join (testroot self)
               (if internal self then _INTERNAL_TEST_DIR else _EXTERNAL_TEST_DIR).

Definition git_url (env : collaborators) (self : Manifest) : str :=
  if internal self then MANIFEST_INT_URL env else MANIFEST_URL env.

Definition trial_sync (env : collaborators) (self : Manifest) : ext_call :=
  Sync (git_url env self) (test_dir self) (new_manifest_path self) 12.

Definition default_sync (env : collaborators) (self : Manifest) : ext_call :=
  Sync (git_url env self) (test_dir self) (DEFAULT_MANIFEST env) 12.

Definition sync_failed : event :=
  Log ERROR (lit "Failed to sync with new manifest!") [].

(** The events of publishing: the move of the staged file and the git
    commands after it. *)
Definition is_publish (e : event) : bool :=
  match e with
  | Move _ _ | Call (RunCommand _ _) | Call (GitPushWithRetry _ _ _) => true
  | _ => false
  end.

Definition git_add (self : Manifest) : ext_call :=
  RunCommand [lit "git"; lit "add"; manifest_path self] (manifest_dir self).

Definition git_commit (self : Manifest) : ext_call :=
  RunCommand [lit "git"; lit "commit"; lit "-m";
              lit "Auto-updating manifest to match .DEPS.git file"]
             (manifest_dir self).

Definition git_push (env : collaborators) (self : Manifest) : ext_call :=
  GitPushWithRetry (PUSH_BRANCH env) (manifest_dir self) (dryrun self).

(** Events other than the error message of [PerformUpdate]. *)
Definition not_update_error (e : event) : bool :=
  match e with
  | Log ERROR fmt _ =>
      negb (str_eqb fmt (lit "Errors encountered while updating manifest!"))
  | _ => true
  end.

(** The world with one more event. *)
Definition logged (e : event) (w : world) : world :=
  {| files := files w; trace := trace w ++ [e] |}.

Definition is_slash (c : ascii) : bool := Ascii.eqb c "/".

Definition no_slash (s : str) : bool := forallb (fun c => negb (is_slash c)) s.

(** The name of the staged file. *)
Definition staged_name : str := lit "new_update_manifest.xml".

(** Events other than those of publishing. *)
Definition not_publish (e : event) : bool := negb (is_publish e).

(** The result is a raised [ManifestException]. *)
Definition raised_ManifestException {A} (r : result A) : bool :=
  match r with
  | inl e => is_ManifestException e
  | inr _ => false
  end.

(** The steps [PerformUpdate] runs inside its [try]. *)
Definition update_steps (env : collaborators) (self : Manifest) : M unit :=
  CreateNewManifest env self ;;
  different <- IsNewManifestDifferent self ;;
  if different then
    TestNewManifest env self ;;
    PushChanges env self
  else ret tt.

(** The names of a list are in strictly ascending order. *)
Fixpoint ascending (names : list str) : Prop :=
  match names with
  | [] => True
  | a :: rest =>
      Forall (fun b => str_leb a b = true /\ a <> b) rest /\ ascending rest
  end.

(** The names of a list are in ascending order, equal names allowed. *)
Fixpoint ordered (names : list str) : Prop :=
  match names with
  | [] => True
  | a :: rest => Forall (fun b => str_leb a b = true) rest /\ ordered rest
  end.

(** ** The callback of the [--testroot] option

    [_CheckTestRootOption(_option, _opt_str, value, parser)]: the result is
    the value the callback stores in [parser.values.testroot]. The
    exception [optparse.OptionValueError] belongs to another module, and so
    do [os.path.realpath] and [os.path.expanduser], which read the
    environment and the file system. *)
Definition _CheckTestRootOption (realpath expanduser : str -> str)
           (value : str) : result str :=
  let value := strip value in
  if match value with [] => true | _ :: _ => false end
     || str_eqb value (lit "/")
  then inl (External (lit "Invalid buildroot specified"))
  else inr (realpath (expanduser value)).

(** The values the callback refuses: blank ones, and the root directory
    with blanks around it. *)
Definition blank_or_root (value : str) : Prop :=
  forallb isspace value = true \/
  exists a b, value = a ++ lit "/" ++ b /\
              forallb isspace a = true /\ forallb isspace b = true.

(** The events of the builder once the staged file at [path] is open:
    writes to that file, and warnings. *)
Definition writes_to (path : str) (e : event) : bool :=
  match e with
  | Write p _ => str_eqb p path
  | Log WARNING _ _ => true
  | _ => false
  end.

(** ** The same dependencies in another iteration order

    Two variants of the small checkout: the dictionaries hold the items of
    [Demo.mappings], iterated in another order. In [shuffled] the two
    paths of a shared project name keep their relative order; in [swapped]
    they have changed places. *)
Module Reordered.

Definition shuffled_mappings (deps_file : str) : list (str * str) :=
  if str_eqb deps_file (lit "/repo/chromium/src/.DEPS.git") then
    [(lit "src/bar", lit "chromium/bar");
     (lit "src/foo", lit "chromium/foo");
     (lit "src/third_party/bar", lit "chromium/bar")]
  else if str_eqb deps_file (lit "/repo/chromium/src/tools/cros.DEPS/DEPS") then
    [(lit "src/b", lit "b");
     (lit "src/third_party/b", lit "b");
     (lit "src/cros", lit "chromium/cros")]
  else [].

Definition swapped_mappings (deps_file : str) : list (str * str) :=
  if str_eqb deps_file (lit "/repo/chromium/src/.DEPS.git") then
    [(lit "src/foo", lit "chromium/foo");
     (lit "src/third_party/bar", lit "chromium/bar");
     (lit "src/bar", lit "chromium/bar")]
  else if str_eqb deps_file (lit "/repo/chromium/src/tools/cros.DEPS/DEPS") then
    [(lit "src/cros", lit "chromium/cros");
     (lit "src/b", lit "b");
     (lit "src/third_party/b", lit "b")]
  else [].

Definition env_of (mappings : str -> list (str * str)) : collaborators :=
  {| deps := list (str * str);
     GetParsedDeps := fun deps_file => ([], mappings deps_file);
     GetPathToProjectMappings := fun merged_deps => merged_deps;
     ParseManifest := ParseManifest Demo.env;
     outcome := outcome Demo.env;
     isdir := isdir Demo.env;
     MANIFEST_URL := MANIFEST_URL Demo.env;
     MANIFEST_INT_URL := MANIFEST_INT_URL Demo.env;
     DEFAULT_MANIFEST := DEFAULT_MANIFEST Demo.env;
     PUSH_BRANCH := PUSH_BRANCH Demo.env |}.

Definition shuffled : collaborators := env_of shuffled_mappings.
Definition swapped : collaborators := env_of swapped_mappings.

End Reordered.

(** The file operations of a [Manifest] on its own two files: opening and
    writing the staged file, and moving it onto the live manifest. Events
    that are not file operations of the program pass. *)
Definition own_file_event (self : Manifest) (e : event) : bool :=
  match e with
  | OpenW path | Write path _ => str_eqb path (new_manifest_path self)
  | Move src dst =>
      str_eqb src (new_manifest_path self) && str_eqb dst (manifest_path self)
  | Call _ | Log _ _ _ => true
  end.

(** A checkout without test directory in which the sync with the staged
    manifest fails. *)
Module Failing.

Definition sync_error : exn := External (lit "repo sync failed").

Definition trial_fails : collaborators :=
  {| deps := deps Demo.env;
     GetParsedDeps := GetParsedDeps Demo.env;
     GetPathToProjectMappings := GetPathToProjectMappings Demo.env;
     ParseManifest := ParseManifest Demo.env;
     outcome := fun c _ =>
       match c with
       | Sync _ _ local_manifest _ =>
           if str_eqb local_manifest (new_manifest_path Demo.self)
           then Some sync_error else None
       | _ => None
       end;
     isdir := fun _ _ => false;
     MANIFEST_URL := MANIFEST_URL Demo.env;
     MANIFEST_INT_URL := MANIFEST_INT_URL Demo.env;
     DEFAULT_MANIFEST := DEFAULT_MANIFEST Demo.env;
     PUSH_BRANCH := PUSH_BRANCH Demo.env |}.

End Failing.

(** * Facts about the model *)

(** ** Lists of characters *)

Lemma startswith_app (p t : str) : startswith (p ++ t) p = true.
Proof.
  induction p as [|a p IH]; simpl; [reflexivity|].
  now rewrite Ascii.eqb_refl, IH.
Qed.

Lemma startswith_inv (s p : str) :
  startswith s p = true -> exists t, s = p ++ t.
Proof.
  revert s; induction p as [|a p IH]; intros s H.
  - now exists s.
  - destruct s as [|b s]; simpl in H; [discriminate|].
    apply andb_true_iff in H as [Hab Hs].
    apply Ascii.eqb_eq in Hab; subst b.
    destruct (IH _ Hs) as [t ->]. now exists t.
Qed.

Lemma skipn_length_app (p t : str) : skipn (length p) (p ++ t) = t.
Proof. induction p; simpl; auto. Qed.

Lemma firstn_consumed (a b : str) :
  firstn (length (a ++ b) - length b) (a ++ b) = a.
Proof.
  rewrite length_app, Nat.add_sub.
  rewrite firstn_app, Nat.sub_diag, firstn_all. simpl. apply app_nil_r.
Qed.

Lemma str_eqb_eq (a b : str) : str_eqb a b = true <-> a = b.
Proof.
  revert b; induction a as [|x a IH]; intros [|y b]; simpl;
    try (split; [discriminate|congruence]); [tauto|].
  rewrite andb_true_iff, Ascii.eqb_eq, IH. split.
  - now intros [-> ->].
  - intros H; injection H; auto.
Qed.

Lemma str_eqb_refl (a : str) : str_eqb a a = true.
Proof. now apply str_eqb_eq. Qed.

Lemma str_eqb_neq (a b : str) : str_eqb a b = false <-> a <> b.
Proof.
  rewrite <- str_eqb_eq. destruct (str_eqb a b); split; congruence.
Qed.

Lemma app_eq_length_inv {A} (a a' b b' : list A) :
  a ++ b = a' ++ b' -> length a = length a' -> a = a' /\ b = b'.
Proof.
  revert a'; induction a as [|x a IH]; intros [|y a'] H L; simpl in *;
    try discriminate; auto.
  injection H as -> H. injection L as L.
  destruct (IH _ H L) as [-> ->]. auto.
Qed.

Lemma has_nonspace_app (a b : str) :
  forallb isspace a = true -> has_nonspace (a ++ b) = has_nonspace b.
Proof.
  unfold has_nonspace. intros H. rewrite existsb_app.
  replace (existsb _ a) with false; [reflexivity|].
  induction a as [|x a IH]; simpl in *; [reflexivity|].
  apply andb_true_iff in H as [-> H]. simpl. auto.
Qed.

Lemma has_nonspace_split (s : str) :
  has_nonspace s = true ->
  exists w x r, s = w ++ x :: r /\ forallb isspace w = true /\ isspace x = false.
Proof.
  induction s as [|c s IH]; simpl; [discriminate|].
  destruct (isspace c) eqn:Hc; simpl.
  - intros H. destruct (IH H) as (w & x & r & -> & Hw & Hx).
    exists (c :: w), x, r. simpl. rewrite Hc, Hw. auto.
  - intros _. exists [], c, s. auto.
Qed.

Lemma first_line_cases (b : str) :
  has_nonspace b = true ->
  has_nonspace (first_line b) = true \/
  exists w b', b = w ++ nl :: b' /\ forallb isspace w = true /\
               has_nonspace b' = true.
Proof.
  induction b as [|c b IH]; [discriminate|].
  cbn [has_nonspace existsb first_line]. intros H.
  destruct (Ascii.eqb c nl) eqn:Hc.
  - apply Ascii.eqb_eq in Hc; subst c. right. exists [], b. auto.
  - destruct (isspace c) eqn:Hs; [|left; cbn; now rewrite Hs].
    destruct (IH H) as [IH'|(w & b' & -> & Hw & Hb')].
    + left. cbn. now rewrite Hs.
    + right. exists (c :: w), b'. cbn. rewrite Hs, Hw. auto.
Qed.

Lemma app_assoc4 {A} (a b c d e : list A) :
  (a ++ b ++ c ++ d) ++ e = a ++ b ++ c ++ d ++ e.
Proof. now rewrite <- !app_assoc. Qed.

Lemma all_space_no_nonspace (s : str) :
  forallb isspace s = true -> has_nonspace s = false.
Proof.
  intros H. rewrite <- (app_nil_r s), has_nonspace_app by assumption.
  reflexivity.
Qed.

(** ** The matcher *)

Module ReFacts.
Import Re.

Section Star.
Context {R : Type} (c : ascii -> bool) (k : option ascii -> str -> option R).

(** A failed repetition has tried every run of [c]-characters. *)
Lemma star_none (s : str) : forall p,
  star c p s k = None ->
  forall a b, s = a ++ b -> forallb c a = true -> k (last_of a p) b = None.
Proof.
  induction s as [|x s IH]; intros p H a b E Ha.
  - destruct a; [|discriminate]. simpl in *. now subst b.
  - simpl in H. destruct a as [|y a].
    + simpl in *. subst b.
      destruct (c x); [destruct (star c (Some x) s k)|]; congruence.
    + simpl in *. injection E as <- E.
      apply andb_true_iff in Ha as [Hx Ha]. rewrite Hx in H.
      destruct (star c (Some x) s k) eqn:Hs; [discriminate|].
      eapply IH; eauto.
Qed.

(** A successful repetition stops at the longest run of [c]-characters
    from which the rest of the pattern matches. *)
Lemma star_some (s : str) : forall p r,
  star c p s k = Some r ->
  exists a b, s = a ++ b /\ forallb c a = true /\
              k (last_of a p) b = Some r /\
              forall a' b', s = a' ++ b' -> forallb c a' = true ->
                            length a < length a' ->
                            k (last_of a' p) b' = None.
Proof.
  induction s as [|x s IH]; intros p r H.
  - exists [], []; simpl in *; repeat split; auto.
    intros [|? ?] b' E _ L; simpl in *; [lia|discriminate].
  - simpl in H. destruct (c x) eqn:Hx.
    + destruct (star c (Some x) s k) eqn:Hs.
      * injection H as ->.
        destruct (IH _ _ Hs) as (a & b & E & Ha & Hk & Hmax).
        exists (x :: a), b; simpl; rewrite Hx, Ha; repeat split; auto.
        { now rewrite E. }
        intros [|y a'] b' E' Ha' L; simpl in *; [lia|].
        injection E' as <- E'. apply andb_true_iff in Ha' as [_ Ha'].
        apply Hmax; auto. lia.
      * exists [], (x :: s); simpl; repeat split; auto.
        intros [|y a'] b' E' Ha' L; simpl in *; [lia|].
        injection E' as <- E'. apply andb_true_iff in Ha' as [_ Ha'].
        eapply star_none; eauto.
    + exists [], (x :: s); simpl; repeat split; auto.
      intros [|y a'] b' E' Ha' L; simpl in *; [lia|].
      injection E' as <- E'. rewrite Hx in Ha'. discriminate.
Qed.

(** Greedy repetition takes the whole run when the rest of the pattern
    matches after it. *)
Lemma star_first (a b : str) : forall p r,
  forallb c a = true -> stops c b -> k (last_of a p) b = Some r ->
  star c p (a ++ b) k = Some r.
Proof.
  induction a as [|x a IH]; intros p r Ha Hb Hk; simpl in *.
  - destruct b as [|y b]; simpl in *; [assumption|].
    now rewrite Hb.
  - apply andb_true_iff in Ha as [-> Ha]. now rewrite (IH _ _ Ha Hb Hk).
Qed.
End Star.

Lemma span_exists (c : ascii -> bool) (s : str) :
  exists a b, s = a ++ b /\ forallb c a = true /\ stops c b.
Proof.
  induction s as [|x s (a & b & -> & Ha & Hb)].
  - exists [], []. simpl. auto.
  - destruct (c x) eqn:Hx.
    + exists (x :: a), b. simpl. rewrite Hx, Ha. auto.
    + exists [], (x :: a ++ b). simpl. auto.
Qed.

Lemma forallb_any (a : str) : forallb (cls_in re_DOTALL Dot) a = true.
Proof. induction a; simpl; auto. Qed.

Lemma last_of_snoc (l : str) c d : last_of (l ++ [c]) d = Some c.
Proof. revert d; induction l; simpl; auto. Qed.

Lemma last_of_inv (a : str) :
  match last_of a None with
  | None => a = []
  | Some c => exists a0, a = a0 ++ [c]
  end.
Proof.
  destruct a as [|x a] using rev_ind; [reflexivity|].
  rewrite last_of_snoc. eauto.
Qed.

Lemma m_seq {R} f r1 r2 st (k : mstate -> option R) :
  m f (Seq r1 r2) st k = m f r1 st (fun st' => m f r2 st' k).
Proof. reflexivity. Qed.

Lemma m_star {R} f c st (k : mstate -> option R) :
  m f (Star c) st k =
  star (cls_in f c) (prev st) (rest st)
       (fun p s => k {| prev := p; rest := s; caps := caps st |}).
Proof. reflexivity. Qed.

Section Groups.
Context {R : Type} (f : flags) (n : nat) (k : mstate -> option R).

Lemma group_star_some c st r :
  m f (Group n (Star c)) st k = Some r ->
  exists a b, rest st = a ++ b /\ forallb (cls_in f c) a = true /\
    k (after n a b st) = Some r /\
    forall a' b', rest st = a' ++ b' -> forallb (cls_in f c) a' = true ->
                  length a < length a' -> k (after n a' b' st) = None.
Proof.
  destruct st as [p s cs]. cbn [m prev rest caps]. intros H.
  apply star_some in H. destruct H as (a & b & -> & Ha & H & Hmax).
  exists a, b. rewrite firstn_consumed in H. repeat split; auto.
  intros a' b' E Ha' L. specialize (Hmax a' b' E Ha' L).
  rewrite E, firstn_consumed in Hmax. exact Hmax.
Qed.

Lemma group_star_none c st :
  m f (Group n (Star c)) st k = None ->
  forall a b, rest st = a ++ b -> forallb (cls_in f c) a = true ->
              k (after n a b st) = None.
Proof.
  destruct st as [p s cs]. cbn [m prev rest caps]. intros H a b E Ha.
  eapply star_none in H; eauto. subst s.
  rewrite firstn_consumed in H. exact H.
Qed.

Lemma group_lit_app l t st :
  rest st = l ++ t -> m f (Group n (Lit l)) st k = k (after n l t st).
Proof.
  destruct st as [p s cs]. cbn [m prev rest caps advance]. intros ->.
  rewrite startswith_app, skipn_length_app, firstn_consumed. reflexivity.
Qed.

Lemma group_lit_some l st r :
  m f (Group n (Lit l)) st k = Some r ->
  exists t, rest st = l ++ t /\ k (after n l t st) = Some r.
Proof.
  intros H. destruct (startswith (rest st) l) eqn:Hs.
  - apply startswith_inv in Hs as [t Ht]. exists t. split; auto.
    now rewrite (group_lit_app _ _ _ Ht) in H.
  - cbn [m] in H. rewrite Hs in H. discriminate.
Qed.
End Groups.

End ReFacts.

(** ** The partitioning pattern *)

Module PartitionFacts.
Import Re ReFacts.

Section Markers.
Variables bm em : str.

Lemma end_part_complete st s' :
  rest st = em ++ s' -> m re_DOTALL (end_part (Lit em)) st finish <> None.
Proof.
  intros E H. unfold end_part in H.
  rewrite m_seq, (group_lit_app _ _ _ _ _ _ E) in H.
  eapply group_star_none with (a := []) (b := s') in H; [discriminate| |];
    reflexivity.
Qed.

Lemma begin_part_complete st b' s' :
  rest st = bm ++ b' ++ em ++ s' ->
  m re_DOTALL (begin_part (Lit bm) (Lit em)) st finish <> None.
Proof.
  intros E H. unfold begin_part in H.
  rewrite m_seq, (group_lit_app _ _ _ _ _ _ E), m_seq in H.
  eapply group_star_none with (a := b') (b := em ++ s') in H;
    [|reflexivity|apply forallb_any].
  eapply end_part_complete; [|exact H]. reflexivity.
Qed.

(** What a match of the pattern returns: the split at the last begin
    marker that an end marker follows, and at the last end marker. *)
Lemma pattern_match_some (doc : str) mo :
  match_ (partition_pattern (Lit bm) (Lit em)) doc re_DOTALL = Some mo ->
  exists p b s,
    mo = [(5, s); (4, em); (3, b); (2, bm); (1, p)] /\
    doc = p ++ bm ++ b ++ em ++ s /\
    forall p' b' s', doc = p' ++ bm ++ b' ++ em ++ s' ->
      length p' <= length p /\
      (length p' = length p -> length b' <= length b).
Proof.
  unfold match_, partition_pattern. intros H.
  rewrite m_seq in H.
  apply group_star_some in H. destruct H as (p & t1 & E1 & _ & H & Hmax1).
  pose proof H as H0. unfold begin_part in H. rewrite m_seq in H.
  apply group_lit_some in H. destruct H as (t2 & E2 & H).
  rewrite m_seq in H.
  apply group_star_some in H. destruct H as (b & t3 & E3 & _ & H & Hmax3).
  unfold end_part in H. rewrite m_seq in H.
  apply group_lit_some in H. destruct H as (t4 & E4 & H).
  apply group_star_some in H. destruct H as (s & t5 & E5 & _ & H & Hmax5).
  cbn [rest prev caps after finish] in *.
  assert (t5 = []) as ->.
  { destruct t5 as [|x t5]; [reflexivity|].
    specialize (Hmax5 t4 [] (eq_sym (app_nil_r _)) (forallb_any _)).
    rewrite E5, length_app in Hmax5. simpl in Hmax5.
    discriminate Hmax5. lia. }
  rewrite app_nil_r in E5. subst t4 t3 t2 t1.
  unfold finish in H. cbn [caps] in H.
  injection H as <-. exists p, b, s. repeat split; auto.
  - destruct (le_lt_dec (length p') (length p)) as [|L]; [assumption|].
    exfalso. specialize (Hmax1 _ _ H (forallb_any _) L).
    eapply begin_part_complete; [|exact Hmax1]. reflexivity.
  - intros L. rewrite E1 in H.
    destruct (app_eq_length_inv _ _ _ _ H (eq_sym L)) as [_ H'].
    apply app_inv_head in H'.
    destruct (le_lt_dec (length b') (length b)) as [|L']; [assumption|].
    exfalso. specialize (Hmax3 _ _ H' (forallb_any _) L').
    eapply end_part_complete; [|exact Hmax3]. reflexivity.
Qed.

(** The pattern fails only when no begin marker is followed by an end
    marker. *)
Lemma pattern_match_none (doc : str) :
  match_ (partition_pattern (Lit bm) (Lit em)) doc re_DOTALL = None ->
  forall p b s, doc <> p ++ bm ++ b ++ em ++ s.
Proof.
  unfold match_, partition_pattern. intros H p b s E.
  rewrite m_seq in H.
  eapply group_star_none with (a := p) in H;
    [|exact E|apply forallb_any].
  eapply begin_part_complete; [|exact H]. reflexivity.
Qed.
End Markers.

End PartitionFacts.

(** ** The pattern that strips the blank lines above the bottom block *)

Module BottomFacts.
Import Re ReFacts.

(** Group 1 matches at the beginning of a line of a text that holds a
    character other than whitespace, and then takes all of the text. *)
Lemma line_group st :
  m re_S_M (Group 1 line_regex) st finish =
  if at_bol re_S_M st && has_nonspace (rest st)
  then Some ((1, rest st) :: caps st) else None.
Proof.
  destruct st as [p s cs]. unfold line_regex. cbn [m prev rest caps].
  destruct (at_bol re_S_M _); simpl andb; [|reflexivity].
  destruct (has_nonspace s) eqn:Hs.
  - destruct (has_nonspace_split _ Hs) as (w & x & r & -> & Hw & Hx).
    destruct (span_exists (cls_in re_S_M NonSpace) r) as (a & b & -> & Ha & Hb).
    apply star_first; auto.
    cbn [cls_in]. rewrite Hx. cbn [negb].
    change (fun c => negb (isspace c)) with (cls_in re_S_M NonSpace).
    apply star_first; auto.
    rewrite <- (app_nil_r b) at 1.
    apply star_first; simpl; auto.
    { clear. induction b; simpl; auto. }
    unfold finish. cbn [caps rest prev].
    now rewrite Nat.sub_0_r, firstn_all.
  - match goal with |- ?lhs = None => destruct lhs eqn:H end; [|reflexivity].
    exfalso. apply star_some in H.
    destruct H as (a & b & -> & Ha & H & _).
    rewrite has_nonspace_app in Hs by exact Ha.
    destruct b as [|x b]; [discriminate|].
    cbn [has_nonspace existsb] in Hs. cbn [cls_in] in H.
    destruct (isspace x); simpl in *; discriminate.
Qed.

(** On whitespace alone the pattern does not match. *)
Lemma bottom_match_none (s : str) :
  has_nonspace s = false -> match_ bottom_regex s re_S_M = None.
Proof.
  intros Hs. unfold match_, bottom_regex. rewrite m_seq.
  match goal with |- ?lhs = None => destruct lhs eqn:H end; [|reflexivity].
  exfalso. rewrite m_star in H. cbn [prev rest caps] in H.
  apply star_some in H.
  destruct H as (a & b & E & Ha & H & _).
  rewrite line_group in H. cbn [rest] in H.
  simpl in E. subst s. rewrite has_nonspace_app in Hs by exact Ha.
  rewrite Hs, andb_false_r in H. discriminate.
Qed.

(** On a text that holds a character other than whitespace, group 1 is
    the text from the beginning of the first line that holds such a
    character; what is dropped is whitespace only. *)
Lemma bottom_match_some (s : str) :
  has_nonspace s = true ->
  exists blank tail,
    match_ bottom_regex s re_S_M = Some [(1, tail)] /\
    s = blank ++ tail /\
    forallb isspace blank = true /\
    line_start blank /\
    has_nonspace (first_line tail) = true.
Proof.
  intros Hs. unfold match_, bottom_regex. rewrite m_seq, m_star.
  cbn [prev rest caps].
  match goal with
  | |- context [star ?c ?p ?s ?k] => destruct (star c p s k) eqn:H
  end.
  - apply star_some in H.
    destruct H as (a & b & E & Ha & H & Hmax).
    rewrite line_group in H. cbn [rest caps] in H.
    destruct (at_bol _ _ && has_nonspace b) eqn:Hb; [|discriminate].
    injection H as <-. apply andb_true_iff in Hb as [Hbol Hb].
    exists a, b. repeat split; auto.
    + unfold at_bol in Hbol. cbn [prev] in Hbol.
      pose proof (last_of_inv a) as Hl.
      destruct (last_of a None) as [c|]; [|now left].
      right. simpl in Hbol. apply Ascii.eqb_eq in Hbol. now subst c.
    + destruct (first_line_cases _ Hb) as [|(w & b' & -> & Hw & Hb')];
        [assumption|exfalso].
      specialize (Hmax (a ++ w ++ [nl]) b').
      rewrite line_group in Hmax. cbn [rest prev caps at_bol] in Hmax.
      rewrite app_assoc, last_of_snoc, Hb' in Hmax.
      simpl in Hmax. rewrite <- app_assoc in Hmax.
      assert (None = Some [(1, b')] :> option (list (nat * str)));
        [|discriminate].
      symmetry. apply Hmax.
      * rewrite E, <- !app_assoc. reflexivity.
      * rewrite !forallb_app, Ha. change (cls_in re_S_M Space) with isspace.
        rewrite Hw. reflexivity.
      * rewrite !length_app. simpl. lia.
  - exfalso. eapply star_none with (a := []) (b := s) in H; auto.
    rewrite line_group in H. cbn [prev rest caps at_bol last_of] in H.
    rewrite Hs in H. discriminate.
Qed.

End BottomFacts.

(** ** Running computations *)

Lemma bind_inr {A C} (c : M A) (k : A -> M C) w a w1 :
  c w = (inr a, w1) -> bind c k w = k a w1.
Proof. unfold bind. now intros ->. Qed.

Lemma bind_inl {A C} (c : M A) (k : A -> M C) w e w1 :
  c w = (inl e, w1) -> bind c k w = (inl e, w1).
Proof. unfold bind. now intros ->. Qed.

Lemma fs_set_eq (f : fs) p v : fs_set f p v p = v.
Proof. unfold fs_set. now rewrite str_eqb_refl. Qed.

Lemma fs_set_neq (f : fs) p v q : q <> p -> fs_set f p v q = f q.
Proof. unfold fs_set. intros H. apply str_eqb_neq in H. now rewrite H. Qed.

Lemma appended_refl p w : appended p [] w w.
Proof. split; [intros old ->; now rewrite app_nil_r|auto]. Qed.

Lemma appended_trans p d1 d2 w w1 w2 :
  appended p d1 w w1 -> appended p d2 w1 w2 -> appended p (d1 ++ d2) w w2.
Proof.
  intros [H1 F1] [H2 F2]. split.
  - intros old H. rewrite app_assoc. auto.
  - intros q Hq. rewrite F2, F1; auto.
Qed.

Lemma appends_ret {A} (a : A) p : appends (ret a) p a [].
Proof. intros w. exists w. split; [reflexivity|apply appended_refl]. Qed.

Lemma appends_lift {A} (r : result A) (a : A) p :
  r = inr a -> appends (lift r) p a [].
Proof. intros -> w. exists w. split; [reflexivity|apply appended_refl]. Qed.

Lemma appends_write p d : appends (write p d) p tt d.
Proof.
  intros w. eexists. split; [reflexivity|]. split; cbn [files].
  - intros old ->. apply fs_set_eq.
  - intros q Hq. now apply fs_set_neq.
Qed.

Lemma appends_bind {A C} (c : M A) (k : A -> M C) p a b d1 d2 :
  appends c p a d1 -> appends (k a) p b d2 ->
  appends (bind c k) p b (d1 ++ d2).
Proof.
  intros H1 H2 w. destruct (H1 w) as (w1 & R1 & A1).
  destruct (H2 w1) as (w2 & R2 & A2). exists w2. split.
  - now rewrite (bind_inr _ _ _ _ _ R1).
  - eapply appended_trans; eauto.
Qed.

Lemma reaches_done {A} (final : M A) w p : reaches final w p [] final.
Proof. exists w. split; [apply appended_refl|reflexivity]. Qed.

Lemma reaches_step {A C} (c : M A) (k : A -> M C) p a d1 d2 final w :
  appends c p a d1 -> (forall w1, reaches (k a) w1 p d2 final) ->
  reaches (bind c k) w p (d1 ++ d2) final.
Proof.
  intros H1 H2. destruct (H1 w) as (w1 & R1 & A1).
  destruct (H2 w1) as (w2 & A2 & R2). exists w2. split.
  - eapply appended_trans; eauto.
  - now rewrite (bind_inr _ _ _ _ _ R1).
Qed.

(** *** What a computation adds to the trace *)

Section Emits.
Variable P : event -> bool.

Lemma emits_ret {A} (a : A) : emits_only P (ret a).
Proof. intros w. exists []. now rewrite app_nil_r. Qed.

Lemma emits_raise {A} e : emits_only P (@raise A e).
Proof. intros w. exists []. now rewrite app_nil_r. Qed.

Lemma emits_lift {A} (r : result A) : emits_only P (lift r).
Proof. intros w. exists []. now rewrite app_nil_r. Qed.

Lemma emits_emit e : P e = true -> emits_only P (emit e).
Proof. intros H w. exists [e]. simpl. now rewrite H. Qed.

Lemma emits_write p d : P (Write p d) = true -> emits_only P (write p d).
Proof. intros H w. exists [Write p d]. simpl. now rewrite H. Qed.

Lemma emits_open p : P (OpenW p) = true -> emits_only P (open_w p).
Proof. intros H w. exists [OpenW p]. simpl. now rewrite H. Qed.

Lemma emits_bind {A C} (c : M A) (k : A -> M C) :
  emits_only P c -> (forall a, emits_only P (k a)) -> emits_only P (bind c k).
Proof.
  intros H1 H2 w. unfold bind. destruct (H1 w) as (e1 & T1 & P1).
  destruct (c w) as [[e|a] w1]; cbn [snd] in *; [eauto|].
  destruct (H2 a w1) as (e2 & T2 & P2). exists (e1 ++ e2).
  rewrite T2, T1, app_assoc, forallb_app, P1, P2. auto.
Qed.
End Emits.

(** ** Templates *)

Lemma format_external (path name : str) :
  format _EXTERNAL_PROJECT (entry path name) = inr (external_project path name).
Proof. reflexivity. Qed.

Lemma format_internal (path name : str) :
  format _INTERNAL_PROJECT (entry path name) = inr (internal_project path name).
Proof. reflexivity. Qed.

Lemma format_test_manifest (content : str) :
  format _TEST_MANIFEST_TEMPLATE [(lit "content", content)]
  = inr (test_manifest content).
Proof. reflexivity. Qed.

Lemma render_ok (template : str) (path name : str) :
  project_template template ->
  format template (entry path name) = inr (render template (path, name)).
Proof.
  intros [-> | ->]; unfold render; cbn [fst snd].
  - now rewrite format_external.
  - now rewrite format_internal.
Qed.

(** ** The converter *)

Section Convert.
Variable env : collaborators.
Variables deps_file manifest_file template : str.
Variable blacklist : option (list str).
Hypothesis template_ok : project_template template.

(** The loop never raises: it writes the entries of [emitted] and logs
    the warnings of [loop_events]. *)
Lemma convert_loop_run (items : list (str * str)) :
  forall previous_projects w,
  exists w',
    convert_loop deps_file manifest_file template blacklist items
                 previous_projects w = (inr tt, w') /\
    appended manifest_file
             (concat (map (render template)
                          (emitted blacklist items previous_projects))) w w' /\
    trace w' = trace w ++ loop_events deps_file manifest_file template blacklist
                                      items previous_projects.
Proof.
  induction items as [|[rel_path project] items IH]; intros prev w.
  - exists w. cbn. rewrite app_nil_r. repeat split; auto.
    intros old ->. now rewrite app_nil_r.
  - cbn [convert_loop emitted loop_events].
    destruct (in_blacklist project blacklist);
      [|destruct (mem project prev)].
    + unfold Warning, emit, bind at 1.
      match goal with
      | |- context [convert_loop _ _ _ _ _ _ ?w1] =>
          destruct (IH prev w1) as (w' & R & [A F] & T)
      end.
      exists w'. cbn [files trace] in *. rewrite R, T, <- app_assoc.
      repeat split; auto.
    + unfold Warning, emit, bind at 1.
      match goal with
      | |- context [convert_loop _ _ _ _ _ _ ?w1] =>
          destruct (IH prev w1) as (w' & R & [A F] & T)
      end.
      exists w'. cbn [files trace] in *. rewrite R, T, <- app_assoc.
      repeat split; auto.
    + unfold bind at 1, lift.
      rewrite (render_ok template _ project template_ok).
      destruct (appends_write manifest_file
                  (render template (os_path_join (lit "chromium") rel_path, project)) w)
        as (w1 & R1 & A1).
      rewrite (bind_inr _ _ _ _ _ R1).
      destruct (IH (project :: prev) w1) as (w' & R & A & T).
      exists w'. split; [exact R|]. split.
      * cbn [map concat]. eapply appended_trans; eauto.
      * rewrite T. injection R1 as <-. cbn [trace].
        now rewrite <- app_assoc.
Qed.

Lemma ConvertDepsToManifest_run w :
  exists w',
    ConvertDepsToManifest env deps_file manifest_file template blacklist w
    = (inr tt, w') /\
    appended manifest_file (converted env deps_file template blacklist) w w' /\
    trace w' = trace w ++ loop_events deps_file manifest_file template blacklist
                            (sorted snd (mappings_of env deps_file)) [].
Proof.
  unfold ConvertDepsToManifest, converted, mappings_of.
  destruct (GetParsedDeps env deps_file) as [d merged_deps]. cbn [snd].
  apply convert_loop_run.
Qed.

Lemma appends_ConvertDepsToManifest :
  appends (ConvertDepsToManifest env deps_file manifest_file template blacklist)
          manifest_file tt (converted env deps_file template blacklist).
Proof.
  intros w. destruct (ConvertDepsToManifest_run w) as (w' & R & A & _). eauto.
Qed.
End Convert.

(** *** Sorting keeps the items of one project in their order *)

Lemma str_leb_refl (a : str) : str_leb a a = true.
Proof. induction a; simpl; [reflexivity|]. now rewrite Nat.compare_refl. Qed.

Lemma named_eq (project : str) (it : str * str) :
  named project it = true <-> snd it = project.
Proof. apply str_eqb_eq. Qed.

Lemma filter_insert_by (project : str) (x : str * str) (l : list (str * str)) :
  filter (named project) (insert_by snd x l)
  = if named project x then x :: filter (named project) l
    else filter (named project) l.
Proof.
  induction l as [|y l IH]; cbn [insert_by].
  - reflexivity.
  - destruct (str_leb (snd x) (snd y)) eqn:L; [reflexivity|].
    cbn [filter]. rewrite IH.
    destruct (named project x) eqn:Hx, (named project y) eqn:Hy; try reflexivity.
    apply named_eq in Hx, Hy. rewrite Hx, Hy, str_leb_refl in L. discriminate.
Qed.

Lemma filter_sorted (project : str) (l : list (str * str)) :
  filter (named project) (sorted snd l) = filter (named project) l.
Proof.
  induction l as [|x l IH]; [reflexivity|].
  cbn [sorted fold_right]. rewrite filter_insert_by. fold (sorted snd l).
  rewrite IH. reflexivity.
Qed.

Lemma In_sorted {A} (key : A -> str) (x : A) (l : list A) :
  In x (sorted key l) <-> In x l.
Proof.
  assert (Hins : forall y s, In x (insert_by key y s) <-> x = y \/ In x s).
  { intros y s. induction s as [|z s IH]; cbn [insert_by].
    - simpl. intuition.
    - destruct (str_leb (key y) (key z)); simpl in *; [intuition|].
      rewrite IH. intuition. }
  induction l as [|y l IH]; [reflexivity|].
  cbn [sorted fold_right]. rewrite Hins. fold (sorted key l).
  rewrite IH. simpl. intuition.
Qed.

(** *** What the loop does with the items of one project *)

Lemma mem_cons (x y : str) (l : list str) :
  mem x (y :: l) = str_eqb x y || mem x l.
Proof. reflexivity. Qed.

Lemma str_eqb_sym (a b : str) : str_eqb a b = str_eqb b a.
Proof.
  destruct (str_eqb a b) eqn:H.
  - apply str_eqb_eq in H. subst. now rewrite str_eqb_refl.
  - apply str_eqb_neq in H. symmetry. apply str_eqb_neq. congruence.
Qed.

Lemma named_pair (project path p : str) :
  named project (path, p) = str_eqb p project.
Proof. reflexivity. Qed.

Section Loop.
Variables deps_file manifest_file template : str.
Variable blacklist : option (list str).
Variable project : str.

(** Of the items of [project], only the first is written, and only when
    the project is neither blacklisted nor already written. *)
Lemma emitted_named (items : list (str * str)) : forall previous_projects,
  filter (named project) (emitted blacklist items previous_projects)
  = if in_blacklist project blacklist || mem project previous_projects then []
    else firstn 1 (map joined (filter (named project) items)).
Proof.
  induction items as [|[rel_path p] items IH]; intros prev.
  - cbn. now destruct (_ || _).
  - cbn [emitted filter]. rewrite named_pair.
    destruct (str_eqb p project) eqn:Hp.
    + apply str_eqb_eq in Hp. subst p.
      destruct (in_blacklist project blacklist) eqn:Hb; cbn [orb].
      { rewrite IH. reflexivity. }
      destruct (mem project prev) eqn:Hm.
      { rewrite IH, Hm. reflexivity. }
      cbn [filter map firstn]. rewrite named_pair, str_eqb_refl.
      rewrite IH, mem_cons, str_eqb_refl. reflexivity.
    + destruct (in_blacklist p blacklist); [apply IH|].
      destruct (mem p prev); [apply IH|].
      cbn [filter]. rewrite named_pair, Hp, IH, mem_cons.
      rewrite str_eqb_sym, Hp. reflexivity.
Qed.

Lemma is_double_checkout_spec (p path : str) :
  is_double_checkout project
    (Log WARNING (lit "Found double checkout of %s to %s") [p; path])
  = str_eqb p project.
Proof. reflexivity. Qed.

Lemma is_skipping_spec (p file : str) :
  is_skipping project (Log WARNING (lit "Skipping project %s in %s") [p; file])
  = str_eqb p project.
Proof. reflexivity. Qed.

(** Every further item of a project that is not blacklisted is reported
    as a double checkout. *)
Lemma loop_double_checkouts (items : list (str * str)) : forall previous_projects,
  filter (is_double_checkout project)
         (loop_events deps_file manifest_file template blacklist items
                      previous_projects)
  = if in_blacklist project blacklist then []
    else map double_checkout_warning
             (if mem project previous_projects
              then filter (named project) items
              else tl (filter (named project) items)).
Proof.
  induction items as [|[rel_path p] items IH]; intros prev.
  - cbn [loop_events filter].
    destruct (in_blacklist project blacklist), (mem project prev); reflexivity.
  - cbn [loop_events filter]. rewrite named_pair.
    destruct (in_blacklist p blacklist) eqn:Hb;
      [|destruct (mem p prev) eqn:Hm]; cbn [filter].
    + change (is_double_checkout project (Log WARNING _ _)) with false.
      cbv iota. rewrite IH.
      destruct (str_eqb p project) eqn:Hp; [|reflexivity].
      apply str_eqb_eq in Hp. subst p. now rewrite Hb.
    + rewrite is_double_checkout_spec, IH.
      destruct (str_eqb p project) eqn:Hp.
      * apply str_eqb_eq in Hp. subst p. rewrite Hb, Hm. reflexivity.
      * reflexivity.
    + rewrite IH, mem_cons.
      destruct (str_eqb p project) eqn:Hp.
      * apply str_eqb_eq in Hp. subst p.
        rewrite Hb, Hm, str_eqb_refl. reflexivity.
      * rewrite str_eqb_sym, Hp. reflexivity.
Qed.

(** Every item of a blacklisted project is reported as skipped. *)
Lemma loop_skippings (items : list (str * str)) : forall previous_projects,
  filter (is_skipping project)
         (loop_events deps_file manifest_file template blacklist items
                      previous_projects)
  = if in_blacklist project blacklist
    then map (skipping_warning deps_file) (filter (named project) items)
    else [].
Proof.
  induction items as [|[rel_path p] items IH]; intros prev.
  - cbn [loop_events filter].
    destruct (in_blacklist project blacklist); reflexivity.
  - cbn [loop_events filter]. rewrite named_pair.
    destruct (in_blacklist p blacklist) eqn:Hb;
      [|destruct (mem p prev) eqn:Hm]; cbn [filter].
    + rewrite is_skipping_spec, IH.
      destruct (str_eqb p project) eqn:Hp; [|reflexivity].
      apply str_eqb_eq in Hp. subst p. now rewrite Hb.
    + change (is_skipping project (Log WARNING _ _)) with false.
      cbv iota. rewrite IH.
      destruct (str_eqb p project) eqn:Hp; [|reflexivity].
      apply str_eqb_eq in Hp. subst p. now rewrite Hb.
    + rewrite IH.
      destruct (str_eqb p project) eqn:Hp; [|reflexivity].
      apply str_eqb_eq in Hp. subst p. now rewrite Hb.
Qed.

(** The writes of the loop are the entries of [emitted], rendered. *)
Lemma loop_writes (items : list (str * str)) : forall previous_projects,
  filter is_write
         (loop_events deps_file manifest_file template blacklist items
                      previous_projects)
  = map (fun e => Write manifest_file (render template e))
        (emitted blacklist items previous_projects).
Proof.
  induction items as [|[rel_path p] items IH]; intros prev; [reflexivity|].
  cbn [loop_events emitted].
  destruct (in_blacklist p blacklist); [|destruct (mem p prev)];
    cbn [filter is_write map]; now rewrite IH.
Qed.
End Loop.

Lemma mem_In (x : str) (l : list str) : mem x l = true <-> In x l.
Proof.
  unfold mem. rewrite existsb_exists. split.
  - intros (y & Hy & E). apply str_eqb_eq in E. now subst.
  - intros H. exists x. split; [assumption|apply str_eqb_refl].
Qed.

Lemma in_blacklist_In (project : str) (l : list str) :
  In project l -> in_blacklist project (Some l) = true.
Proof.
  intros H. unfold in_blacklist. rewrite (proj2 (mem_In _ _) H).
  destruct l; [destruct H|reflexivity].
Qed.

Lemma filter_nil_inv {A} (f : A -> bool) (l : list A) :
  filter f l = [] -> forall x, In x l -> f x = false.
Proof.
  induction l as [|y l IH]; intros H x []; simpl in H.
  - subst y. destruct (f x); [discriminate|reflexivity].
  - destruct (f y); [discriminate|auto].
Qed.

Lemma filter_first {A} (f : A -> bool) (l : list A) x r :
  filter f l = x :: r ->
  exists before rest, l = before ++ x :: rest /\
                      forall y, In y before -> f y = false.
Proof.
  induction l as [|y l IH]; simpl; [discriminate|].
  destruct (f y) eqn:Hy.
  - intros H. injection H as -> _. exists [], l. simpl. tauto.
  - intros H. destruct (IH H) as (before & rest & -> & Hb).
    exists (y :: before), rest. split; [reflexivity|].
    intros z [<-|Hz]; auto.
Qed.

(** A project of the mapping that is not blacklisted has an entry. *)
Lemma emitted_present (blacklist : option (list str)) (items : list (str * str))
      (project : str) :
  In project (map snd items) -> in_blacklist project blacklist = false ->
  exists path, In (path, project) items /\
               In (joined (path, project)) (emitted blacklist items []).
Proof.
  intros Hin Hb. apply in_map_iff in Hin as ([path p] & E & Hin).
  cbn [snd] in E. subst p.
  pose proof (emitted_named blacklist project items []) as H.
  rewrite Hb in H. cbn [mem existsb orb] in H.
  destruct (filter (named project) items) as [|[path' p'] r] eqn:F.
  - apply filter_nil_inv with (x := (path, project)) in F; [|assumption].
    rewrite named_pair, str_eqb_refl in F. discriminate.
  - assert (Hf : In (path', p') (filter (named project) items))
      by (rewrite F; now left).
    apply filter_In in Hf as [Hi Hn]. rewrite named_pair in Hn.
    apply str_eqb_eq in Hn. subst p'. exists path'. split; [assumption|].
    cbn [map firstn] in H.
    assert (Hj : In (joined (path', project))
                    (filter (named project) (emitted blacklist items [])))
      by (rewrite H; now left).
    now apply filter_In in Hj.
Qed.

(** ** The partitioner *)

Lemma begin_text_eq :
  begin_text
  = lit "<!-- @@@@ BEGIN AUTOGENERATED BROWSER PROJECTS - DON'T MODIFY! @@@@ -->".
Proof. reflexivity. Qed.

Lemma end_text_eq :
  end_text
  = lit "<!-- @@@@ END AUTOGENERATED BROWSER PROJECTS - DON'T MODIFY! @@@@ -->".
Proof. reflexivity. Qed.

Lemma _PartitionManifest_run (self : Manifest) (w : world) (doc : str) :
  files w (manifest_path self) = Some doc ->
  _PartitionManifest self w
  = (match partition_of doc with
     | Some parts => inr parts
     | None => inl markers_not_found
     end, w).
Proof.
  intros H. unfold _PartitionManifest, partition_of, read_file, bind.
  rewrite H. fold begin_text end_text.
  destruct (Re.match_ _ doc re_DOTALL); reflexivity.
Qed.

(** The parts found are a split of the document, at the last begin marker
    that an end marker follows and at the last end marker. *)
Lemma partition_of_some (doc p b s : str) :
  partition_of doc = Some (p, b, s) ->
  splits doc p b s /\
  forall p' b' s', splits doc p' b' s' ->
    length p' <= length p /\ (length p' = length p -> length b' <= length b).
Proof.
  unfold partition_of, Re.escape. intros H.
  destruct (Re.match_ _ doc re_DOTALL) as [mo|] eqn:Hm; [|discriminate].
  apply PartitionFacts.pattern_match_some in Hm.
  destruct Hm as (p0 & b0 & s0 & -> & E & Hmax).
  cbn in H. injection H as <- <- <-. split; assumption.
Qed.

Lemma partition_of_none (doc : str) :
  partition_of doc = None -> forall p b s, ~ splits doc p b s.
Proof.
  unfold partition_of, Re.escape. intros H.
  destruct (Re.match_ _ doc re_DOTALL) as [mo|] eqn:Hm; [discriminate|].
  exact (PartitionFacts.pattern_match_none _ _ _ Hm).
Qed.

Lemma partition_of_splits (doc p b s : str) :
  splits doc p b s -> exists parts, partition_of doc = Some parts.
Proof.
  intros H. destruct (partition_of doc) eqn:E; [eauto|].
  exfalso. exact (partition_of_none _ E _ _ _ H).
Qed.

(** ** The safety checker *)

Lemma check_projects_eval (items : list (str * attributes)) (w : world) :
  check_projects items w
  = (match first_outside items with
     | Some project => inl (ManifestException (removed_message project))
     | None => inr tt
     end, w).
Proof.
  induction items as [|[project attrs] items IH]; [reflexivity|].
  cbn [check_projects first_outside]. fold (outside_chromium attrs).
  destruct (outside_chromium attrs); [reflexivity|exact IH].
Qed.

Lemma first_outside_some (items : list (str * attributes)) (project : str) :
  first_outside items = Some project ->
  exists attrs, In (project, attrs) items /\ outside_chromium attrs = true.
Proof.
  induction items as [|[p attrs] items IH]; cbn [first_outside]; [discriminate|].
  destruct (outside_chromium attrs) eqn:H.
  - intros E. injection E as ->. exists attrs. split; [now left|assumption].
  - intros E. destruct (IH E) as (a & Hi & Ha). exists a. split; [now right|assumption].
Qed.

Lemma first_outside_none (items : list (str * attributes)) :
  first_outside items = None ->
  forall project attrs, In (project, attrs) items -> outside_chromium attrs = false.
Proof.
  induction items as [|[p a] items IH]; cbn [first_outside]; intros H project attrs [].
  - injection H0 as -> ->. destruct (outside_chromium attrs); [discriminate|reflexivity].
  - destruct (outside_chromium a); [discriminate|eauto].
Qed.

Lemma CheckForNonChromeProjects_eval (env : collaborators) (xml : str) (w : world) :
  CheckForNonChromeProjects env xml w
  = (match ParseManifest env xml with
     | inl e => inl e
     | inr handler =>
         match first_outside (projects handler) with
         | Some project => inl (ManifestException (removed_message project))
         | None => inr tt
         end
     end, w).
Proof.
  unfold CheckForNonChromeProjects, ParseManifestString, lift, bind.
  destruct (ParseManifest env xml); [reflexivity|apply check_projects_eval].
Qed.

(** ** The builder *)

Section Builder.
Variable env : collaborators.
Variable self : Manifest.

Lemma appends_GetListOfProjects (xml : str) (h : ManifestHandler) (p : str) :
  ParseManifest env xml = inr h ->
  appends (GetListOfProjects env xml) p (map fst (projects h)) [].
Proof.
  intros H w. exists w. split; [|apply appended_refl].
  unfold GetListOfProjects, ParseManifestString, lift, bind. now rewrite H.
Qed.

Lemma reaches_eq {A} (c : M A) w p d d' final :
  reaches c w p d final -> d = d' -> reaches c w p d' final.
Proof. now intros H <-. Qed.

Lemma appends_external_entry (p path name : str) :
  appends (lift (format _EXTERNAL_PROJECT (entry path name))) p
          (render _EXTERNAL_PROJECT (path, name)) [].
Proof. apply appends_lift. reflexivity. Qed.

Lemma appends_internal_entry (p path name : str) :
  appends (lift (format _INTERNAL_PROJECT (entry path name))) p
          (render _INTERNAL_PROJECT (path, name)) [].
Proof. apply appends_lift. reflexivity. Qed.

Ltac appends_step :=
  first [ apply appends_write
        | apply appends_external_entry
        | apply appends_internal_entry
        | apply appends_ret
        | apply appends_ConvertDepsToManifest; (left + right); reflexivity
        | eapply appends_bind; [appends_step | cbv beta; appends_step] ].

(** With the surrounding document parsed, the body of the [with] block
    writes the top part, the begin marker, the regenerated projects and
    the end marker, and comes to its last step. *)
Lemma write_new_manifest_reaches (new_manifest top bottom : str)
      (h : ManifestHandler) (w : world) :
  ParseManifest env (top ++ bottom) = inr h ->
  reaches (write_new_manifest env self new_manifest top bottom) w new_manifest
          (top ++ _BEGIN_MARKER ++ autogenerated env self (map fst (projects h))
               ++ _END_MARKER)
          (write_bottom new_manifest bottom).
Proof.
  intros Hp. unfold write_new_manifest.
  fold (write_bottom new_manifest bottom).
  unfold autogenerated. cbv zeta.
  destruct (internal self).
  - eapply reaches_eq.
    + do 7 (eapply reaches_step; [appends_step|intros ?w]).
      eapply reaches_step; [apply appends_GetListOfProjects; exact Hp|intros ?w].
      do 4 (eapply reaches_step; [appends_step|intros ?w]).
      apply reaches_done.
    + repeat (cbn [app]; rewrite <- app_assoc).
      cbn [app]. rewrite ?app_nil_r. reflexivity.
  - eapply reaches_eq.
    + do 7 (eapply reaches_step; [appends_step|intros ?w]).
      eapply reaches_step; [apply appends_GetListOfProjects; exact Hp|intros ?w].
      do 4 (eapply reaches_step; [appends_step|intros ?w]).
      apply reaches_done.
    + repeat (cbn [app]; rewrite <- app_assoc).
      cbn [app]. rewrite ?app_nil_r. reflexivity.
Qed.

Lemma write_new_manifest_parse_error (new_manifest top bottom : str)
      (e : exn) (w : world) :
  ParseManifest env (top ++ bottom) = inl e ->
  exists w', write_new_manifest env self new_manifest top bottom w = (inl e, w').
Proof.
  intros Hp.
  assert (H : reaches (write_new_manifest env self new_manifest top bottom) w
                new_manifest
                (top ++ (_BEGIN_MARKER ++ _EXTERNAL_HEADER)
                     ++ [] ++ render _EXTERNAL_PROJECT
                                     (lit "chromium/src", lit "chromium/src")
                     ++ converted env
                          (os_path_join
                             (os_path_join (repo_root self) _CHROMIUM_SRC_ROOT)
                             (lit ".DEPS.git")) _EXTERNAL_PROJECT None
                     ++ [nl] ++ _CROS_HEADER ++ [])
                (fun w' => (inl e, w'))).
  { unfold write_new_manifest.
    do 7 (eapply reaches_step; [appends_step|intros ?w]).
    exists w6. split; [apply appended_refl|].
    unfold bind at 1, GetListOfProjects, ParseManifestString, lift, bind at 1.
    now rewrite Hp. }
  destruct H as (w' & _ & H). eauto.
Qed.

(** [CreateNewManifest], step by step up to the [with] block. *)
Lemma CreateNewManifest_eval (w : world) (doc : str) :
  files w (manifest_path self) = Some doc ->
  CreateNewManifest env self w
  = match outcome env (PrepForChanges (manifest_dir self) false) w with
    | Some e => (inl e, prepared self w)
    | None =>
        match partition_of doc with
        | None => (inl markers_not_found, prepared self w)
        | Some (top_part, overwritten, bottom_part) =>
            match ParseManifest env (test_manifest overwritten) with
            | inl e => (inl e, prepared self w)
            | inr handler =>
                match first_outside (projects handler) with
                | Some project =>
                    (inl (ManifestException (removed_message project)),
                     prepared self w)
                | None =>
                    write_new_manifest env self (new_manifest_path self)
                      top_part bottom_part
                      (snd (open_w (new_manifest_path self) (prepared self w)))
                end
            end
        end
    end.
Proof.
  intros Hdoc. unfold CreateNewManifest, bind at 1, call.
  fold (prepared self w).
  destruct (outcome env _ w); [reflexivity|].
  unfold bind at 1.
  rewrite (_PartitionManifest_run self (prepared self w) doc Hdoc).
  destruct (partition_of doc) as [[[top overwritten] bottom]|]; [|reflexivity].
  unfold bind at 1, lift. rewrite format_test_manifest.
  unfold bind at 1. rewrite CheckForNonChromeProjects_eval.
  destruct (ParseManifest env (test_manifest overwritten)) as [e|handler];
    [reflexivity|].
  destruct (first_outside (projects handler)); reflexivity.
Qed.
End Builder.

Lemma _PartitionManifest_inv (self : Manifest) (w w' : world) parts :
  _PartitionManifest self w = (inr parts, w') ->
  w' = w /\ exists doc, files w (manifest_path self) = Some doc /\
                        partition_of doc = Some parts.
Proof.
  destruct (files w (manifest_path self)) as [doc|] eqn:Hdoc.
  - rewrite (_PartitionManifest_run self w doc Hdoc).
    destruct (partition_of doc) as [parts'|] eqn:Hp; [|discriminate].
    intros H. injection H as <- <-. eauto.
  - unfold _PartitionManifest, read_file, bind. rewrite Hdoc. discriminate.
Qed.

(** A run of the builder that returns has passed the external
    preparation and the safety check, has parsed the surrounding document
    and has matched the bottom part; the staged document is the top part,
    the markers around the regenerated projects, and group 1 of the match. *)
Lemma CreateNewManifest_returns (env : collaborators) (self : Manifest)
      (w w' : world) (doc : str) :
  files w (manifest_path self) = Some doc ->
  CreateNewManifest env self w = (inr tt, w') ->
  exists top overwritten bottom h mo,
    partition_of doc = Some (top, overwritten, bottom) /\
    ParseManifest env (top ++ bottom) = inr h /\
    Re.match_ bottom_regex bottom re_S_M = Some mo /\
    files w' (new_manifest_path self)
    = Some (top ++ _BEGIN_MARKER ++ autogenerated env self (map fst (projects h))
                ++ _END_MARKER ++ Re.group mo 1).
Proof.
  intros Hdoc H. rewrite (CreateNewManifest_eval env self w doc Hdoc) in H.
  destruct (outcome env _ w); [discriminate|].
  destruct (partition_of doc) as [[[top overwritten] bottom]|]; [|discriminate].
  destruct (ParseManifest env (test_manifest overwritten)) as [|h1];
    [discriminate|].
  destruct (first_outside (projects h1)); [discriminate|].
  exists top, overwritten, bottom.
  destruct (ParseManifest env (top ++ bottom)) as [e|h] eqn:Hp.
  - destruct (write_new_manifest_parse_error env self (new_manifest_path self)
                top bottom e
                (snd (open_w (new_manifest_path self) (prepared self w))) Hp)
      as (w2 & R). rewrite R in H. discriminate.
  - destruct (write_new_manifest_reaches env self (new_manifest_path self)
                top bottom h
                (snd (open_w (new_manifest_path self) (prepared self w))) Hp)
      as (w2 & [A _] & R).
    rewrite R in H. unfold write_bottom in H.
    destruct (Re.match_ bottom_regex bottom re_S_M) as [mo|]; [|discriminate].
    exists h, mo. repeat split.
    specialize (A [] (fs_set_eq _ _ _)). rewrite app_nil_l in A.
    unfold write in H. rewrite A in H.
    apply (f_equal snd) in H. cbn [snd] in H. subst w'.
    cbn [files]. rewrite fs_set_eq. apply f_equal, app_assoc4.
Qed.

(** The regenerated projects depend on the collaborators only through
    the mappings read from the dependency files. *)
Lemma autogenerated_ext (env1 env2 : collaborators) (self : Manifest)
      (blacklist : list str) :
  (forall deps_file, mappings_of env1 deps_file = mappings_of env2 deps_file) ->
  autogenerated env1 self blacklist = autogenerated env2 self blacklist.
Proof.
  intros H. unfold autogenerated, converted. now rewrite !H.
Qed.

(** ** The trace of the builder *)

Lemma emits_call (env : collaborators) (P : event -> bool) (c : ext_call) :
  P (Call c) = true -> emits_only P (call env c).
Proof.
  intros H w. exists [Call c]. unfold call.
  destruct (outcome env c w); cbn; now rewrite H.
Qed.

Lemma emits_convert_loop deps_file manifest_file template blacklist items :
  forall previous_projects,
  emits_only quiet (convert_loop deps_file manifest_file template blacklist
                                 items previous_projects).
Proof.
  induction items as [|[rel_path project] items IH]; intros prev.
  - apply emits_ret.
  - cbn [convert_loop].
    destruct (in_blacklist project blacklist); [|destruct (mem project prev)].
    + apply emits_bind; [now apply emits_emit|intros _; apply IH].
    + apply emits_bind; [now apply emits_emit|intros _; apply IH].
    + apply emits_bind; [apply emits_lift|intros text].
      apply emits_bind; [now apply emits_write|intros _; apply IH].
Qed.

Lemma emits_ConvertDepsToManifest env deps_file manifest_file template blacklist :
  emits_only quiet
    (ConvertDepsToManifest env deps_file manifest_file template blacklist).
Proof.
  unfold ConvertDepsToManifest. destruct (GetParsedDeps env deps_file).
  apply emits_convert_loop.
Qed.

Lemma emits_same {A} (P : event -> bool) (c : M A) :
  (forall w, snd (c w) = w) -> emits_only P c.
Proof. intros H w. exists []. now rewrite H, app_nil_r. Qed.

Lemma emits_write_new_manifest env self new_manifest top bottom :
  emits_only quiet (write_new_manifest env self new_manifest top bottom).
Proof.
  unfold write_new_manifest.
  repeat first
    [ apply emits_bind; [|intros ?]
    | now apply emits_write
    | apply emits_lift
    | apply emits_ret
    | apply emits_raise
    | apply emits_ConvertDepsToManifest
    | apply emits_same; intros w;
      unfold GetListOfProjects, ParseManifestString, lift, bind;
      destruct (ParseManifest env _); reflexivity
    | match goal with |- emits_only _ (if ?b then _ else _) => destruct b end
    | match goal with |- emits_only _ (match ?b with Some _ => _ | None => _ end) =>
                        destruct b end ].
Qed.

Lemma emits_CreateNewManifest env self :
  emits_only quiet (CreateNewManifest env self).
Proof.
  unfold CreateNewManifest.
  apply emits_bind; [now apply emits_call|intros _].
  apply emits_bind.
  { apply emits_same. intros w. unfold _PartitionManifest, read_file, bind.
    destruct (files w _); [|reflexivity].
    destruct (Re.match_ _ _ _); reflexivity. }
  intros [[top overwritten] bottom].
  apply emits_bind; [apply emits_lift|intros xml].
  apply emits_bind.
  { apply emits_same. intros w. now rewrite CheckForNonChromeProjects_eval. }
  intros _. apply emits_bind; [now apply emits_open|intros _].
  apply emits_write_new_manifest.
Qed.

(** ** The change detector and the update *)

Lemma IsNewManifestDifferent_eval (self : Manifest) (w : world) (a b : str) :
  files w (new_manifest_path self) = Some a ->
  files w (manifest_path self) = Some b ->
  IsNewManifestDifferent self w = (inr (negb (str_eqb a b)), w).
Proof.
  intros Ha Hb. unfold IsNewManifestDifferent, filecmp_cmp, bind.
  now rewrite Ha, Hb.
Qed.

Lemma PerformUpdate_no_change env self w w1 :
  CreateNewManifest env self w = (inr tt, w1) ->
  IsNewManifestDifferent self w1 = (inr false, w1) ->
  PerformUpdate env self w = (inr tt, w1).
Proof.
  intros Hc Hd. unfold PerformUpdate, try_except_reraise.
  rewrite (bind_inr _ _ _ _ _ Hc), (bind_inr _ _ _ _ _ Hd). reflexivity.
Qed.

Lemma PerformUpdate_failed env self w e w1 :
  CreateNewManifest env self w = (inl e, w1) ->
  PerformUpdate env self w
  = (inl e, if is_ManifestException e
            then {| files := files w1; trace := trace w1 ++ [update_error] |}
            else w1).
Proof.
  intros Hc. unfold PerformUpdate, try_except_reraise.
  rewrite (bind_inl _ _ _ _ _ Hc).
  destruct (is_ManifestException e); reflexivity.
Qed.

Lemma outside_chromium_spec (attrs : attributes) :
  outside_chromium attrs = true <->
  dict_get attrs (lit "path") = None \/
  exists v, dict_get attrs (lit "path") = Some v /\
            startswith v (lit "chromium/") = false.
Proof.
  unfold outside_chromium, get.
  destruct (dict_get attrs (lit "path")) as [v|].
  - rewrite negb_true_iff. split.
    + intros H. right. eauto.
    + intros [H|(v' & E & H)]; [discriminate|]. now injection E as ->.
  - split; [now left|reflexivity].
Qed.

Lemma first_outside_spec (h : ManifestHandler) :
  (exists project, first_outside (projects h) = Some project) <->
  has_project_outside h.
Proof.
  split.
  - intros (project & H). apply first_outside_some in H as (attrs & Hi & Ho).
    exists project, attrs. split; [assumption|].
    now apply outside_chromium_spec.
  - intros (project & attrs & Hi & Ho). apply outside_chromium_spec in Ho.
    destruct (first_outside (projects h)) as [p|] eqn:E; [eauto|].
    rewrite (first_outside_none _ E _ _ Hi) in Ho. discriminate.
Qed.

Lemma CreateNewManifest_reads (env : collaborators) (self : Manifest)
      (w w' : world) :
  CreateNewManifest env self w = (inr tt, w') ->
  exists doc, files w (manifest_path self) = Some doc.
Proof.
  intros H. destruct (files w (manifest_path self)) as [doc|] eqn:Hdoc; [eauto|].
  exfalso. unfold CreateNewManifest, bind at 1, call in H.
  destruct (outcome env _ w); [discriminate|].
  unfold bind at 1, _PartitionManifest, bind at 1, read_file in H.
  cbn [files] in H. rewrite Hdoc in H. discriminate.
Qed.
(** ** The sort by project name *)

Lemma str_leb_total (a b : str) : str_leb a b = false -> str_leb b a = true.
Proof.
  revert b. induction a as [|x a IH]; intros [|y b]; cbn [str_leb];
    try discriminate; try reflexivity.
  rewrite (Nat.compare_antisym (nat_of_ascii x) (nat_of_ascii y)).
  destruct (Nat.compare (nat_of_ascii x) (nat_of_ascii y)); cbn [CompOpp];
    try discriminate; auto.
Qed.

Lemma str_leb_trans (a b c : str) :
  str_leb a b = true -> str_leb b c = true -> str_leb a c = true.
Proof.
  revert b c. induction a as [|x a IH]; intros [|y b] [|z c]; cbn [str_leb];
    try discriminate; try reflexivity.
  destruct (Nat.compare_spec (nat_of_ascii x) (nat_of_ascii y)) as [E1|L1|G1];
    try discriminate;
    destruct (Nat.compare_spec (nat_of_ascii y) (nat_of_ascii z)) as [E2|L2|G2];
    try discriminate; intros H1 H2.
  - rewrite E1, E2, Nat.compare_refl. eauto.
  - rewrite E1. now apply Nat.compare_lt_iff in L2 as ->.
  - rewrite <- E2. now apply Nat.compare_lt_iff in L1 as ->.
  - assert (L : nat_of_ascii x < nat_of_ascii z) by lia.
    now apply Nat.compare_lt_iff in L as ->.
Qed.

Section Ordered.
Context {A : Type} (key : A -> str).

Lemma In_insert_by (x y : A) (l : list A) :
  In x (insert_by key y l) <-> x = y \/ In x l.
Proof.
  induction l as [|z l IH]; cbn [insert_by].
  - simpl. intuition.
  - destruct (str_leb (key y) (key z)); simpl in *; [intuition|].
    rewrite IH. intuition.
Qed.

Lemma length_insert_by (x : A) (l : list A) :
  length (insert_by key x l) = S (length l).
Proof.
  induction l as [|z l IH]; cbn [insert_by]; [reflexivity|].
  destruct (str_leb (key x) (key z)); cbn [length]; [reflexivity|].
  now rewrite IH.
Qed.

Lemma length_sorted (l : list A) : length (sorted key l) = length l.
Proof.
  induction l as [|x l IH]; [reflexivity|].
  cbn [sorted fold_right]. fold (sorted key l).
  now rewrite length_insert_by, IH.
Qed.

Lemma ordered_insert_by (x : A) (l : list A) :
  ordered (map key l) -> ordered (map key (insert_by key x l)).
Proof.
  induction l as [|y l IH]; cbn [insert_by map ordered].
  - intros _. split; [constructor|exact I].
  - intros [Hy Hl]. destruct (str_leb (key x) (key y)) eqn:L; cbn [map ordered].
    + split; [|split; assumption]. constructor; [exact L|].
      rewrite Forall_forall in *. intros b Hb.
      exact (str_leb_trans _ _ _ L (Hy b Hb)).
    + split; [|exact (IH Hl)].
      rewrite Forall_forall in *. intros b Hb.
      apply in_map_iff in Hb as (z & <- & Hz).
      apply In_insert_by in Hz as [->|Hz].
      * now apply str_leb_total.
      * apply Hy, in_map, Hz.
Qed.

Lemma ordered_sorted (l : list A) : ordered (map key (sorted key l)).
Proof.
  induction l as [|x l IH]; [exact I|].
  cbn [sorted fold_right]. fold (sorted key l). now apply ordered_insert_by.
Qed.
End Ordered.

Lemma nat_of_ascii_inj (x y : ascii) : nat_of_ascii x = nat_of_ascii y -> x = y.
Proof.
  intros H. rewrite <- (ascii_nat_embedding x), <- (ascii_nat_embedding y).
  now rewrite H.
Qed.

Lemma str_leb_antisym (a b : str) :
  str_leb a b = true -> str_leb b a = true -> a = b.
Proof.
  revert b. induction a as [|x a IH]; intros [|y b]; cbn [str_leb];
    try discriminate; [reflexivity|].
  rewrite (Nat.compare_antisym (nat_of_ascii x) (nat_of_ascii y)).
  destruct (Nat.compare_spec (nat_of_ascii x) (nat_of_ascii y)) as [E|L|G];
    cbn [CompOpp]; try discriminate.
  intros H1 H2. apply nat_of_ascii_inj in E. subst y. f_equal. auto.
Qed.

Lemma named_self (x : str * str) : named (snd x) x = true.
Proof. unfold named. apply str_eqb_refl. Qed.

Lemma In_filter_self (x : str * str) (l : list (str * str)) :
  In x (filter (named (snd x)) (x :: l)).
Proof. cbn [filter]. rewrite named_self. now left. Qed.

(** A list in ascending order of name is determined by its items of each
    name, taken in their order. *)
Lemma ordered_filters_unique (s1 s2 : list (str * str)) :
  ordered (map snd s1) -> ordered (map snd s2) ->
  (forall project, filter (named project) s1 = filter (named project) s2) ->
  s1 = s2.
Proof.
  revert s2. induction s1 as [|x s1 IH]; intros s2 O1 O2 H.
  - destruct s2 as [|y s2]; [reflexivity|].
    specialize (H (snd y)). cbn [filter] in H.
    rewrite named_self in H. discriminate H.
  - destruct s2 as [|y s2].
    + specialize (H (snd x)). cbn [filter] in H.
      rewrite named_self in H. discriminate H.
    + cbn [map ordered] in O1, O2. destruct O1 as [F1 O1], O2 as [F2 O2].
      rewrite Forall_forall in F1, F2.
      assert (E : x = y).
      { destruct (named (snd x) y) eqn:Hxy.
        - pose proof (H (snd x)) as Hx. cbn [filter] in Hx.
          rewrite named_self, Hxy in Hx. now injection Hx.
        - exfalso.
          assert (Hne : snd y <> snd x).
          { intros E. apply named_eq in E. congruence. }
          apply Hne. apply str_leb_antisym.
          + apply F2. apply in_map.
            pose proof (In_filter_self x s1) as Hin. rewrite H in Hin.
            apply filter_In in Hin as [[->|Hin] _]; [congruence|exact Hin].
          + apply F1. apply in_map.
            pose proof (In_filter_self y s2) as Hin. rewrite <- H in Hin.
            apply filter_In in Hin as [[->|Hin] _]; [congruence|exact Hin]. }
      subst y. f_equal. apply IH; [assumption..|].
      intros project. specialize (H project). cbn [filter] in H.
      destruct (named project x); [now injection H|exact H].
Qed.

(** The sort by project name depends on the list only through the order
    in which it holds the items of each name. *)
Lemma sorted_by_filters (l1 l2 : list (str * str)) :
  (forall project, filter (named project) l1 = filter (named project) l2) ->
  sorted snd l1 = sorted snd l2.
Proof.
  intros H. apply ordered_filters_unique; try apply ordered_sorted.
  intros project. now rewrite !filter_sorted.
Qed.

Lemma autogenerated_sorted (env1 env2 : collaborators) (self : Manifest)
      (blacklist : list str) :
  (forall deps_file project,
      filter (named project) (mappings_of env1 deps_file)
      = filter (named project) (mappings_of env2 deps_file)) ->
  autogenerated env1 self blacklist = autogenerated env2 self blacklist.
Proof.
  intros H. unfold autogenerated, converted.
  now rewrite !(fun deps_file =>
                  sorted_by_filters _ _ (H deps_file)).
Qed.

(** * The properties of the specification *)

(** ** The manifest partitioner *)

(** C1. Round trip: when the live manifest holds a begin marker that an
    end marker follows, the partitioner returns three parts, and the
    first part, the begin marker, the second part, the end marker and the
    third part, concatenated, are the document, byte for byte. The markers
    are the marker texts as they stand in the document, that is
    [_BEGIN_MARKER] and [_END_MARKER] without their trailing newlines. *)
Theorem C1_partition_round_trip (self : Manifest) (w : world)
        (doc p0 b0 s0 : str) :
  files w (manifest_path self) = Some doc ->
  doc = p0 ++ strip _BEGIN_MARKER ++ b0 ++ strip _END_MARKER ++ s0 ->
  exists p b s,
    _PartitionManifest self w = (inr (p, b, s), w) /\
    p ++ strip _BEGIN_MARKER ++ b ++ strip _END_MARKER ++ s = doc.
Proof.
  intros Hdoc Hs. rewrite (_PartitionManifest_run self w doc Hdoc).
  destruct (partition_of_splits doc p0 b0 s0 Hs) as ([[p b] s] & Hp).
  rewrite Hp. exists p, b, s. split; [reflexivity|].
  symmetry. exact (proj1 (partition_of_some _ _ _ _ Hp)).
Qed.

Lemma C1_partition_round_trip_witness :
  exists p b s,
    _PartitionManifest Demo.self Demo.fresh = (inr (p, b, s), Demo.fresh) /\
    p ++ strip _BEGIN_MARKER ++ b ++ strip _END_MARKER ++ s = Demo.doc.
Proof.
  apply (C1_partition_round_trip Demo.self Demo.fresh Demo.doc
           Demo.top Demo.old_region Demo.bottom); reflexivity.
Defined.

(** C7, as the code has it. The partitioner splits the document at the
    last begin marker that an end marker follows and at the last end
    marker: whenever the document is some [p'], the begin marker, [b'],
    the end marker and [s'], the partitioner returns a split whose first
    part is at least as long as [p'] and, when as long, whose second part
    is at least as long as [b']. *)
Theorem C7_partition_at_last_markers (self : Manifest) (w : world)
        (doc p0 b0 s0 : str) :
  files w (manifest_path self) = Some doc ->
  splits doc p0 b0 s0 ->
  exists p b s,
    _PartitionManifest self w = (inr (p, b, s), w) /\
    splits doc p b s /\
    forall p' b' s', splits doc p' b' s' ->
      length p' <= length p /\
      (length p' = length p -> length b' <= length b).
Proof.
  intros Hdoc Hs. rewrite (_PartitionManifest_run self w doc Hdoc).
  destruct (partition_of_splits doc p0 b0 s0 Hs) as ([[p b] s] & Hp).
  rewrite Hp. exists p, b, s. split; [reflexivity|].
  exact (partition_of_some _ _ _ _ Hp).
Qed.

Lemma C7_partition_at_last_markers_witness :
  exists p b s,
    _PartitionManifest Demo.self (Demo.world_of Demo.two_regions)
    = (inr (p, b, s), Demo.world_of Demo.two_regions) /\
    splits Demo.two_regions p b s /\
    forall p' b' s', splits Demo.two_regions p' b' s' ->
      length p' <= length p /\
      (length p' = length p -> length b' <= length b).
Proof.
  apply (C7_partition_at_last_markers Demo.self
           (Demo.world_of Demo.two_regions) Demo.two_regions
           [] (lit "x") (lit "y" ++ begin_text ++ lit "z" ++ end_text));
    reflexivity.
Defined.

(** C7, as the specification has it, fails: on a document with two
    regions the split at the first begin marker and at the first end
    marker after it has an empty first part, and the partitioner returns
    another split, around the second region. *)
Lemma C7_first_markers_counterexample :
  first_split Demo.two_regions []
              (lit "x") (lit "y" ++ begin_text ++ lit "z" ++ end_text) /\
  _PartitionManifest Demo.self (Demo.world_of Demo.two_regions)
  = (inr (begin_text ++ lit "x" ++ end_text ++ lit "y", lit "z", []),
     Demo.world_of Demo.two_regions) /\
  ~ first_split Demo.two_regions
                (begin_text ++ lit "x" ++ end_text ++ lit "y") (lit "z") [].
Proof.
  split; [|split].
  - split; [reflexivity|]. split.
    + intros p' t _. apply Nat.le_0_l.
    + intros [|c b'] s' H; [discriminate H|simpl; lia].
  - reflexivity.
  - intros (_ & H & _). specialize (H [] _ eq_refl). revert H.
    vm_compute. lia.
Qed.

(** C8. Partitioner failure: when the live manifest has no begin marker,
    or no end marker, or every end marker starts before every begin
    marker, the partitioner raises the markers-not-found
    [ManifestException]; the builder and the update raise too and leave
    every file as it was, without opening or writing any. *)
Theorem C8_markers_not_found (env : collaborators) (self : Manifest)
        (w : world) (doc : str) :
  files w (manifest_path self) = Some doc ->
  (forall i, ~ occurs_at (strip _BEGIN_MARKER) doc i) \/
  (forall j, ~ occurs_at (strip _END_MARKER) doc j) \/
  (forall i j, occurs_at (strip _BEGIN_MARKER) doc i ->
               occurs_at (strip _END_MARKER) doc j -> j < i) ->
  _PartitionManifest self w
  = (inl (ManifestException
            (lit "Chromium projects begin/end markers not found!")), w) /\
  (exists e w',
      CreateNewManifest env self w = (inl e, w') /\
      files w' = files w /\
      trace w' = trace w ++ [Call (PrepForChanges (manifest_dir self) false)] /\
      (outcome env (PrepForChanges (manifest_dir self) false) w = None ->
       e = ManifestException
             (lit "Chromium projects begin/end markers not found!"))) /\
  (exists e w' evs,
      PerformUpdate env self w = (inl e, w') /\
      files w' = files w /\
      trace w' = trace w ++ evs /\
      forallb (fun ev => negb (is_file_change ev)) evs = true).
Proof.
  intros Hdoc Hno.
  assert (Hp : partition_of doc = None).
  { destruct (partition_of doc) as [[[p b] s]|] eqn:Hp; [exfalso|reflexivity].
    apply partition_of_some in Hp as [Hs _]. unfold splits in Hs.
    assert (Hb : occurs_at begin_text doc (length p))
      by (exists p, (b ++ end_text ++ s); auto).
    assert (He : occurs_at end_text doc (length (p ++ begin_text ++ b))).
    { exists (p ++ begin_text ++ b), s. split; [|reflexivity].
      rewrite Hs, <- !app_assoc. reflexivity. }
    destruct Hno as [H|[H|H]].
    - exact (H _ Hb).
    - exact (H _ He).
    - specialize (H _ _ Hb He). rewrite !length_app in H. lia. }
  assert (Hc : exists e,
             CreateNewManifest env self w = (inl e, prepared self w) /\
             (outcome env (PrepForChanges (manifest_dir self) false) w = None ->
              e = markers_not_found)).
  { rewrite (CreateNewManifest_eval env self w doc Hdoc), Hp.
    destruct (outcome env _ w) as [e|]; eexists; split; try reflexivity.
    discriminate. }
  split; [|split].
  - rewrite (_PartitionManifest_run self w doc Hdoc), Hp. reflexivity.
  - destruct Hc as (e & Hc & He). exists e, (prepared self w). auto.
  - destruct Hc as (e & Hc & _).
    rewrite (PerformUpdate_failed env self w e _ Hc).
    destruct (is_ManifestException e).
    + exists e. eexists. exists [Call (PrepForChanges (manifest_dir self) false);
                                 update_error].
      split; [reflexivity|]. cbn [files trace prepared].
      rewrite <- app_assoc. auto.
    + exists e, (prepared self w),
        [Call (PrepForChanges (manifest_dir self) false)]. auto.
Qed.

Lemma C8_markers_not_found_witness :
  _PartitionManifest Demo.self (Demo.world_of Demo.plain_doc)
  = (inl (ManifestException
            (lit "Chromium projects begin/end markers not found!")),
     Demo.world_of Demo.plain_doc) /\
  (exists e w',
      CreateNewManifest Demo.env Demo.self (Demo.world_of Demo.plain_doc)
      = (inl e, w') /\
      files w' = files (Demo.world_of Demo.plain_doc) /\
      trace w' = trace (Demo.world_of Demo.plain_doc)
                   ++ [Call (PrepForChanges (manifest_dir Demo.self) false)] /\
      (outcome Demo.env (PrepForChanges (manifest_dir Demo.self) false)
               (Demo.world_of Demo.plain_doc) = None ->
       e = ManifestException
             (lit "Chromium projects begin/end markers not found!"))) /\
  (exists e w' evs,
      PerformUpdate Demo.env Demo.self (Demo.world_of Demo.plain_doc)
      = (inl e, w') /\
      files w' = files (Demo.world_of Demo.plain_doc) /\
      trace w' = trace (Demo.world_of Demo.plain_doc) ++ evs /\
      forallb (fun ev => negb (is_file_change ev)) evs = true).
Proof.
  apply (C8_markers_not_found Demo.env Demo.self
           (Demo.world_of Demo.plain_doc) Demo.plain_doc).
  - reflexivity.
  - left. intros i (p & s & E & _).
    apply (f_equal (@length ascii)) in E. rewrite !length_app in E.
    change (length Demo.plain_doc) with 21 in E.
    change (length (strip _BEGIN_MARKER)) with 71 in E. lia.
Defined.

(** ** The project-list converter *)

(** C3, as the code has it. Duplicate checkouts: when exactly two relative
    paths of the mapping, [path1] before [path2] in the iteration order of
    the dictionary, map to the project id [P] and [P] is not blacklisted,
    the converter returns normally; among the entries it writes exactly one
    is for [P], the one for [path1], which is the first item of [P] in the
    order sorted by project id; exactly one double-checkout warning for
    [P] is logged, for [path2]; and every other project of the mapping
    that is not blacklisted still gets its entry. *)
Theorem C3_double_checkout
        (env : collaborators) (deps_file manifest_file template : str)
        (blacklist : option (list str)) (P path1 path2 old : str) (w : world) :
  project_template template ->
  filter (named P) (mappings_of env deps_file) = [(path1, P); (path2, P)] ->
  path1 <> path2 ->
  in_blacklist P blacklist = false ->
  files w manifest_file = Some old ->
  exists w' entries evs,
    ConvertDepsToManifest env deps_file manifest_file template blacklist w
    = (inr tt, w') /\
    files w' manifest_file = Some (old ++ concat (map (render template) entries)) /\
    trace w' = trace w ++ evs /\
    filter is_write evs
    = map (fun e => Write manifest_file (render template e)) entries /\
    filter (named P) entries = [joined (path1, P)] /\
    (exists before rest,
        sorted snd (mappings_of env deps_file) = before ++ (path1, P) :: rest /\
        forall it, In it before -> snd it <> P) /\
    filter (is_double_checkout P) evs = [double_checkout_warning (path2, P)] /\
    (forall Q, In Q (map snd (mappings_of env deps_file)) ->
               in_blacklist Q blacklist = false ->
               exists path, In (path, Q) (mappings_of env deps_file) /\
                            In (joined (path, Q)) entries).
Proof.
  intros Ht Hf _ Hb Hold.
  destruct (ConvertDepsToManifest_run env deps_file manifest_file template
              blacklist Ht w) as (w' & R & [A _] & T).
  exists w', (emitted blacklist (sorted snd (mappings_of env deps_file)) []),
    (loop_events deps_file manifest_file template blacklist
                 (sorted snd (mappings_of env deps_file)) []).
  split; [exact R|]. split; [exact (A _ Hold)|]. split; [exact T|].
  split; [apply loop_writes|].
  split; [rewrite emitted_named, Hb, filter_sorted, Hf; reflexivity|].
  split.
  { pose proof (filter_sorted P (mappings_of env deps_file)) as Hs.
    rewrite Hf in Hs. apply filter_first in Hs as (before & rest & E & Hn).
    exists before, rest. split; [exact E|].
    intros it Hi Hp. apply Hn in Hi. apply named_eq in Hp. congruence. }
  split; [rewrite loop_double_checkouts, Hb, filter_sorted, Hf; reflexivity|].
  intros Q HQ HbQ.
  destruct (emitted_present blacklist (sorted snd (mappings_of env deps_file)) Q)
    as (path & Hi & He); auto.
  { apply in_map_iff in HQ as (it & E & Hi). apply in_map_iff.
    exists it. split; [exact E|]. now apply In_sorted. }
  exists path. split; [now apply In_sorted in Hi|exact He].
Qed.

Lemma C3_double_checkout_witness :
  exists w' entries evs,
    ConvertDepsToManifest Demo.env DemoFiles.DEPS (new_manifest_path Demo.self)
                          _EXTERNAL_PROJECT None DemoFiles.opened
    = (inr tt, w') /\
    files w' (new_manifest_path Demo.self)
    = Some ([] ++ concat (map (render _EXTERNAL_PROJECT) entries)) /\
    trace w' = trace DemoFiles.opened ++ evs /\
    filter is_write evs
    = map (fun e => Write (new_manifest_path Demo.self)
                          (render _EXTERNAL_PROJECT e)) entries /\
    filter (named (lit "chromium/bar")) entries
    = [joined (lit "src/bar", lit "chromium/bar")] /\
    (exists before rest,
        sorted snd (mappings_of Demo.env DemoFiles.DEPS)
        = before ++ (lit "src/bar", lit "chromium/bar") :: rest /\
        forall it, In it before -> snd it <> lit "chromium/bar") /\
    filter (is_double_checkout (lit "chromium/bar")) evs
    = [double_checkout_warning (lit "src/third_party/bar", lit "chromium/bar")] /\
    (forall Q, In Q (map snd (mappings_of Demo.env DemoFiles.DEPS)) ->
               in_blacklist Q None = false ->
               exists path, In (path, Q) (mappings_of Demo.env DemoFiles.DEPS) /\
                            In (joined (path, Q)) entries).
Proof.
  apply (C3_double_checkout Demo.env DemoFiles.DEPS (new_manifest_path Demo.self)
           _EXTERNAL_PROJECT None (lit "chromium/bar")
           (lit "src/bar") (lit "src/third_party/bar") [] DemoFiles.opened).
  - left. reflexivity.
  - reflexivity.
  - discriminate.
  - reflexivity.
  - reflexivity.
Defined.

(** C3, as the specification has it, fails when the project is
    blacklisted: two paths of the mapping map to [b], and with [b] in the
    blacklist the converter writes no entry for [b] and logs no
    double-checkout warning; the only entry written is the one of the
    other project, after two skipping warnings. *)
Lemma C3_blacklisted_counterexample :
  filter (named (lit "b")) (mappings_of Demo.env DemoFiles.cros_DEPS)
  = [(lit "src/b", lit "b"); (lit "src/third_party/b", lit "b")] /\
  exists w',
    ConvertDepsToManifest Demo.env DemoFiles.cros_DEPS
                          (new_manifest_path Demo.self) _EXTERNAL_PROJECT
                          (Some [lit "a"; lit "b"]) DemoFiles.opened
    = (inr tt, w') /\
    files w' (new_manifest_path Demo.self)
    = Some (external_project (lit "chromium/src/cros") (lit "chromium/cros")) /\
    trace w'
    = trace DemoFiles.opened
        ++ [Log WARNING (lit "Skipping project %s in %s")
                [lit "b"; DemoFiles.cros_DEPS];
            Log WARNING (lit "Skipping project %s in %s")
                [lit "b"; DemoFiles.cros_DEPS];
            Write (new_manifest_path Demo.self)
                  (external_project (lit "chromium/src/cros")
                                    (lit "chromium/cros"))].
Proof.
  split; [reflexivity|].
  exists (snd (ConvertDepsToManifest Demo.env DemoFiles.cros_DEPS
                 (new_manifest_path Demo.self) _EXTERNAL_PROJECT
                 (Some [lit "a"; lit "b"]) DemoFiles.opened)).
  repeat split; vm_compute; reflexivity.
Qed.

(** C4. Blacklist filtering: when the project id [P] is in the mapping
    and in the blacklist, the converter returns normally, none of the
    entries it writes is for [P], a skipping warning for [P] is logged, and
    every project of the mapping that is not blacklisted still gets its
    entry. *)
Theorem C4_blacklisted_project_is_skipped
        (env : collaborators) (deps_file manifest_file template : str)
        (blacklist : list str) (P old : str) (w : world) :
  project_template template ->
  In P (map snd (mappings_of env deps_file)) ->
  In P blacklist ->
  files w manifest_file = Some old ->
  exists w' entries evs,
    ConvertDepsToManifest env deps_file manifest_file template (Some blacklist) w
    = (inr tt, w') /\
    files w' manifest_file = Some (old ++ concat (map (render template) entries)) /\
    trace w' = trace w ++ evs /\
    filter is_write evs
    = map (fun e => Write manifest_file (render template e)) entries /\
    (forall e, In e entries -> snd e <> P) /\
    In (Log WARNING (lit "Skipping project %s in %s") [P; deps_file]) evs /\
    (forall Q, In Q (map snd (mappings_of env deps_file)) ->
               in_blacklist Q (Some blacklist) = false ->
               exists path, In (path, Q) (mappings_of env deps_file) /\
                            In (joined (path, Q)) entries).
Proof.
  intros Ht Hin Hbl Hold.
  pose proof (in_blacklist_In _ _ Hbl) as Hb.
  destruct (ConvertDepsToManifest_run env deps_file manifest_file template
              (Some blacklist) Ht w) as (w' & R & [A _] & T).
  exists w', (emitted (Some blacklist) (sorted snd (mappings_of env deps_file)) []),
    (loop_events deps_file manifest_file template (Some blacklist)
                 (sorted snd (mappings_of env deps_file)) []).
  split; [exact R|]. split; [exact (A _ Hold)|]. split; [exact T|].
  split; [apply loop_writes|].
  split.
  { intros e He Hp.
    pose proof (emitted_named (Some blacklist) P
                  (sorted snd (mappings_of env deps_file)) []) as H.
    rewrite Hb in H. cbn [orb] in H.
    apply (filter_nil_inv _ _ H) in He. apply named_eq in Hp. congruence. }
  split.
  { apply in_map_iff in Hin as ([path p] & E & Hi). cbn [snd] in E. subst p.
    assert (Hs : In (skipping_warning deps_file (path, P))
                    (filter (is_skipping P)
                       (loop_events deps_file manifest_file template
                          (Some blacklist)
                          (sorted snd (mappings_of env deps_file)) []))).
    { rewrite loop_skippings, Hb, filter_sorted. apply in_map.
      apply filter_In. split; [assumption|].
      now rewrite named_pair, str_eqb_refl. }
    apply filter_In in Hs. exact (proj1 Hs). }
  intros Q HQ HbQ.
  destruct (emitted_present (Some blacklist)
              (sorted snd (mappings_of env deps_file)) Q)
    as (path & Hi & He); auto.
  { apply in_map_iff in HQ as (it & E & Hi). apply in_map_iff.
    exists it. split; [exact E|]. now apply In_sorted. }
  exists path. split; [now apply In_sorted in Hi|exact He].
Qed.

Lemma C4_blacklisted_project_is_skipped_witness :
  exists w' entries evs,
    ConvertDepsToManifest Demo.env DemoFiles.cros_DEPS
                          (new_manifest_path Demo.self) _EXTERNAL_PROJECT
                          (Some [lit "a"; lit "b"]) DemoFiles.opened
    = (inr tt, w') /\
    files w' (new_manifest_path Demo.self)
    = Some ([] ++ concat (map (render _EXTERNAL_PROJECT) entries)) /\
    trace w' = trace DemoFiles.opened ++ evs /\
    filter is_write evs
    = map (fun e => Write (new_manifest_path Demo.self)
                          (render _EXTERNAL_PROJECT e)) entries /\
    (forall e, In e entries -> snd e <> lit "b") /\
    In (Log WARNING (lit "Skipping project %s in %s")
            [lit "b"; DemoFiles.cros_DEPS]) evs /\
    (forall Q, In Q (map snd (mappings_of Demo.env DemoFiles.cros_DEPS)) ->
               in_blacklist Q (Some [lit "a"; lit "b"]) = false ->
               exists path,
                 In (path, Q) (mappings_of Demo.env DemoFiles.cros_DEPS) /\
                 In (joined (path, Q)) entries).
Proof.
  apply (C4_blacklisted_project_is_skipped Demo.env DemoFiles.cros_DEPS
           (new_manifest_path Demo.self) _EXTERNAL_PROJECT
           [lit "a"; lit "b"] (lit "b") [] DemoFiles.opened).
  - left. reflexivity.
  - right. left. reflexivity.
  - right. left. reflexivity.
  - reflexivity.
Defined.

(** ** The safety checker *)

(** C2, as the code has it. Given the region to be replaced, wrapped in
    the test manifest and parsed, the checker raises the
    about-to-be-removed [ManifestException] if and only if some project of
    the region has no path attribute or has one that does not start with
    [chromium/]; and when it raises, the builder raises too, before the
    staged file is opened: no file has changed and the only event of the
    run is the external preparation. *)
Theorem C2_safety_check (env : collaborators) (self : Manifest) (w : world)
        (top overwritten bottom xml : str) (h : ManifestHandler) :
  _PartitionManifest self w = (inr (top, overwritten, bottom), w) ->
  format _TEST_MANIFEST_TEMPLATE [(lit "content", overwritten)] = inr xml ->
  ParseManifest env xml = inr h ->
  ((exists project,
       CheckForNonChromeProjects env xml w
       = (inl (ManifestException
                 (lit "Project " ++ project
                      ++ lit " was about to be accidentally removed!")), w))
   <-> has_project_outside h) /\
  (has_project_outside h ->
   exists e w',
     CreateNewManifest env self w = (inl e, w') /\
     files w' = files w /\
     trace w' = trace w ++ [Call (PrepForChanges (manifest_dir self) false)]).
Proof.
  intros Hpart Hxml Hparse.
  rewrite format_test_manifest in Hxml. injection Hxml as <-.
  split.
  - rewrite CheckForNonChromeProjects_eval, Hparse, <- first_outside_spec.
    split; intros (project & H); exists project.
    + destruct (first_outside (projects h)); [|discriminate].
      injection H as H. apply app_inv_tail in H. now subst.
    + now rewrite H.
  - intros Ho. apply first_outside_spec in Ho as (project & Ho).
    apply _PartitionManifest_inv in Hpart as (_ & doc & Hdoc & Hp).
    rewrite (CreateNewManifest_eval env self w doc Hdoc), Hp, Hparse, Ho.
    destruct (outcome env _ w) as [e|]; eexists; exists (prepared self w);
      repeat split.
Qed.

Lemma C2_safety_check_witness :
  (exists project,
      CheckForNonChromeProjects Demo.env_no_path
        (test_manifest Demo.no_path_region) (Demo.world_of Demo.no_path_doc)
      = (inl (ManifestException
                (lit "Project " ++ project
                     ++ lit " was about to be accidentally removed!")),
         Demo.world_of Demo.no_path_doc)) /\
  (exists e w',
      CreateNewManifest Demo.env_no_path Demo.self
                        (Demo.world_of Demo.no_path_doc) = (inl e, w') /\
      files w' = files (Demo.world_of Demo.no_path_doc) /\
      trace w' = trace (Demo.world_of Demo.no_path_doc)
                   ++ [Call (PrepForChanges (manifest_dir Demo.self) false)]).
Proof.
  destruct (C2_safety_check Demo.env_no_path Demo.self
              (Demo.world_of Demo.no_path_doc)
              Demo.top Demo.no_path_region Demo.bottom
              (test_manifest Demo.no_path_region)
              {| default := None;
                 projects := [(lit "foo", [(lit "name", lit "foo")])] |}
              eq_refl eq_refl eq_refl) as [Hiff Habort].
  assert (Ho : has_project_outside
                 {| default := None;
                    projects := [(lit "foo", [(lit "name", lit "foo")])] |}).
  { exists (lit "foo"), [(lit "name", lit "foo")].
    split; [left; reflexivity|left; reflexivity]. }
  split; [exact (proj2 Hiff Ho)|exact (Habort Ho)].
Defined.

(** C2, as the specification has it, fails: a region whose only project
    has no path attribute makes the checker raise, though no project has a
    path attribute that does not start with [chromium/]. *)
Lemma C2_path_attribute_counterexample :
  ParseManifest Demo.env_no_path (test_manifest Demo.no_path_region)
  = inr {| default := None;
           projects := [(lit "foo", [(lit "name", lit "foo")])] |} /\
  CheckForNonChromeProjects Demo.env_no_path
    (test_manifest Demo.no_path_region) (Demo.world_of Demo.no_path_doc)
  = (inl (ManifestException
            (lit "Project foo was about to be accidentally removed!")),
     Demo.world_of Demo.no_path_doc) /\
  ~ has_foreign_path
      {| default := None;
         projects := [(lit "foo", [(lit "name", lit "foo")])] |}.
Proof.
  split; [reflexivity|]. split; [reflexivity|].
  intros (project & attrs & v & [H|[]] & Hv & _).
  injection H as <- <-. discriminate Hv.
Qed.

(** ** The manifest builder *)

(** C5. Frame preservation: when the markers partition the live manifest
    into [p], [b] and [s], the staged document of a run of the builder that
    returns is [p], byte for byte, then the begin marker, the regenerated
    projects and the end marker, then [s] without its leading blank lines:
    what is dropped from [s] is whitespace that ends a line, and the first
    line of what is kept holds a character that is not whitespace. And the
    builder does return when the external preparation and the safety check
    pass, the surrounding document parses and [s] holds a character that is
    not whitespace. *)
Theorem C5_frame_preservation (env : collaborators) (self : Manifest)
        (w : world) (p b s : str) :
  _PartitionManifest self w = (inr (p, b, s), w) ->
  (forall w',
      CreateNewManifest env self w = (inr tt, w') ->
      exists h blank tail,
        ParseManifest env (p ++ s) = inr h /\
        files w' (new_manifest_path self)
        = Some (p ++ _BEGIN_MARKER
                  ++ autogenerated env self (map fst (projects h))
                  ++ _END_MARKER ++ tail) /\
        s = blank ++ tail /\
        forallb isspace blank = true /\
        line_start blank /\
        has_nonspace (first_line tail) = true) /\
  (forall h,
      outcome env (PrepForChanges (manifest_dir self) false) w = None ->
      CheckForNonChromeProjects env (test_manifest b) w = (inr tt, w) ->
      ParseManifest env (p ++ s) = inr h ->
      has_nonspace s = true ->
      exists w', CreateNewManifest env self w = (inr tt, w')).
Proof.
  intros Hpart.
  apply _PartitionManifest_inv in Hpart as (_ & doc & Hdoc & Hp).
  split.
  - intros w' Hrun.
    destruct (CreateNewManifest_returns env self w w' doc Hdoc Hrun)
      as (top & overwritten & bottom & h & mo & Hp' & Hparse & Hm & Hfile).
    rewrite Hp in Hp'. injection Hp' as <- <- <-.
    destruct (has_nonspace s) eqn:Hs.
    + destruct (BottomFacts.bottom_match_some s Hs)
        as (blank & tail & Hm' & E & Hb & Hl & Ht).
      rewrite Hm in Hm'. injection Hm' as ->.
      exists h, blank, tail. repeat split; assumption.
    + rewrite (BottomFacts.bottom_match_none s Hs) in Hm. discriminate.
  - intros h Hprep Hcheck Hparse Hs.
    rewrite (CreateNewManifest_eval env self w doc Hdoc), Hprep, Hp.
    rewrite CheckForNonChromeProjects_eval in Hcheck.
    destruct (ParseManifest env (test_manifest b)) as [|h1]; [discriminate|].
    destruct (first_outside (projects h1)); [discriminate|].
    destruct (write_new_manifest_reaches env self (new_manifest_path self)
                p s h
                (snd (open_w (new_manifest_path self) (prepared self w))) Hparse)
      as (w2 & _ & R).
    rewrite R. unfold write_bottom.
    destruct (BottomFacts.bottom_match_some s Hs) as (blank & tail & -> & _).
    eexists. reflexivity.
Qed.

Lemma C5_frame_preservation_witness :
  (exists w', CreateNewManifest Demo.env Demo.self Demo.fresh = (inr tt, w')) /\
  (exists h blank tail,
      ParseManifest Demo.env (Demo.top ++ Demo.bottom) = inr h /\
      files (snd (CreateNewManifest Demo.env Demo.self Demo.fresh))
            (new_manifest_path Demo.self)
      = Some (Demo.top ++ _BEGIN_MARKER
                ++ autogenerated Demo.env Demo.self (map fst (projects h))
                ++ _END_MARKER ++ tail) /\
      Demo.bottom = blank ++ tail /\
      forallb isspace blank = true /\
      line_start blank /\
      has_nonspace (first_line tail) = true).
Proof.
  destruct (C5_frame_preservation Demo.env Demo.self Demo.fresh
              Demo.top Demo.old_region Demo.bottom eq_refl) as [Hshape Hret].
  split.
  - apply (Hret {| default := None;
                   projects := [(lit "a", Demo.project_attrs (lit "a") (lit "a"));
                                (lit "b", Demo.project_attrs (lit "b") (lit "b"))] |});
      reflexivity.
  - apply Hshape. vm_compute. reflexivity.
Defined.

(** C9, as the code has it. Two runs of the builder that return, from
    live manifests with the same bytes and with the same parser, stage the
    same bytes whenever the mappings read from each dependency file hold,
    for every project name, the same items of that name in the same order;
    the order in which items of different names are iterated has no part
    in the result. The staged document is the top part, the begin marker,
    the regenerated projects, the end marker and the stripped bottom part.
    The stable sort keeps the iteration order among the paths that share a
    project name, so that order is not settled by the dictionary alone. *)
Theorem C9_determinism_with_same_order_of_shared_names
        (env1 env2 : collaborators) (self : Manifest)
        (w1 w2 w1' w2' : world) :
  files w1 (manifest_path self) = files w2 (manifest_path self) ->
  (forall deps_file project,
      filter (named project) (mappings_of env1 deps_file)
      = filter (named project) (mappings_of env2 deps_file)) ->
  (forall xml, ParseManifest env1 xml = ParseManifest env2 xml) ->
  CreateNewManifest env1 self w1 = (inr tt, w1') ->
  CreateNewManifest env2 self w2 = (inr tt, w2') ->
  exists top overwritten bottom h mo,
    _PartitionManifest self w1 = (inr (top, overwritten, bottom), w1) /\
    ParseManifest env1 (top ++ bottom) = inr h /\
    Re.match_ bottom_regex bottom re_S_M = Some mo /\
    files w1' (new_manifest_path self)
    = Some (top ++ _BEGIN_MARKER
              ++ autogenerated env1 self (map fst (projects h))
              ++ _END_MARKER ++ Re.group mo 1) /\
    files w2' (new_manifest_path self) = files w1' (new_manifest_path self).
Proof.
  intros Hlive Hmap Hparse H1 H2.
  destruct (CreateNewManifest_reads env1 self w1 w1' H1) as (doc & Hdoc1).
  assert (Hdoc2 : files w2 (manifest_path self) = Some doc) by congruence.
  destruct (CreateNewManifest_returns env1 self w1 w1' doc Hdoc1 H1)
    as (top & ov & bottom & h & mo & Hp & Hh & Hm & Hs1).
  destruct (CreateNewManifest_returns env2 self w2 w2' doc Hdoc2 H2)
    as (top' & ov' & bottom' & h' & mo' & Hp' & Hh' & Hm' & Hs2).
  rewrite Hp in Hp'. injection Hp' as <- <- <-.
  rewrite Hm in Hm'. injection Hm' as <-.
  rewrite <- Hparse, Hh in Hh'. injection Hh' as <-.
  exists top, ov, bottom, h, mo.
  split; [now rewrite (_PartitionManifest_run self w1 doc Hdoc1), Hp|].
  split; [exact Hh|]. split; [exact Hm|]. split; [exact Hs1|].
  now rewrite Hs1, Hs2, (autogenerated_sorted env1 env2 self _ Hmap).
Qed.

Lemma C9_determinism_with_same_order_of_shared_names_witness :
  (exists d, mappings_of Demo.env d <> mappings_of Reordered.shuffled d) /\
  exists top overwritten bottom h mo,
    _PartitionManifest Demo.self Demo.fresh
    = (inr (top, overwritten, bottom), Demo.fresh) /\
    ParseManifest Demo.env (top ++ bottom) = inr h /\
    Re.match_ bottom_regex bottom re_S_M = Some mo /\
    files (snd (CreateNewManifest Demo.env Demo.self Demo.fresh))
          (new_manifest_path Demo.self)
    = Some (top ++ _BEGIN_MARKER
              ++ autogenerated Demo.env Demo.self (map fst (projects h))
              ++ _END_MARKER ++ Re.group mo 1) /\
    files (snd (CreateNewManifest Reordered.shuffled Demo.self
                  (snd (CreateNewManifest Demo.env Demo.self Demo.fresh))))
          (new_manifest_path Demo.self)
    = files (snd (CreateNewManifest Demo.env Demo.self Demo.fresh))
            (new_manifest_path Demo.self).
Proof.
  split; [exists DemoFiles.DEPS; discriminate|].
  apply (C9_determinism_with_same_order_of_shared_names
           Demo.env Reordered.shuffled Demo.self
           Demo.fresh (snd (CreateNewManifest Demo.env Demo.self Demo.fresh))).
  - vm_compute. reflexivity.
  - intros deps_file project.
    change (mappings_of Demo.env deps_file) with (Demo.mappings deps_file).
    change (mappings_of Reordered.shuffled deps_file)
      with (Reordered.shuffled_mappings deps_file).
    unfold Demo.mappings, Reordered.shuffled_mappings.
    destruct (str_eqb deps_file (lit "/repo/chromium/src/.DEPS.git"));
      [|destruct (str_eqb deps_file
                          (lit "/repo/chromium/src/tools/cros.DEPS/DEPS"))];
      [| |reflexivity]; cbn [filter]; rewrite !named_pair.
    + destruct (str_eqb (lit "chromium/foo") project) eqn:E1;
        destruct (str_eqb (lit "chromium/bar") project) eqn:E2;
        try reflexivity.
      apply str_eqb_eq in E1, E2. rewrite <- E2 in E1. discriminate E1.
    + destruct (str_eqb (lit "chromium/cros") project) eqn:E1;
        destruct (str_eqb (lit "b") project) eqn:E2;
        try reflexivity.
      apply str_eqb_eq in E1, E2. rewrite <- E2 in E1. discriminate E1.
  - reflexivity.
  - vm_compute. reflexivity.
  - vm_compute. reflexivity.
Defined.

(** C9, the counterexample. The two mappings below are the same
    dictionary: they hold the same items, each path once. The two paths of
    [chromium/bar] are iterated in opposite orders, both runs return from
    the same live manifest, and the staged documents differ: each run
    writes the path it has met first. *)
Lemma C9_iteration_order_counterexample :
  (forall deps_file it,
      In it (mappings_of Demo.env deps_file)
      <-> In it (mappings_of Reordered.swapped deps_file)) /\
  (forall deps_file,
      NoDup (map fst (mappings_of Demo.env deps_file)) /\
      NoDup (map fst (mappings_of Reordered.swapped deps_file))) /\
  (forall xml, ParseManifest Demo.env xml = ParseManifest Reordered.swapped xml) /\
  fst (CreateNewManifest Demo.env Demo.self Demo.fresh) = inr tt /\
  fst (CreateNewManifest Reordered.swapped Demo.self Demo.fresh) = inr tt /\
  files (snd (CreateNewManifest Demo.env Demo.self Demo.fresh))
        (new_manifest_path Demo.self)
  <> files (snd (CreateNewManifest Reordered.swapped Demo.self Demo.fresh))
           (new_manifest_path Demo.self).
Proof.
  split; [|split; [|split; [|split; [|split]]]].
  - intros deps_file it.
    change (mappings_of Demo.env deps_file) with (Demo.mappings deps_file).
    change (mappings_of Reordered.swapped deps_file)
      with (Reordered.swapped_mappings deps_file).
    unfold Demo.mappings, Reordered.swapped_mappings.
    destruct (str_eqb deps_file (lit "/repo/chromium/src/.DEPS.git"));
      [|destruct (str_eqb deps_file
                          (lit "/repo/chromium/src/tools/cros.DEPS/DEPS"))];
      cbn [In]; tauto.
  - intros deps_file.
    change (mappings_of Demo.env deps_file) with (Demo.mappings deps_file).
    change (mappings_of Reordered.swapped deps_file)
      with (Reordered.swapped_mappings deps_file).
    unfold Demo.mappings, Reordered.swapped_mappings.
    destruct (str_eqb deps_file (lit "/repo/chromium/src/.DEPS.git"));
      [|destruct (str_eqb deps_file
                          (lit "/repo/chromium/src/tools/cros.DEPS/DEPS"))];
      cbn [map fst]; split;
      repeat (constructor; [cbn [In]; intros H;
                            repeat (destruct H as [H|H]; [discriminate H|]);
                            exact H|]);
      constructor.
  - reflexivity.
  - vm_compute. reflexivity.
  - vm_compute. reflexivity.
  - intros E. vm_compute in E. discriminate E.
Qed.

(** C10. Blank bottom part: when the part of the live manifest after the
    end marker is empty or whitespace only, the pattern of the last write
    does not match it; the builder never returns; and when the external
    preparation, the safety check and the parse of the surrounding
    document have passed, it raises the [AttributeError] of [None.group]
    with the staged file written up to the end marker and no bottom part
    after it. *)
Theorem C10_blank_bottom_crash (env : collaborators) (self : Manifest)
        (w : world) (p b s : str) :
  _PartitionManifest self w = (inr (p, b, s), w) ->
  forallb isspace s = true ->
  Re.match_ bottom_regex s re_S_M = None /\
  (forall w', CreateNewManifest env self w <> (inr tt, w')) /\
  (forall h,
      outcome env (PrepForChanges (manifest_dir self) false) w = None ->
      CheckForNonChromeProjects env (test_manifest b) w = (inr tt, w) ->
      ParseManifest env (p ++ s) = inr h ->
      exists w',
        CreateNewManifest env self w
        = (inl (AttributeError
                  (lit "'NoneType' object has no attribute 'group'")), w') /\
        files w' (new_manifest_path self)
        = Some (p ++ _BEGIN_MARKER
                  ++ autogenerated env self (map fst (projects h))
                  ++ _END_MARKER)).
Proof.
  intros Hpart Hs. apply all_space_no_nonspace in Hs.
  pose proof (BottomFacts.bottom_match_none s Hs) as Hm.
  apply _PartitionManifest_inv in Hpart as (_ & doc & Hdoc & Hp).
  split; [exact Hm|]. split.
  - intros w' Hrun.
    destruct (CreateNewManifest_returns env self w w' doc Hdoc Hrun)
      as (top & ov & bottom & h & mo & Hp' & _ & Hm' & _).
    rewrite Hp in Hp'. injection Hp' as <- <- <-.
    rewrite Hm in Hm'. discriminate.
  - intros h Hprep Hcheck Hparse.
    rewrite (CreateNewManifest_eval env self w doc Hdoc), Hprep, Hp.
    rewrite CheckForNonChromeProjects_eval in Hcheck.
    destruct (ParseManifest env (test_manifest b)) as [|h1]; [discriminate|].
    destruct (first_outside (projects h1)); [discriminate|].
    destruct (write_new_manifest_reaches env self (new_manifest_path self)
                p s h
                (snd (open_w (new_manifest_path self) (prepared self w))) Hparse)
      as (w2 & [A _] & R).
    exists w2. rewrite R. unfold write_bottom. rewrite Hm.
    split; [reflexivity|].
    specialize (A [] (fs_set_eq _ _ _)). rewrite app_nil_l in A. exact A.
Qed.

Lemma C10_blank_bottom_crash_witness :
  Re.match_ bottom_regex [nl; nl] re_S_M = None /\
  (forall w', CreateNewManifest Demo.env Demo.self
                (Demo.world_of Demo.blank_bottom_doc) <> (inr tt, w')) /\
  (exists w',
      CreateNewManifest Demo.env Demo.self (Demo.world_of Demo.blank_bottom_doc)
      = (inl (AttributeError
                (lit "'NoneType' object has no attribute 'group'")), w') /\
      files w' (new_manifest_path Demo.self)
      = Some (Demo.top ++ _BEGIN_MARKER
                ++ autogenerated Demo.env Demo.self [lit "a"; lit "b"]
                ++ _END_MARKER)).
Proof.
  destruct (C10_blank_bottom_crash Demo.env Demo.self
              (Demo.world_of Demo.blank_bottom_doc)
              Demo.top Demo.old_region [nl; nl] eq_refl eq_refl)
    as (Hnone & Hnever & Hcrash).
  split; [exact Hnone|]. split; [exact Hnever|].
  apply (Hcrash {| default := None;
                   projects := [(lit "a", Demo.project_attrs (lit "a") (lit "a"));
                                (lit "b", Demo.project_attrs (lit "b") (lit "b"))] |});
    reflexivity.
Defined.

(** ** The change detector and the update *)

(** C6. No-op transition: when the builder has returned and the staged
    document has the bytes of the live manifest, [IsNewManifestDifferent]
    returns false and [PerformUpdate] returns where the builder stopped:
    the trace of the run holds no event of the trial checkout or of
    publishing. The comparison is of the bytes as they are: in any state,
    its answer is false exactly when the two contents are equal. *)
Theorem C6_no_op_transition (env : collaborators) (self : Manifest)
        (w w1 : world) (data : str) :
  CreateNewManifest env self w = (inr tt, w1) ->
  files w1 (new_manifest_path self) = Some data ->
  files w1 (manifest_path self) = Some data ->
  IsNewManifestDifferent self w1 = (inr false, w1) /\
  PerformUpdate env self w = (inr tt, w1) /\
  (exists evs, trace w1 = trace w ++ evs /\
               forallb (fun ev => negb (is_trial_or_push ev)) evs = true) /\
  (forall w2 a b,
      files w2 (new_manifest_path self) = Some a ->
      files w2 (manifest_path self) = Some b ->
      exists differs,
        IsNewManifestDifferent self w2 = (inr differs, w2) /\
        (differs = false <-> a = b)).
Proof.
  intros Hrun Hnew Hlive.
  assert (Hd : IsNewManifestDifferent self w1 = (inr false, w1)).
  { rewrite (IsNewManifestDifferent_eval self w1 data data Hnew Hlive).
    now rewrite str_eqb_refl. }
  split; [exact Hd|]. split; [now apply PerformUpdate_no_change|]. split.
  - destruct (emits_CreateNewManifest env self w) as (evs & T & Q).
    rewrite Hrun in T. exists evs. split; assumption.
  - intros w2 a b Ha Hb. exists (negb (str_eqb a b)).
    split; [now apply IsNewManifestDifferent_eval|].
    rewrite negb_false_iff. apply str_eqb_eq.
Qed.

Lemma C6_no_op_transition_witness :
  IsNewManifestDifferent Demo.self
    (snd (CreateNewManifest Demo.env Demo.self Demo.settled))
  = (inr false, snd (CreateNewManifest Demo.env Demo.self Demo.settled)) /\
  PerformUpdate Demo.env Demo.self Demo.settled
  = (inr tt, snd (CreateNewManifest Demo.env Demo.self Demo.settled)) /\
  (exists evs,
      trace (snd (CreateNewManifest Demo.env Demo.self Demo.settled))
      = trace Demo.settled ++ evs /\
      forallb (fun ev => negb (is_trial_or_push ev)) evs = true) /\
  (forall w2 a b,
      files w2 (new_manifest_path Demo.self) = Some a ->
      files w2 (manifest_path Demo.self) = Some b ->
      exists differs,
        IsNewManifestDifferent Demo.self w2 = (inr differs, w2) /\
        (differs = false <-> a = b)).
Proof.
  apply (C6_no_op_transition Demo.env Demo.self Demo.settled
           (snd (CreateNewManifest Demo.env Demo.self Demo.settled))
           Demo.settled_doc).
  - vm_compute. reflexivity.
  - vm_compute. reflexivity.
  - vm_compute. reflexivity.
Defined.

(** * Further properties of the code *)

(** ** Which files a run changes *)

Section Touches.
Variable path : str.

Lemma touches_ret {A} (a : A) : touches_only path (ret a).
Proof. intros w q _. reflexivity. Qed.

Lemma touches_raise {A} e : touches_only path (@raise A e).
Proof. intros w q _. reflexivity. Qed.

Lemma touches_lift {A} (r : result A) : touches_only path (lift r).
Proof. intros w q _. reflexivity. Qed.

Lemma touches_emit e : touches_only path (emit e).
Proof. intros w q _. reflexivity. Qed.

Lemma touches_write d : touches_only path (write path d).
Proof. intros w q Hq. cbn. now apply fs_set_neq. Qed.

Lemma touches_open : touches_only path (open_w path).
Proof. intros w q Hq. cbn. now apply fs_set_neq. Qed.

Lemma touches_same {A} (c : M A) :
  (forall w, files (snd (c w)) = files w) -> touches_only path c.
Proof. intros H w q _. now rewrite H. Qed.

Lemma touches_bind {A C} (c : M A) (k : A -> M C) :
  touches_only path c -> (forall a, touches_only path (k a)) ->
  touches_only path (bind c k).
Proof.
  intros H1 H2 w q Hq. unfold bind. specialize (H1 w q Hq).
  destruct (c w) as [[e|a] w1]; cbn [snd] in *; [exact H1|].
  now rewrite (H2 a w1 q Hq).
Qed.

Lemma touches_convert_loop deps_file template blacklist items :
  forall previous_projects,
  touches_only path (convert_loop deps_file path template blacklist items
                                  previous_projects).
Proof.
  induction items as [|[rel_path project] items IH]; intros prev.
  - apply touches_ret.
  - cbn [convert_loop].
    destruct (in_blacklist project blacklist); [|destruct (mem project prev)].
    + apply touches_bind; [apply touches_emit|intros _; apply IH].
    + apply touches_bind; [apply touches_emit|intros _; apply IH].
    + apply touches_bind; [apply touches_lift|intros text].
      apply touches_bind; [apply touches_write|intros _; apply IH].
Qed.
End Touches.

Lemma touches_call env path c : touches_only path (call env c).
Proof. intros w q _. unfold call. now destruct (outcome env c w). Qed.

Lemma touches_ConvertDepsToManifest env deps_file path template blacklist :
  touches_only path (ConvertDepsToManifest env deps_file path template blacklist).
Proof.
  unfold ConvertDepsToManifest. destruct (GetParsedDeps env deps_file).
  apply touches_convert_loop.
Qed.

Lemma touches_write_new_manifest env self path top bottom :
  touches_only path (write_new_manifest env self path top bottom).
Proof.
  unfold write_new_manifest.
  repeat first
    [ apply touches_bind; [|intros ?]
    | apply touches_write
    | apply touches_lift
    | apply touches_ret
    | apply touches_raise
    | apply touches_ConvertDepsToManifest
    | apply touches_same; intros w;
      unfold GetListOfProjects, ParseManifestString, lift, bind;
      destruct (ParseManifest env _); reflexivity
    | match goal with |- touches_only _ (if ?b then _ else _) => destruct b end
    | match goal with
      | |- touches_only _ (match ?b with Some _ => _ | None => _ end) =>
          destruct b
      end ].
Qed.

Lemma touches_CreateNewManifest env self :
  touches_only (new_manifest_path self) (CreateNewManifest env self).
Proof.
  unfold CreateNewManifest.
  apply touches_bind; [apply touches_call|intros _].
  apply touches_bind.
  { apply touches_same. intros w. unfold _PartitionManifest, read_file, bind.
    destruct (files w _); [|reflexivity].
    destruct (Re.match_ _ _ _); reflexivity. }
  intros [[top overwritten] bottom].
  apply touches_bind; [apply touches_lift|intros xml].
  apply touches_bind.
  { apply touches_same. intros w. now rewrite CheckForNonChromeProjects_eval. }
  intros _. apply touches_bind; [apply touches_open|intros _].
  apply touches_write_new_manifest.
Qed.

(** X1. Whatever the outcome of [CreateNewManifest], it has changed no
    file other than the staged one. *)
Theorem X1_builder_changes_only_the_staged_file (env : collaborators)
        (self : Manifest) (w : world) (q : str) :
  q <> new_manifest_path self ->
  files (snd (CreateNewManifest env self w)) q = files w q.
Proof. apply touches_CreateNewManifest. Qed.

Lemma X1_builder_changes_only_the_staged_file_witness :
  files (snd (CreateNewManifest Demo.env Demo.self Demo.fresh))
        (manifest_path Demo.self)
  = files Demo.fresh (manifest_path Demo.self).
Proof.
  apply (X1_builder_changes_only_the_staged_file Demo.env Demo.self Demo.fresh
           (manifest_path Demo.self)).
  discriminate.
Defined.

(** ** The paths of a [Manifest] *)

Lemma rfind_no_slash (s : str) : no_slash s = true -> rfind_slash_end s = 0.
Proof.
  induction s as [|c s IH]; [reflexivity|]. cbn [no_slash forallb].
  intros H. apply andb_true_iff in H as [Hc Hs]. cbn [rfind_slash_end].
  fold (no_slash s) in Hs. rewrite (IH Hs). unfold is_slash in Hc.
  now destruct (Ascii.eqb c "/").
Qed.

Lemma rfind_app_slash (a s : str) :
  no_slash s = true -> rfind_slash_end (a ++ "/"%char :: s) = S (length a).
Proof.
  intros Hs. induction a as [|c a IH]; cbn [app rfind_slash_end length].
  - now rewrite (rfind_no_slash s Hs).
  - now rewrite IH.
Qed.

Lemma firstn_length_app {A} (a b : list A) : firstn (length a) (a ++ b) = a.
Proof. induction a; simpl; congruence. Qed.

Lemma rstrip_slash_rev_head (r : str) :
  match rstrip_slash_rev r with
  | c :: _ => is_slash c = false
  | [] => True
  end.
Proof.
  induction r as [|c r IH]; [exact I|]. cbn [rstrip_slash_rev].
  fold (is_slash c). destruct (is_slash c) eqn:Hc; [exact IH|exact Hc].
Qed.

Lemma endswith_slash_snoc (d : str) (c : ascii) :
  endswith_slash (d ++ [c]) = is_slash c.
Proof. unfold endswith_slash. now rewrite rev_app_distr. Qed.

(** What [os.path.dirname] returns is slashes only or does not end with a
    slash. *)
Lemma dirname_shape (p : str) :
  forallb is_slash (os_path_dirname p) = true \/
  endswith_slash (os_path_dirname p) = false.
Proof.
  unfold os_path_dirname.
  set (head := firstn (rfind_slash_end p) p).
  change (fun c : ascii => Ascii.eqb c "/") with is_slash.
  destruct (forallb is_slash head) eqn:H; [now left|right].
  unfold endswith_slash. rewrite rev_involutive.
  pose proof (rstrip_slash_rev_head (rev head)) as Hr.
  destruct (rstrip_slash_rev (rev head)); [reflexivity|exact Hr].
Qed.

Lemma dirname_join_file (d n : str) :
  forallb is_slash d = true \/ endswith_slash d = false ->
  no_slash n = true ->
  os_path_dirname (os_path_join d n) = d.
Proof.
  intros Hd Hn.
  assert (Hstart : startswith n (lit "/") = false).
  { destruct n as [|c n]; [reflexivity|]. cbn [no_slash forallb] in Hn.
    apply andb_true_iff in Hn as [Hc _]. unfold is_slash in Hc.
    unfold lit. cbn [list_ascii_of_string startswith].
    rewrite Ascii.eqb_sym. destruct (Ascii.eqb c "/"); [discriminate|reflexivity]. }
  unfold os_path_join. rewrite Hstart.
  destruct d as [|c0 d0] using rev_ind.
  - cbn [str_eqb orb app]. unfold os_path_dirname.
    now rewrite (rfind_no_slash n Hn).
  - clear IHd0. rename c0 into c, d0 into d.
    assert (E : str_eqb (d ++ [c]) [] = false) by (now destruct d).
    rewrite E, endswith_slash_snoc in *. cbn [orb].
    destruct (is_slash c) eqn:Hc.
    + destruct Hd as [Hd|Hd]; [|discriminate].
      unfold is_slash in Hc. apply Ascii.eqb_eq in Hc. subst c.
      unfold os_path_dirname. rewrite <- app_assoc. cbn [app].
      rewrite (rfind_app_slash d n Hn).
      replace (firstn (S (length d)) (d ++ "/"%char :: n)) with (d ++ ["/"%char]).
      * change (fun c : ascii => Ascii.eqb c "/") with is_slash. now rewrite Hd.
      * rewrite <- (firstn_length_app (d ++ ["/"%char]) n) at 1.
        rewrite length_app, Nat.add_comm, <- app_assoc. reflexivity.
    + unfold os_path_dirname. cbn [lit list_ascii_of_string app].
      rewrite (rfind_app_slash (d ++ [c]) n Hn).
      replace (firstn (S (length (d ++ [c]))) ((d ++ [c]) ++ "/"%char :: n))
        with ((d ++ [c]) ++ ["/"%char]).
      * change (fun c : ascii => Ascii.eqb c "/") with is_slash.
        rewrite !forallb_app. cbn [forallb]. rewrite Hc, !andb_false_r.
        cbn [andb]. rewrite !rev_app_distr. cbn [rev app rstrip_slash_rev].
        rewrite Ascii.eqb_refl. fold (is_slash c). rewrite Hc.
        cbn [rev]. now rewrite rev_involutive.
      * rewrite <- (firstn_length_app ((d ++ [c]) ++ ["/"%char]) n) at 1.
        rewrite (length_app (d ++ [c])), Nat.add_comm, <- app_assoc. reflexivity.
Qed.

Lemma endswith_app (a n : str) : endswith (a ++ n) n = true.
Proof. unfold endswith. rewrite rev_app_distr. apply startswith_app. Qed.

(** X2. The staged path of a [Manifest] is the file
    [new_update_manifest.xml] in the directory of the live manifest; it is
    another path than that of the live manifest unless the live manifest
    itself has that name. *)
Theorem X2_staged_path_is_beside_the_live_manifest
        (root path test_root : str) (is_internal is_dryrun : bool) :
  let self := Manifest__init__ root path test_root is_internal is_dryrun in
  os_path_dirname (new_manifest_path self) = manifest_dir self /\
  endswith (new_manifest_path self) (lit "new_update_manifest.xml") = true /\
  (endswith path (lit "new_update_manifest.xml") = false ->
   new_manifest_path self <> manifest_path self).
Proof.
  cbn zeta. cbn [new_manifest_path manifest_dir manifest_path Manifest__init__].
  split; [|split].
  - apply dirname_join_file; [apply dirname_shape|reflexivity].
  - unfold os_path_join.
    change (startswith (lit "new_update_manifest.xml") (lit "/")) with false.
    cbv iota. destruct (_ || _).
    + apply endswith_app.
    + rewrite app_assoc. apply endswith_app.
  - intros H E. rewrite <- E in H.
    unfold os_path_join in H.
    change (startswith (lit "new_update_manifest.xml") (lit "/")) with false in H.
    cbv iota in H. destruct (_ || _).
    + rewrite endswith_app in H. discriminate.
    + rewrite app_assoc, endswith_app in H. discriminate.
Qed.

Lemma X2_staged_path_is_beside_the_live_manifest_witness :
  os_path_dirname (new_manifest_path Demo.self) = manifest_dir Demo.self /\
  endswith (new_manifest_path Demo.self) (lit "new_update_manifest.xml") = true /\
  new_manifest_path Demo.self <> manifest_path Demo.self.
Proof.
  destruct (X2_staged_path_is_beside_the_live_manifest
              (lit "/repo") (lit "/tmp/update-manifest/oldlayout.xml")
              (lit "/tmp/test") false true) as (Hd & He & Hn).
  split; [exact Hd|]. split; [exact He|]. apply Hn. reflexivity.
Defined.

(** ** The trial checkout *)

Lemma TestNewManifest_eval (env : collaborators) (self : Manifest) (w : world) :
  TestNewManifest env self w
  = let made := if isdir env (test_dir self) w then (None, w)
                else (outcome env (makedirs (test_dir self)) w,
                      logged (Call (makedirs (test_dir self))) w) in
    match fst made with
    | Some e => (inl e, snd made)
    | None =>
        let w1 := snd made in
        let w2 := logged (Call (trial_sync env self)) w1 in
        match outcome env (trial_sync env self) w1 with
        | Some e =>
            let w3 := logged sync_failed w2 in
            (match outcome env (default_sync env self) w3 with
             | Some e' => inl e'
             | None => inl e
             end, logged (Call (default_sync env self)) w3)
        | None =>
            (match outcome env (default_sync env self) w2 with
             | Some e' => inl e'
             | None => inr tt
             end, logged (Call (default_sync env self)) w2)
        end
    end.
Proof.
  unfold TestNewManifest. fold (test_dir self) (git_url env self).
  fold (trial_sync env self) (default_sync env self).
  unfold bind at 1. cbv zeta.
  unfold try_finally, try_except_reraise, call, Error, emit, logged,
    sync_failed, ret.
  destruct (isdir env (test_dir self) w);
    repeat (cbn [fst snd files trace];
            match goal with
            | |- context [outcome env ?c ?w0] => destruct (outcome env c w0)
            end);
    reflexivity.
Qed.

(** X3. The events and the result of [TestNewManifest], by the outcome
    of its commands. [makedirs] is called exactly when the test directory
    is missing, and when it raises nothing else happens. Otherwise the
    trial sync is called, the failure message is logged exactly when the
    trial sync has raised, and the sync back to the default manifest is
    always called last. [TestNewManifest] returns normally exactly when
    neither sync has raised; when the sync back raises, its exception is
    the one that leaves [TestNewManifest], also when the trial sync had
    raised; otherwise the exception of the trial sync is raised again. *)
Theorem X3_trial_checkout_always_syncs_back (env : collaborators)
        (self : Manifest) (w w' : world) (r : result unit) :
  TestNewManifest env self w = (r, w') ->
  let present := isdir env (test_dir self) w in
  let pre := if present then [] else [Call (makedirs (test_dir self))] in
  let w1 := if present then w else logged (Call (makedirs (test_dir self))) w in
  match (if present then None else outcome env (makedirs (test_dir self)) w) with
  | Some e => r = inl e /\ trace w' = trace w ++ pre
  | None =>
      let failure := outcome env (trial_sync env self) w1 in
      let w2 := logged (Call (trial_sync env self)) w1 in
      let w3 := match failure with
                | Some _ => logged sync_failed w2
                | None => w2
                end in
      trace w' = trace w ++ pre
                   ++ [Call (trial_sync env self)]
                   ++ match failure with
                      | Some _ => [sync_failed]
                      | None => []
                      end
                   ++ [Call (default_sync env self)] /\
      r = match outcome env (default_sync env self) w3, failure with
          | Some e', _ => inl e'
          | None, Some e => inl e
          | None, None => inr tt
          end
  end.
Proof.
  rewrite TestNewManifest_eval. cbv zeta.
  destruct (isdir env (test_dir self) w); cbn [fst snd].
  - destruct (outcome env (trial_sync env self) w) as [e|];
      intros H; injection H as <- <-; cbn [logged trace app];
      rewrite <- ?app_assoc; cbn [app]; (split; [reflexivity|]);
      destruct (outcome env (default_sync env self) _); reflexivity.
  - destruct (outcome env (makedirs (test_dir self)) w) as [e0|].
    + intros H; injection H as <- <-. split; reflexivity.
    + match goal with
      | |- context [outcome env (trial_sync env self) ?w1] =>
          destruct (outcome env (trial_sync env self) w1) as [e|]
      end; intros H; injection H as <- <-; cbn [logged trace app];
        rewrite <- ?app_assoc; cbn [app]; (split; [reflexivity|]);
        destruct (outcome env (default_sync env self) _); reflexivity.
Qed.

Lemma X3_trial_checkout_always_syncs_back_witness :
  trace (snd (TestNewManifest Failing.trial_fails Demo.self Demo.fresh))
  = trace Demo.fresh
      ++ [Call (makedirs (test_dir Demo.self));
          Call (trial_sync Failing.trial_fails Demo.self);
          sync_failed;
          Call (default_sync Failing.trial_fails Demo.self)] /\
  fst (TestNewManifest Failing.trial_fails Demo.self Demo.fresh)
  = inl Failing.sync_error.
Proof.
  pose proof (X3_trial_checkout_always_syncs_back
                Failing.trial_fails Demo.self Demo.fresh _ _
                (surjective_pairing
                   (TestNewManifest Failing.trial_fails Demo.self Demo.fresh)))
    as H.
  cbv zeta in H.
  change (isdir Failing.trial_fails (test_dir Demo.self) Demo.fresh)
    with false in H.
  change (outcome Failing.trial_fails (makedirs (test_dir Demo.self)) Demo.fresh)
    with (@None exn) in H.
  change (outcome Failing.trial_fails (trial_sync Failing.trial_fails Demo.self)
                  (logged (Call (makedirs (test_dir Demo.self))) Demo.fresh))
    with (Some Failing.sync_error) in H.
  cbv iota beta in H. destruct H as [Ht Hr]. split; [exact Ht|exact Hr].
Defined.

(** ** Publishing *)

Lemma PushChanges_eval (env : collaborators) (self : Manifest) (w : world) :
  PushChanges env self w
  = match files w (new_manifest_path self) with
    | None => (inl (IOError (new_manifest_path self)), w)
    | Some data =>
        let w1 :=
          {| files := fs_set (fs_set (files w) (new_manifest_path self) None)
                             (manifest_path self) (Some data);
             trace := trace w ++ [Move (new_manifest_path self)
                                       (manifest_path self)] |} in
        let w2 := logged (Call (git_add self)) w1 in
        match outcome env (git_add self) w1 with
        | Some e => (inl e, w2)
        | None =>
            let w3 := logged (Call (git_commit self)) w2 in
            match outcome env (git_commit self) w2 with
            | Some e => (inl e, w3)
            | None =>
                (match outcome env (git_push env self) w3 with
                 | Some e => inl e
                 | None => inr tt
                 end, logged (Call (git_push env self)) w3)
            end
        end
    end.
Proof.
  unfold PushChanges. fold (git_add self) (git_commit self) (git_push env self).
  unfold bind at 1, shutil_move.
  destruct (files w (new_manifest_path self)); [|reflexivity].
  unfold call, bind, logged. cbv zeta.
  repeat (cbn [fst snd files trace];
          match goal with
          | |- context [outcome env ?c ?w0] => destruct (outcome env c w0)
          end);
    reflexivity.
Qed.

(** X4. [PushChanges] replaces the live manifest before it runs any git
    command: when the staged file exists, then whatever the outcome of the
    git commands, the live manifest holds the staged bytes afterwards, the
    staged path (if it is another path) is gone, no other file has changed,
    and the first events are the move and [git add]; after a normal return
    the events are the move, [git add], [git commit] and the push with the
    dry-run flag of the [Manifest]. When the staged file is missing,
    [PushChanges] raises [IOError] and does nothing. *)
Theorem X4_push_moves_the_staged_file_first (env : collaborators)
        (self : Manifest) (w w' : world) (r : result unit) :
  PushChanges env self w = (r, w') ->
  match files w (new_manifest_path self) with
  | None => r = inl (IOError (new_manifest_path self)) /\ w' = w
  | Some data =>
      files w' (manifest_path self) = Some data /\
      (new_manifest_path self <> manifest_path self ->
       files w' (new_manifest_path self) = None) /\
      (forall q, q <> new_manifest_path self -> q <> manifest_path self ->
                 files w' q = files w q) /\
      (exists evs,
          trace w' = trace w ++ Move (new_manifest_path self) (manifest_path self)
                             :: Call (git_add self) :: evs /\
          (r = inr tt ->
           evs = [Call (git_commit self);
                  Call (GitPushWithRetry (PUSH_BRANCH env) (manifest_dir self)
                                         (dryrun self))]))
  end.
Proof.
  rewrite PushChanges_eval.
  destruct (files w (new_manifest_path self)) as [data|].
  - cbv zeta. intros H.
    assert (Hf : files w' = fs_set (fs_set (files w) (new_manifest_path self) None)
                                   (manifest_path self) (Some data)).
    { destruct (outcome env (git_add self) _);
        [|destruct (outcome env (git_commit self) _)];
        injection H as _ <-; reflexivity. }
    rewrite Hf. split; [apply fs_set_eq|]. split; [|split].
    + intros Hn. rewrite fs_set_neq by exact Hn. apply fs_set_eq.
    + intros q Hq1 Hq2. now rewrite !fs_set_neq.
    + destruct (outcome env (git_add self) _);
        [|destruct (outcome env (git_commit self) _)];
        injection H as <- <-; cbn [logged trace]; rewrite <- ?app_assoc;
        cbn [app]; eexists; (split; [reflexivity|]); try discriminate.
      intros _. reflexivity.
  - intros H. injection H as <- <-. auto.
Qed.

Lemma X4_push_moves_the_staged_file_first_witness :
  let w := snd (CreateNewManifest Demo.env Demo.self Demo.fresh) in
  let w' := snd (PushChanges Demo.env Demo.self w) in
  files w' (manifest_path Demo.self)
  = Some (Demo.staged_of w) /\
  files w' (new_manifest_path Demo.self) = None /\
  trace w' = trace w ++ [Move (new_manifest_path Demo.self)
                              (manifest_path Demo.self);
                         Call (git_add Demo.self);
                         Call (git_commit Demo.self);
                         Call (GitPushWithRetry (PUSH_BRANCH Demo.env)
                                                (manifest_dir Demo.self) true)].
Proof.
  cbv zeta.
  pose proof (X4_push_moves_the_staged_file_first Demo.env Demo.self
                (snd (CreateNewManifest Demo.env Demo.self Demo.fresh))
                (snd (PushChanges Demo.env Demo.self
                        (snd (CreateNewManifest Demo.env Demo.self Demo.fresh))))
                (inr tt) ltac:(vm_compute; reflexivity)) as H.
  change (files (snd (CreateNewManifest Demo.env Demo.self Demo.fresh))
                (new_manifest_path Demo.self))
    with (Some (Demo.staged_of
                  (snd (CreateNewManifest Demo.env Demo.self Demo.fresh)))) in H.
  cbv iota beta in H. destruct H as (H1 & H2 & _ & evs & H4 & H5).
  split; [exact H1|]. split; [apply H2; discriminate|].
  rewrite H4, (H5 eq_refl). reflexivity.
Defined.

(** ** The events of an update *)

Lemma emits_try_except {A} (P : event -> bool) (catches : exn -> bool)
      (body : M A) (handler : M unit) :
  emits_only P body -> emits_only P handler ->
  emits_only P (try_except_reraise catches body handler).
Proof.
  intros Hb Hh w. unfold try_except_reraise.
  destruct (Hb w) as (e1 & T1 & P1).
  destruct (body w) as [[e|a] w1]; cbn [snd] in *; [|eauto].
  destruct (catches e); cbn [snd]; [|eauto].
  destruct (Hh w1) as (e2 & T2 & P2).
  exists (e1 ++ e2). rewrite forallb_app, P1, P2, app_assoc, <- T1.
  destruct (handler w1) as [[e'|u] w2]; cbn [snd] in *; auto.
Qed.

Lemma emits_try_finally {A} (P : event -> bool) (body : M A) (fin : M unit) :
  emits_only P body -> emits_only P fin -> emits_only P (try_finally body fin).
Proof.
  intros Hb Hf w. unfold try_finally.
  destruct (Hb w) as (e1 & T1 & P1).
  destruct (body w) as [r w1]; cbn [snd] in *.
  destruct (Hf w1) as (e2 & T2 & P2).
  exists (e1 ++ e2). rewrite forallb_app, P1, P2, app_assoc, <- T1.
  destruct (fin w1) as [[e'|u] w2]; cbn [snd] in *; auto.
Qed.

Section EmitsToFile.
Variable P : event -> bool.
Variable manifest_file : str.
Hypothesis P_write : forall data, P (Write manifest_file data) = true.
Hypothesis P_warning : forall fmt args, P (Log WARNING fmt args) = true.

Lemma only_convert_loop deps_file template blacklist items :
  forall previous_projects,
  emits_only P (convert_loop deps_file manifest_file template blacklist
                             items previous_projects).
Proof.
  induction items as [|[rel_path project] items IH]; intros prev.
  - apply emits_ret.
  - cbn [convert_loop].
    destruct (in_blacklist project blacklist); [|destruct (mem project prev)].
    + apply emits_bind; [apply emits_emit, P_warning|intros _; apply IH].
    + apply emits_bind; [apply emits_emit, P_warning|intros _; apply IH].
    + apply emits_bind; [apply emits_lift|intros text].
      apply emits_bind; [apply emits_write, P_write|intros _; apply IH].
Qed.

Lemma only_ConvertDepsToManifest env deps_file template blacklist :
  emits_only P
    (ConvertDepsToManifest env deps_file manifest_file template blacklist).
Proof.
  unfold ConvertDepsToManifest. destruct (GetParsedDeps env deps_file).
  apply only_convert_loop.
Qed.

Lemma only_write_new_manifest env self top bottom :
  emits_only P (write_new_manifest env self manifest_file top bottom).
Proof.
  unfold write_new_manifest.
  repeat first
    [ apply emits_bind; [|intros ?]
    | apply emits_write, P_write
    | apply emits_lift
    | apply emits_ret
    | apply emits_raise
    | apply only_ConvertDepsToManifest
    | apply emits_same; intros w;
      unfold GetListOfProjects, ParseManifestString, lift, bind;
      destruct (ParseManifest env _); reflexivity
    | match goal with |- emits_only _ (if ?b then _ else _) => destruct b end
    | match goal with |- emits_only _ (match ?b with Some _ => _ | None => _ end) =>
                        destruct b end ].
Qed.
End EmitsToFile.

Section EmitsOnly.
Variable P : event -> bool.
Variable env : collaborators.
Variable self : Manifest.

Lemma only_CreateNewManifest :
  (forall dir flag, P (Call (PrepForChanges dir flag)) = true) ->
  P (OpenW (new_manifest_path self)) = true ->
  (forall data, P (Write (new_manifest_path self) data) = true) ->
  (forall fmt args, P (Log WARNING fmt args) = true) ->
  emits_only P (CreateNewManifest env self).
Proof.
  intros P_prep P_open P_write P_warning. unfold CreateNewManifest.
  apply emits_bind; [apply emits_call, P_prep|intros _].
  apply emits_bind.
  { apply emits_same. intros w. unfold _PartitionManifest, read_file, bind.
    destruct (files w _); [|reflexivity].
    destruct (Re.match_ _ _ _); reflexivity. }
  intros [[top overwritten] bottom].
  apply emits_bind; [apply emits_lift|intros xml].
  apply emits_bind.
  { apply emits_same. intros w. now rewrite CheckForNonChromeProjects_eval. }
  intros _. apply emits_bind; [apply emits_open, P_open|intros _].
  apply only_write_new_manifest; [exact P_write|exact P_warning].
Qed.

Lemma only_IsNewManifestDifferent :
  emits_only P (IsNewManifestDifferent self).
Proof.
  apply emits_same. intros w. unfold IsNewManifestDifferent, filecmp_cmp, bind.
  destruct (files w (new_manifest_path self)), (files w (manifest_path self));
    reflexivity.
Qed.

Lemma only_TestNewManifest :
  (forall dir, P (Call (makedirs dir)) = true) ->
  (forall url dir manifest jobs, P (Call (Sync url dir manifest jobs)) = true) ->
  P sync_failed = true -> emits_only P (TestNewManifest env self).
Proof.
  intros P_makedirs P_sync P_failed. unfold TestNewManifest. apply emits_bind.
  - intros w. destruct (isdir env _ w).
    + apply emits_ret.
    + apply emits_call, P_makedirs.
  - intros _. apply emits_try_finally; [|apply emits_call, P_sync].
    apply emits_try_except; [apply emits_call, P_sync|].
    apply emits_emit, P_failed.
Qed.

Lemma only_PushChanges :
  P (Move (new_manifest_path self) (manifest_path self)) = true ->
  (forall cmd cwd, P (Call (RunCommand cmd cwd)) = true) ->
  (forall branch cwd flag, P (Call (GitPushWithRetry branch cwd flag)) = true) ->
  emits_only P (PushChanges env self).
Proof.
  intros P_move P_run P_push. unfold PushChanges.
  repeat (apply emits_bind; [|intros _]);
    try (apply emits_call; first [apply P_run|apply P_push]).
  intros w. unfold shutil_move. destruct (files w _).
  - exists [Move (new_manifest_path self) (manifest_path self)].
    cbn. now rewrite P_move.
  - exists []. now rewrite app_nil_r.
Qed.

Lemma only_update_steps :
  (forall c, P (Call c) = true) ->
  (forall l fmt args, P (Log l fmt args) = true) ->
  P (OpenW (new_manifest_path self)) = true ->
  (forall data, P (Write (new_manifest_path self) data) = true) ->
  P (Move (new_manifest_path self) (manifest_path self)) = true ->
  emits_only P (update_steps env self).
Proof.
  intros P_call P_log P_open P_write P_move. unfold update_steps.
  apply emits_bind; [apply only_CreateNewManifest; auto|intros _].
  apply emits_bind; [apply only_IsNewManifestDifferent|intros different].
  destruct different; [|apply emits_ret].
  apply emits_bind; [apply only_TestNewManifest; auto; apply P_log|intros _].
  apply only_PushChanges; auto.
Qed.
End EmitsOnly.

(** X5. [PerformUpdate] logs its error message exactly when a
    [ManifestException] is raised, once and as its last event; no other
    step of the update logs this message. *)
Theorem X5_update_error_is_logged_for_ManifestException_only
        (env : collaborators) (self : Manifest) (w w' : world)
        (r : result unit) :
  PerformUpdate env self w = (r, w') ->
  exists evs,
    forallb not_update_error evs = true /\
    trace w' = trace w ++ evs
                 ++ (if raised_ManifestException r then [update_error] else []).
Proof.
  unfold PerformUpdate, try_except_reraise.
  match goal with
  | |- context [match ?body w with _ => _ end] =>
      assert (H : emits_only not_update_error body)
  end.
  { apply emits_bind; [now apply only_CreateNewManifest|intros _].
    apply emits_bind; [apply only_IsNewManifestDifferent|intros different].
    destruct different; [|apply emits_ret].
    apply emits_bind; [now apply only_TestNewManifest|intros _].
    now apply only_PushChanges. }
  destruct (H w) as (evs & T & Pevs).
  match goal with
  | |- context [match ?body w with _ => _ end] =>
      destruct (body w) as [[e|[]] w1]
  end; cbn [snd] in T.
  - destruct (is_ManifestException e) eqn:E; intros Hr; injection Hr as <- <-;
      exists evs; (split; [exact Pevs|]); cbn [raised_ManifestException];
      rewrite E; cbn [trace]; rewrite T.
    + now rewrite app_assoc.
    + now rewrite app_nil_r.
  - intros Hr; injection Hr as <- <-. exists evs. split; [exact Pevs|].
    cbn [raised_ManifestException]. now rewrite app_nil_r.
Qed.

Lemma X5_update_error_is_logged_for_ManifestException_only_witness :
  exists evs,
    forallb not_update_error evs = true /\
    trace (snd (PerformUpdate Demo.env_no_path Demo.self Demo.fresh))
    = trace Demo.fresh ++ evs ++ [update_error].
Proof.
  pose proof (X5_update_error_is_logged_for_ManifestException_only
                Demo.env_no_path Demo.self Demo.fresh _ _
                (surjective_pairing
                   (PerformUpdate Demo.env_no_path Demo.self Demo.fresh)))
    as H.
  assert (E : raised_ManifestException
                (fst (PerformUpdate Demo.env_no_path Demo.self Demo.fresh)) = true)
    by (vm_compute; reflexivity).
  rewrite E in H. exact H.
Defined.

(** ** The live manifest during an update *)

Lemma PerformUpdate_wraps (env : collaborators) (self : Manifest) (w : world) :
  PerformUpdate env self w
  = (fst (update_steps env self w),
     if raised_ManifestException (fst (update_steps env self w))
     then logged update_error (snd (update_steps env self w))
     else snd (update_steps env self w)).
Proof.
  unfold PerformUpdate, try_except_reraise. fold (update_steps env self).
  destruct (update_steps env self w) as [[e|[]] w0]; cbn [fst snd];
    [|reflexivity].
  cbn [raised_ManifestException]. now destruct (is_ManifestException e).
Qed.

Lemma TestNewManifest_files (env : collaborators) (self : Manifest) (w : world) :
  files (snd (TestNewManifest env self w)) = files w.
Proof.
  rewrite TestNewManifest_eval. cbv zeta.
  destruct (isdir env (test_dir self) w); cbn [fst snd];
    repeat match goal with
           | |- context [match outcome env ?c ?w0 with _ => _ end] =>
               destruct (outcome env c w0); cbn [fst snd]
           end; reflexivity.
Qed.

Lemma TestNewManifest_returned (env : collaborators) (self : Manifest)
      (w w' : world) :
  TestNewManifest env self w = (inr tt, w') ->
  exists pre,
    forallb not_publish pre = true /\
    trace w' = trace w ++ pre ++ [Call (trial_sync env self);
                                 Call (default_sync env self)].
Proof.
  rewrite TestNewManifest_eval. cbv zeta.
  destruct (isdir env (test_dir self) w); cbn [fst snd].
  - destruct (outcome env (trial_sync env self) w);
      [destruct (outcome env (default_sync env self) _); discriminate|].
    intros H. injection H as _ <-. exists []. split; [reflexivity|].
    cbn [logged trace]. now rewrite <- app_assoc.
  - destruct (outcome env (makedirs (test_dir self)) w); [discriminate|].
    match goal with
    | |- context [outcome env (trial_sync env self) ?w1] =>
        destruct (outcome env (trial_sync env self) w1)
    end; [destruct (outcome env (default_sync env self) _); discriminate|].
    intros H. injection H as _ <-. exists [Call (makedirs (test_dir self))].
    split; [reflexivity|]. cbn [logged trace]. now rewrite <- !app_assoc.
Qed.

Lemma not_publish_CreateNewManifest env self :
  emits_only not_publish (CreateNewManifest env self).
Proof. now apply only_CreateNewManifest. Qed.

Lemma not_publish_TestNewManifest env self :
  emits_only not_publish (TestNewManifest env self).
Proof. now apply only_TestNewManifest. Qed.

Lemma IsNewManifestDifferent_cases (self : Manifest) (w : world) :
  snd (IsNewManifestDifferent self w) = w /\
  (fst (IsNewManifestDifferent self w) = inr true ->
   exists a b, files w (new_manifest_path self) = Some a /\
               files w (manifest_path self) = Some b /\ a <> b).
Proof.
  unfold IsNewManifestDifferent, filecmp_cmp, bind.
  destruct (files w (new_manifest_path self)) as [a|],
           (files w (manifest_path self)) as [b|];
    cbn [fst snd ret]; (split; [reflexivity|]); try discriminate.
  intros H. injection H as H. apply negb_true_iff, str_eqb_neq in H. eauto.
Qed.

Lemma update_steps_cases (env : collaborators) (self : Manifest)
      (w w0 : world) (r : result unit) :
  new_manifest_path self <> manifest_path self ->
  update_steps env self w = (r, w0) ->
  (files w0 (manifest_path self) = files w (manifest_path self) /\
   exists evs, trace w0 = trace w ++ evs /\ forallb not_publish evs = true) \/
  (exists staged pre post,
      files (snd (CreateNewManifest env self w)) (new_manifest_path self)
      = Some staged /\
      files w0 (manifest_path self) = Some staged /\
      files w (manifest_path self) <> Some staged /\
      files w0 (new_manifest_path self) = None /\
      forallb not_publish pre = true /\
      trace w0 = trace w ++ pre
                   ++ [Call (trial_sync env self); Call (default_sync env self);
                       Move (new_manifest_path self) (manifest_path self);
                       Call (git_add self)] ++ post).
Proof.
  intros Hne. unfold update_steps, bind.
  pose proof (touches_CreateNewManifest env self w (manifest_path self)
                (not_eq_sym Hne)) as F1.
  destruct (not_publish_CreateNewManifest env self w) as (evs1 & T1 & P1).
  destruct (CreateNewManifest env self w) as [[e|[]] w1]; cbn [snd] in *.
  { intros H. injection H as <- <-. left. eauto. }
  destruct (IsNewManifestDifferent_cases self w1) as [S2 D2].
  destruct (IsNewManifestDifferent self w1) as [[e|different] w1'];
    cbn [fst snd] in *; subst w1'.
  { intros H. injection H as <- <-. left. eauto. }
  destruct different.
  2:{ intros H. injection H as <- <-. left. eauto. }
  destruct (D2 eq_refl) as (a & b & Ha & Hb & Hab).
  pose proof (TestNewManifest_files env self w1) as F2.
  destruct (not_publish_TestNewManifest env self w1) as (evs2 & T2 & P2).
  destruct (TestNewManifest env self w1) as [[e|[]] w2] eqn:Ht; cbn [snd] in *.
  { intros H. injection H as <- <-. left. split; [now rewrite F2|].
    exists (evs1 ++ evs2). now rewrite T2, T1, app_assoc, forallb_app, P1, P2. }
  destruct (TestNewManifest_returned env self w1 w2 Ht) as (pre & Ppre & Tpre).
  intros H. right.
  rewrite PushChanges_eval, F2, Ha in H. cbv zeta in H.
  assert (Hf : files w0 = fs_set (fs_set (files w1) (new_manifest_path self) None)
                                 (manifest_path self) (Some a)).
  { destruct (outcome env (git_add self) _);
      [|destruct (outcome env (git_commit self) _)];
      injection H as _ <-; reflexivity. }
  exists a, (evs1 ++ pre).
  assert (Ht0 : exists post,
             trace w0 = trace w2 ++ [Move (new_manifest_path self)
                                          (manifest_path self);
                                     Call (git_add self)] ++ post).
  { destruct (outcome env (git_add self) _);
      [|destruct (outcome env (git_commit self) _)];
      injection H as _ <-; cbn [logged trace]; rewrite <- ?app_assoc;
      cbn [app]; eexists; reflexivity. }
  destruct Ht0 as (post & Ht0). exists post.
  split; [exact Ha|]. split; [rewrite Hf; apply fs_set_eq|].
  split; [rewrite <- F1, Hb; congruence|].
  split; [rewrite Hf, fs_set_neq by exact Hne; apply fs_set_eq|].
  split; [now rewrite forallb_app, P1, Ppre|].
  rewrite Ht0, Tpre, T1, <- !app_assoc. reflexivity.
Qed.

(** X6. [PerformUpdate] replaces the live manifest only after a trial
    checkout that passed. When the staged path is not the live path, a run
    of [PerformUpdate] either leaves the live manifest as it was and
    publishes nothing, or it puts there the document that
    [CreateNewManifest] staged, which differs from the old one, removes
    the staged file, and the move and [git add] directly follow the trial
    sync and the sync back, with no failure message in between. *)
Theorem X6_live_manifest_is_replaced_only_after_a_passed_trial
        (env : collaborators) (self : Manifest) (w w' : world)
        (r : result unit) :
  new_manifest_path self <> manifest_path self ->
  PerformUpdate env self w = (r, w') ->
  (files w' (manifest_path self) = files w (manifest_path self) /\
   exists evs, trace w' = trace w ++ evs /\ forallb not_publish evs = true) \/
  (exists staged pre post,
      files (snd (CreateNewManifest env self w)) (new_manifest_path self)
      = Some staged /\
      files w' (manifest_path self) = Some staged /\
      files w (manifest_path self) <> Some staged /\
      files w' (new_manifest_path self) = None /\
      forallb not_publish pre = true /\
      trace w' = trace w ++ pre
                   ++ [Call (trial_sync env self); Call (default_sync env self);
                       Move (new_manifest_path self) (manifest_path self);
                       Call (git_add self)] ++ post).
Proof.
  intros Hne. rewrite PerformUpdate_wraps. intros H. injection H as <- <-.
  destruct (update_steps_cases env self w _ _ Hne
              (surjective_pairing (update_steps env self w)))
    as [(F & evs & T & Pe)|(staged & pre & post & S & F1 & F2 & F3 & Pp & T)].
  - left. destruct (raised_ManifestException _); cbn [logged files trace].
    + split; [exact F|]. exists (evs ++ [update_error]).
      now rewrite T, app_assoc, forallb_app, Pe.
    + eauto.
  - right. exists staged, pre.
    destruct (raised_ManifestException _); cbn [logged files trace].
    + exists (post ++ [update_error]). repeat (split; [assumption|]).
      rewrite T, <- !app_assoc. reflexivity.
    + exists post. repeat (split; [assumption|]). exact T.
Qed.

Lemma X6_live_manifest_is_replaced_only_after_a_passed_trial_witness :
  let w := Demo.fresh in
  let w' := snd (PerformUpdate Demo.env Demo.self Demo.fresh) in
  (files w' (manifest_path Demo.self) = files w (manifest_path Demo.self) /\
   exists evs, trace w' = trace w ++ evs /\ forallb not_publish evs = true) \/
  (exists staged pre post,
      files (snd (CreateNewManifest Demo.env Demo.self w))
            (new_manifest_path Demo.self) = Some staged /\
      files w' (manifest_path Demo.self) = Some staged /\
      files w (manifest_path Demo.self) <> Some staged /\
      files w' (new_manifest_path Demo.self) = None /\
      forallb not_publish pre = true /\
      trace w' = trace w ++ pre
                   ++ [Call (trial_sync Demo.env Demo.self);
                       Call (default_sync Demo.env Demo.self);
                       Move (new_manifest_path Demo.self)
                            (manifest_path Demo.self);
                       Call (git_add Demo.self)] ++ post).
Proof.
  cbv zeta.
  apply (X6_live_manifest_is_replaced_only_after_a_passed_trial
           Demo.env Demo.self Demo.fresh _
           (fst (PerformUpdate Demo.env Demo.self Demo.fresh))).
  - discriminate.
  - apply surjective_pairing.
Defined.

(** X7. The file operations [PerformUpdate] performs itself are on its
    own two files: whatever its outcome, every file it opens for writing
    or writes to is the staged file, and every move it makes is the move
    of the staged file onto the live manifest. What the external commands
    do to the checkout is no part of this statement. *)
Theorem X7_update_operates_only_on_its_two_manifest_files
        (env : collaborators) (self : Manifest) (w : world) :
  exists evs,
    trace (snd (PerformUpdate env self w)) = trace w ++ evs /\
    forallb (own_file_event self) evs = true.
Proof.
  rewrite PerformUpdate_wraps. cbn [snd].
  destruct (only_update_steps (own_file_event self) env self) with (w := w)
    as (evs & T & Pevs).
  - reflexivity.
  - reflexivity.
  - apply str_eqb_refl.
  - intros data. apply str_eqb_refl.
  - cbn [own_file_event]. now rewrite !str_eqb_refl.
  - destruct (raised_ManifestException _).
    + exists (evs ++ [update_error]). cbn [logged trace].
      now rewrite T, app_assoc, forallb_app, Pevs.
    + eauto.
Qed.

(** ** The order of the entries *)

Lemma emitted_names (blacklist : option (list str)) (items : list (str * str)) :
  forall previous_projects e,
  In e (emitted blacklist items previous_projects) ->
  (exists rel_path, In (rel_path, snd e) items /\
                    fst e = os_path_join (lit "chromium") rel_path) /\
  mem (snd e) previous_projects = false /\
  in_blacklist (snd e) blacklist = false.
Proof.
  induction items as [|[rel_path p] items IH]; intros prev e; [intros []|].
  cbn [emitted].
  destruct (in_blacklist p blacklist) eqn:Hb; [|destruct (mem p prev) eqn:Hm].
  - intros H. destruct (IH prev e H) as ((r & Hi & Hr) & Hm & Hb').
    split; [exists r; split; [now right|exact Hr]|]. auto.
  - intros H. destruct (IH prev e H) as ((r & Hi & Hr) & Hm' & Hb').
    split; [exists r; split; [now right|exact Hr]|]. auto.
  - intros [<-|H]; cbn [fst snd].
    + split; [exists rel_path; split; [now left|reflexivity]|]. auto.
    + destruct (IH (p :: prev) e H) as ((r & Hi & Hr) & Hm' & Hb').
      split; [exists r; split; [now right|exact Hr]|].
      rewrite mem_cons in Hm'. apply orb_false_iff in Hm' as [_ Hm'].
      auto.
Qed.

Lemma emitted_ascending (blacklist : option (list str))
      (items : list (str * str)) :
  forall previous_projects,
  ordered (map snd items) ->
  ascending (map snd (emitted blacklist items previous_projects)).
Proof.
  induction items as [|[rel_path p] items IH]; intros prev; [intros _; exact I|].
  cbn [map snd ordered emitted]. intros [Hp Ho].
  destruct (in_blacklist p blacklist); [|destruct (mem p prev)]; auto.
  cbn [map snd ascending]. split; [|auto].
  rewrite Forall_forall in *. intros b Hb.
  apply in_map_iff in Hb as (e & <- & He).
  destruct (emitted_names _ _ _ _ He) as ((r & Hi & _) & Hm & _).
  split.
  - apply Hp. change (snd e) with (snd (r, snd e)). now apply in_map.
  - rewrite mem_cons in Hm. apply orb_false_iff in Hm as [Hm _].
    apply str_eqb_neq in Hm. congruence.
Qed.

(** X8. [ConvertDepsToManifest] writes its entries in strictly ascending
    order of project name (bytewise), so no two entries of one call have
    the same name. *)
Theorem X8_entries_are_written_in_ascending_order_of_name
        (env : collaborators) (deps_file manifest_file template : str)
        (blacklist : option (list str)) (w : world) :
  project_template template ->
  exists w' entries evs,
    ConvertDepsToManifest env deps_file manifest_file template blacklist w
    = (inr tt, w') /\
    trace w' = trace w ++ evs /\
    filter is_write evs
    = map (fun e => Write manifest_file (render template e)) entries /\
    ascending (map snd entries).
Proof.
  intros Ht.
  destruct (ConvertDepsToManifest_run env deps_file manifest_file template
              blacklist Ht w) as (w' & R & _ & T).
  exists w', (emitted blacklist (sorted snd (mappings_of env deps_file)) []),
    (loop_events deps_file manifest_file template blacklist
                 (sorted snd (mappings_of env deps_file)) []).
  split; [exact R|]. split; [exact T|]. split; [apply loop_writes|].
  apply emitted_ascending, ordered_sorted.
Qed.

Lemma X8_entries_are_written_in_ascending_order_of_name_witness :
  exists w' entries evs,
    ConvertDepsToManifest Demo.env DemoFiles.DEPS (new_manifest_path Demo.self)
                          _EXTERNAL_PROJECT None DemoFiles.opened
    = (inr tt, w') /\
    trace w' = trace DemoFiles.opened ++ evs /\
    filter is_write evs
    = map (fun e => Write (new_manifest_path Demo.self)
                          (render _EXTERNAL_PROJECT e)) entries /\
    ascending (map snd entries).
Proof.
  apply (X8_entries_are_written_in_ascending_order_of_name
           Demo.env DemoFiles.DEPS (new_manifest_path Demo.self)
           _EXTERNAL_PROJECT None DemoFiles.opened).
  left. reflexivity.
Defined.

(** ** What becomes of each dependency *)

Lemma loop_events_length deps_file manifest_file template blacklist items :
  forall previous_projects,
  length (loop_events deps_file manifest_file template blacklist items
                      previous_projects) = length items.
Proof.
  induction items as [|[rel_path p] items IH]; intros prev; [reflexivity|].
  cbn [loop_events].
  destruct (in_blacklist p blacklist); [|destruct (mem p prev)];
    cbn [length]; now rewrite IH.
Qed.

Lemma loop_events_cover deps_file manifest_file template blacklist items :
  forall previous_projects it,
  In it items ->
  let evs := loop_events deps_file manifest_file template blacklist items
                         previous_projects in
  In (Write manifest_file (render template (joined it))) evs \/
  In (skipping_warning deps_file it) evs \/
  In (double_checkout_warning it) evs.
Proof.
  induction items as [|[rel_path p] items IH]; intros prev it; [intros []|].
  cbv zeta. cbn [loop_events].
  intros [<-|Hin].
  - destruct (in_blacklist p blacklist); [|destruct (mem p prev)].
    + right. left. now left.
    + right. right. now left.
    + left. now left.
  - destruct (in_blacklist p blacklist); [|destruct (mem p prev)].
    + destruct (IH prev it Hin) as [H|[H|H]]; [left|right; left|right; right];
        now right.
    + destruct (IH prev it Hin) as [H|[H|H]]; [left|right; left|right; right];
        now right.
    + destruct (IH (p :: prev) it Hin) as [H|[H|H]];
        [left|right; left|right; right]; now right.
Qed.

(** X9. [ConvertDepsToManifest] drops no dependency silently: it logs or
    writes exactly one event for each item of the mapping, and for every
    item either its entry is written, or the warning that it is skipped,
    or the warning of a double checkout is logged. *)
Theorem X9_every_dependency_is_written_or_reported
        (env : collaborators) (deps_file manifest_file template : str)
        (blacklist : option (list str)) (w : world) :
  project_template template ->
  exists w' evs,
    ConvertDepsToManifest env deps_file manifest_file template blacklist w
    = (inr tt, w') /\
    trace w' = trace w ++ evs /\
    length evs = length (mappings_of env deps_file) /\
    forall it, In it (mappings_of env deps_file) ->
      In (Write manifest_file (render template (joined it))) evs \/
      In (skipping_warning deps_file it) evs \/
      In (double_checkout_warning it) evs.
Proof.
  intros Ht.
  destruct (ConvertDepsToManifest_run env deps_file manifest_file template
              blacklist Ht w) as (w' & R & _ & T).
  exists w', (loop_events deps_file manifest_file template blacklist
                          (sorted snd (mappings_of env deps_file)) []).
  split; [exact R|]. split; [exact T|]. split.
  - now rewrite loop_events_length, length_sorted.
  - intros it Hin. apply loop_events_cover. now apply In_sorted.
Qed.

Lemma X9_every_dependency_is_written_or_reported_witness :
  exists w' evs,
    ConvertDepsToManifest Demo.env DemoFiles.cros_DEPS
                          (new_manifest_path Demo.self) _EXTERNAL_PROJECT
                          (Some [lit "a"; lit "b"]) DemoFiles.opened
    = (inr tt, w') /\
    trace w' = trace DemoFiles.opened ++ evs /\
    length evs = length (mappings_of Demo.env DemoFiles.cros_DEPS) /\
    forall it, In it (mappings_of Demo.env DemoFiles.cros_DEPS) ->
      In (Write (new_manifest_path Demo.self)
                (render _EXTERNAL_PROJECT (joined it))) evs \/
      In (skipping_warning DemoFiles.cros_DEPS it) evs \/
      In (double_checkout_warning it) evs.
Proof.
  apply (X9_every_dependency_is_written_or_reported
           Demo.env DemoFiles.cros_DEPS (new_manifest_path Demo.self)
           _EXTERNAL_PROJECT (Some [lit "a"; lit "b"]) DemoFiles.opened).
  left. reflexivity.
Defined.

(** ** The blacklist *)




(** ** The staged document and the next run *)

Lemma begin_marker_text : _BEGIN_MARKER = begin_text ++ [nl; nl].
Proof. reflexivity. Qed.

Lemma end_marker_text : _END_MARKER = end_text ++ [nl; nl].
Proof. reflexivity. Qed.

Lemma staged_splits (top region tail : str) :
  splits (top ++ _BEGIN_MARKER ++ region ++ _END_MARKER ++ tail)
         top ([nl; nl] ++ region) ([nl; nl] ++ tail).
Proof.
  unfold splits. rewrite begin_marker_text, end_marker_text.
  now rewrite <- !app_assoc.
Qed.

(** X11. A document staged by [CreateNewManifest] always holds the begin
    marker followed by the end marker: once it is the live manifest of a
    later run, [_PartitionManifest] returns a partition of it and does not
    raise the markers-not-found error. *)
Theorem X11_staged_document_can_be_partitioned_again
        (env : collaborators) (self : Manifest) (w w' : world) :
  CreateNewManifest env self w = (inr tt, w') ->
  exists staged,
    files w' (new_manifest_path self) = Some staged /\
    forall (next : Manifest) (w2 : world),
      files w2 (manifest_path next) = Some staged ->
      exists p b s,
        _PartitionManifest next w2 = (inr (p, b, s), w2) /\
        splits staged p b s.
Proof.
  intros H. destruct (CreateNewManifest_reads env self w w' H) as (doc & Hdoc).
  destruct (CreateNewManifest_returns env self w w' doc Hdoc H)
    as (top & overwritten & bottom & h & mo & _ & _ & _ & Hs).
  eexists. split; [exact Hs|]. intros next w2 Hlive.
  rewrite (_PartitionManifest_run next w2 _ Hlive).
  destruct (partition_of_splits _ _ _ _
              (staged_splits top (autogenerated env self (map fst (projects h)))
                             (Re.group mo 1))) as ([[p b] s] & Hp).
  rewrite Hp. exists p, b, s. split; [reflexivity|].
  exact (proj1 (partition_of_some _ _ _ _ Hp)).
Qed.

Lemma X11_staged_document_can_be_partitioned_again_witness :
  exists staged,
    files (snd (CreateNewManifest Demo.env Demo.self Demo.fresh))
          (new_manifest_path Demo.self) = Some staged /\
    forall (next : Manifest) (w2 : world),
      files w2 (manifest_path next) = Some staged ->
      exists p b s,
        _PartitionManifest next w2 = (inr (p, b, s), w2) /\
        splits staged p b s.
Proof.
  apply (X11_staged_document_can_be_partitioned_again
           Demo.env Demo.self Demo.fresh).
  vm_compute. reflexivity.
Defined.

(** ** The project the checker names *)

Lemma first_outside_app (before after : list (str * attributes))
      (project : str) (attrs : attributes) :
  (forall p a, In (p, a) before -> outside_chromium a = false) ->
  outside_chromium attrs = true ->
  first_outside (before ++ (project, attrs) :: after) = Some project.
Proof.
  induction before as [|[p a] before IH]; intros Hb Ho; cbn [app first_outside].
  - now rewrite Ho.
  - rewrite (Hb p a) by now left. apply IH; [|exact Ho].
    intros p' a' Hin. apply (Hb p' a'). now right.
Qed.

(** X12. [CheckForNonChromeProjects] stops at the first project, in the
    iteration order of the parsed projects, whose path attribute is missing
    or does not start with [chromium/]: the exception names that project,
    whatever comes after it, and nothing is changed or logged. *)
Theorem X12_checker_names_the_first_project_outside
        (env : collaborators) (xml : str) (h : ManifestHandler)
        (before after : list (str * attributes)) (project : str)
        (attrs : attributes) (w : world) :
  ParseManifest env xml = inr h ->
  projects h = before ++ (project, attrs) :: after ->
  (forall p a, In (p, a) before ->
               startswith (get a (lit "path") []) (lit "chromium/") = true) ->
  startswith (get attrs (lit "path") []) (lit "chromium/") = false ->
  CheckForNonChromeProjects env xml w
  = (inl (ManifestException
            (lit "Project " ++ project
               ++ lit " was about to be accidentally removed!")), w).
Proof.
  intros Hp Hs Hb Ho. rewrite CheckForNonChromeProjects_eval, Hp, Hs.
  rewrite (first_outside_app before after project attrs); [reflexivity| |].
  - intros p a Hin. unfold outside_chromium. now rewrite (Hb p a Hin).
  - unfold outside_chromium. now rewrite Ho.
Qed.

Lemma X12_checker_names_the_first_project_outside_witness :
  CheckForNonChromeProjects
    (Demo.env_with [(lit "ok", [(lit "path", lit "chromium/src/ok")]);
                    (lit "foo", [(lit "path", lit "src/foo")]);
                    (lit "bar", [(lit "name", lit "bar")])])
    (test_manifest Demo.old_region) Demo.fresh
  = (inl (ManifestException
            (lit "Project " ++ lit "foo"
               ++ lit " was about to be accidentally removed!")), Demo.fresh).
Proof.
  apply (X12_checker_names_the_first_project_outside
           (Demo.env_with [(lit "ok", [(lit "path", lit "chromium/src/ok")]);
                           (lit "foo", [(lit "path", lit "src/foo")]);
                           (lit "bar", [(lit "name", lit "bar")])])
           (test_manifest Demo.old_region)
           {| default := None;
              projects := [(lit "ok", [(lit "path", lit "chromium/src/ok")]);
                           (lit "foo", [(lit "path", lit "src/foo")]);
                           (lit "bar", [(lit "name", lit "bar")])] |}
           [(lit "ok", [(lit "path", lit "chromium/src/ok")])]
           [(lit "bar", [(lit "name", lit "bar")])]
           (lit "foo") [(lit "path", lit "src/foo")] Demo.fresh).
  - vm_compute. reflexivity.
  - reflexivity.
  - intros p a [E|[]]. injection E as <- <-. reflexivity.
  - reflexivity.
Defined.

(** ** The paths of the entries *)

Lemma join_chromium (rel_path : str) :
  startswith rel_path (lit "/") = false ->
  os_path_join (lit "chromium") rel_path = lit "chromium/" ++ rel_path.
Proof. intros H. unfold os_path_join. rewrite H. reflexivity. Qed.

Lemma join_absolute (a rel_path : str) :
  startswith rel_path (lit "/") = true -> os_path_join a rel_path = rel_path.
Proof. intros H. unfold os_path_join. now rewrite H. Qed.

(** X13. When no dependency path of the mapping is absolute, every entry
    [ConvertDepsToManifest] writes has a path under [chromium/], the prefix
    [CheckForNonChromeProjects] tests for: the entries the tool generates
    are entries it accepts to replace in a later run. *)
Theorem X13_written_paths_are_under_chromium
        (env : collaborators) (deps_file manifest_file template : str)
        (blacklist : option (list str)) (w : world) :
  project_template template ->
  (forall it, In it (mappings_of env deps_file) ->
              startswith (fst it) (lit "/") = false) ->
  exists w' entries evs,
    ConvertDepsToManifest env deps_file manifest_file template blacklist w
    = (inr tt, w') /\
    trace w' = trace w ++ evs /\
    filter is_write evs
    = map (fun e => Write manifest_file (render template e)) entries /\
    forall e, In e entries ->
      startswith (get (entry (fst e) (snd e)) (lit "path") [])
                 (lit "chromium/") = true.
Proof.
  intros Ht Hrel.
  destruct (ConvertDepsToManifest_run env deps_file manifest_file template
              blacklist Ht w) as (w' & R & _ & T).
  exists w', (emitted blacklist (sorted snd (mappings_of env deps_file)) []),
    (loop_events deps_file manifest_file template blacklist
                 (sorted snd (mappings_of env deps_file)) []).
  split; [exact R|]. split; [exact T|]. split; [apply loop_writes|].
  intros e He. destruct (emitted_names _ _ _ _ He) as ((r & Hin & Hr) & _ & _).
  apply In_sorted in Hin. specialize (Hrel _ Hin). cbn [fst] in Hrel.
  change (get (entry (fst e) (snd e)) (lit "path") []) with (fst e).
  rewrite Hr, (join_chromium r Hrel). apply startswith_app.
Qed.

Lemma X13_written_paths_are_under_chromium_witness :
  exists w' entries evs,
    ConvertDepsToManifest Demo.env DemoFiles.DEPS (new_manifest_path Demo.self)
                          _EXTERNAL_PROJECT None DemoFiles.opened
    = (inr tt, w') /\
    trace w' = trace DemoFiles.opened ++ evs /\
    filter is_write evs
    = map (fun e => Write (new_manifest_path Demo.self)
                          (render _EXTERNAL_PROJECT e)) entries /\
    forall e, In e entries ->
      startswith (get (entry (fst e) (snd e)) (lit "path") [])
                 (lit "chromium/") = true.
Proof.
  apply (X13_written_paths_are_under_chromium
           Demo.env DemoFiles.DEPS (new_manifest_path Demo.self)
           _EXTERNAL_PROJECT None DemoFiles.opened).
  - left. reflexivity.
  - intros it [<-|[<-|[<-|[]]]]; reflexivity.
Defined.

(** ** The test root option *)

Lemma lstrip_split (s : str) :
  exists a, s = a ++ lstrip s /\ forallb isspace a = true.
Proof.
  induction s as [|c s (a & E & Ha)]; [now exists []|].
  cbn [lstrip]. destruct (isspace c) eqn:Hc.
  - exists (c :: a). cbn [app forallb]. now rewrite Hc, Ha, <- E.
  - now exists [].
Qed.

Lemma lstrip_blank (a t : str) :
  forallb isspace a = true -> lstrip (a ++ t) = lstrip t.
Proof.
  induction a as [|c a IH]; [reflexivity|]. cbn [forallb app lstrip].
  intros H. apply andb_true_iff in H as [-> Ha]. auto.
Qed.

Lemma forallb_rev {A} (f : A -> bool) (l : list A) :
  forallb f (rev l) = forallb f l.
Proof.
  induction l as [|x l IH]; [reflexivity|].
  cbn [rev forallb]. rewrite forallb_app, IH. cbn [forallb].
  rewrite andb_true_r. apply andb_comm.
Qed.

Lemma strip_split (s : str) :
  exists a b, s = a ++ strip s ++ b /\
              forallb isspace a = true /\ forallb isspace b = true.
Proof.
  destruct (lstrip_split s) as (a & Ea & Ha).
  destruct (lstrip_split (rev (lstrip s))) as (b & Eb & Hb).
  exists a, (rev b). unfold strip, rstrip. rewrite forallb_rev.
  split; [|split; assumption].
  rewrite <- rev_app_distr, <- Eb, rev_involutive. exact Ea.
Qed.

Lemma strip_blank (s : str) : forallb isspace s = true -> strip s = [].
Proof.
  intros H. unfold strip, rstrip.
  rewrite <- (app_nil_r s), (lstrip_blank s [] H). reflexivity.
Qed.

Lemma strip_root (a b : str) :
  forallb isspace a = true -> forallb isspace b = true ->
  strip (a ++ lit "/" ++ b) = lit "/".
Proof.
  intros Ha Hb. unfold strip, rstrip. rewrite (lstrip_blank a _ Ha).
  change (lstrip (lit "/" ++ b)) with (lit "/" ++ b).
  rewrite rev_app_distr, lstrip_blank by now rewrite forallb_rev.
  reflexivity.
Qed.

(** X14. [_CheckTestRootOption] refuses exactly the blank values and the
    root directory with blanks around it, with the error
    [Invalid buildroot specified]; every other value is stripped of the
    blanks around it and stored in its full-path form. *)
Theorem X14_test_root_is_refused_iff_blank_or_root
        (realpath expanduser : str -> str) (value : str) :
  (blank_or_root value ->
   _CheckTestRootOption realpath expanduser value
   = inl (External (lit "Invalid buildroot specified"))) /\
  (~ blank_or_root value ->
   _CheckTestRootOption realpath expanduser value
   = inr (realpath (expanduser (strip value))) /\
   exists a b, value = a ++ strip value ++ b /\
               forallb isspace a = true /\ forallb isspace b = true).
Proof.
  unfold _CheckTestRootOption. cbv zeta. split.
  - intros [H|(a & b & -> & Ha & Hb)].
    + now rewrite (strip_blank value H).
    + now rewrite (strip_root a b Ha Hb).
  - intros Hn. destruct (strip_split value) as (a & b & E & Ha & Hb).
    split; [|eauto].
    destruct (strip value) as [|c t] eqn:Hs.
    + exfalso. apply Hn. left. rewrite E, forallb_app, Ha. exact Hb.
    + cbn [orb]. destruct (str_eqb (c :: t) (lit "/")) eqn:Hr; [|reflexivity].
      exfalso. apply Hn. right. apply str_eqb_eq in Hr. rewrite Hr in E.
      eauto.
Qed.

Lemma X14_test_root_is_refused_iff_blank_or_root_witness :
  _CheckTestRootOption (fun p => p) (fun p => p) (lit "  /  ")
  = inl (External (lit "Invalid buildroot specified")) /\
  _CheckTestRootOption (fun p => p) (fun p => p) (lit "/tmp ")
  = inr (lit "/tmp").
Proof.
  split.
  - apply (proj1 (X14_test_root_is_refused_iff_blank_or_root
                    (fun p => p) (fun p => p) (lit "  /  "))).
    right. exists (lit "  "), (lit "  "). repeat split.
  - apply (proj2 (X14_test_root_is_refused_iff_blank_or_root
                    (fun p => p) (fun p => p) (lit "/tmp "))).
    intros [H|(a & b & E & Ha & Hb)]; [discriminate H|].
    destruct a as [|c a]; cbn in E.
    + injection E as E. subst b. discriminate Hb.
    + injection E as Ec E. subst c. discriminate Ha.
Defined.

(** ** The blank lines after the end marker *)

Lemma first_line_blank (b0 t : str) :
  forallb isspace b0 = true -> has_nonspace (first_line (b0 ++ nl :: t)) = false.
Proof.
  induction b0 as [|c b0 IH]; cbn [app first_line forallb].
  - intros _. now rewrite Ascii.eqb_refl.
  - intros H. apply andb_true_iff in H as [Hc Hb].
    destruct (Ascii.eqb c nl); [reflexivity|].
    unfold has_nonspace in *. cbn [existsb]. now rewrite Hc, IH.
Qed.

Lemma bottom_match_fixed (tail : str) :
  has_nonspace (first_line tail) = true ->
  Re.match_ bottom_regex tail re_S_M = Some [(1, tail)].
Proof.
  intros Hl.
  assert (Hs : has_nonspace tail = true).
  { clear -Hl. induction tail as [|c t IH]; [discriminate|].
    cbn [first_line] in Hl. unfold has_nonspace in *. cbn [existsb].
    destruct (Ascii.eqb c nl); [discriminate|]. cbn [existsb] in Hl.
    apply orb_true_iff in Hl as [->|H]; [reflexivity|].
    rewrite (IH H). apply orb_true_r. }
  destruct (BottomFacts.bottom_match_some tail Hs)
    as (blank & tail' & Hm & E & Hb & Hstart & _).
  destruct Hstart as [->|(b0 & ->)]; [now rewrite Hm, E|].
  exfalso. rewrite E, <- app_assoc in Hl. cbn [app] in Hl.
  rewrite first_line_blank in Hl; [discriminate|].
  rewrite forallb_app in Hb. now apply andb_true_iff in Hb as [Hb _].
Qed.

(** X15. The step of [CreateNewManifest] that drops the blank lines at the
    head of the bottom part is idempotent: on the text it has produced
    (group 1 of a match), the pattern matches again and group 1 is that
    whole text, so a later run writes this suffix unchanged. *)
Theorem X15_stripping_the_bottom_part_is_idempotent
        (bottom_part : str) (mo : list (nat * str)) :
  Re.match_ bottom_regex bottom_part re_S_M = Some mo ->
  exists mo',
    Re.match_ bottom_regex (Re.group mo 1) re_S_M = Some mo' /\
    Re.group mo' 1 = Re.group mo 1.
Proof.
  intros Hm.
  destruct (has_nonspace bottom_part) eqn:Hs.
  2:{ rewrite (BottomFacts.bottom_match_none _ Hs) in Hm. discriminate. }
  destruct (BottomFacts.bottom_match_some bottom_part Hs)
    as (blank & tail & Hm' & _ & _ & _ & Hl).
  rewrite Hm' in Hm. injection Hm as <-.
  change (Re.group [(1, tail)] 1) with tail.
  exists [(1, tail)]. split; [exact (bottom_match_fixed tail Hl)|reflexivity].
Qed.

Lemma X15_stripping_the_bottom_part_is_idempotent_witness :
  exists mo',
    Re.match_ bottom_regex (lit "  <project name='b'/>" ++ [nl]) re_S_M
    = Some mo' /\
    Re.group mo' 1 = lit "  <project name='b'/>" ++ [nl].
Proof.
  apply (X15_stripping_the_bottom_part_is_idempotent
           ([nl; nl] ++ lit "  <project name='b'/>" ++ [nl])
           [(1, lit "  <project name='b'/>" ++ [nl])]).
  vm_compute. reflexivity.
Defined.

(** ** The events of the builder *)

Lemma CreateNewManifest_unreadable (env : collaborators) (self : Manifest)
      (w : world) :
  files w (manifest_path self) = None ->
  snd (CreateNewManifest env self w) = prepared self w.
Proof.
  intros Hdoc. unfold CreateNewManifest, bind at 1, call, prepared.
  destruct (outcome env _ w); [reflexivity|].
  unfold bind at 1, _PartitionManifest, bind at 1, read_file.
  cbn [files]. now rewrite Hdoc.
Qed.

(** X16. [CreateNewManifest] starts with the call of [PrepForChanges].
    Either that is its only event and it has raised without changing any
    file, or it has then opened the staged file, once, and all its later
    events are writes to the staged file and warnings. *)
Theorem X16_builder_opens_the_staged_file_once_and_writes_only_there
        (env : collaborators) (self : Manifest) (w w' : world)
        (r : result unit) :
  CreateNewManifest env self w = (r, w') ->
  (files w' = files w /\
   trace w' = trace w ++ [Call (PrepForChanges (manifest_dir self) false)] /\
   exists e, r = inl e) \/
  (exists evs,
      trace w' = trace w ++ [Call (PrepForChanges (manifest_dir self) false);
                             OpenW (new_manifest_path self)] ++ evs /\
      forallb (writes_to (new_manifest_path self)) evs = true).
Proof.
  destruct (files w (manifest_path self)) as [doc|] eqn:Hdoc.
  2:{ intros H. pose proof (CreateNewManifest_unreadable env self w Hdoc) as Hw.
      rewrite H in Hw. cbn [snd] in Hw. subst w'. left.
      split; [reflexivity|]. split; [reflexivity|].
      destruct r as [e|[]]; [eauto|].
      destruct (CreateNewManifest_reads env self w _ H) as (d & Hd).
      congruence. }
  rewrite (CreateNewManifest_eval env self w doc Hdoc).
  destruct (outcome env _ w).
  { intros H. injection H as <- <-. left. eauto. }
  destruct (partition_of doc) as [[[top overwritten] bottom]|].
  2:{ intros H. injection H as <- <-. left. unfold markers_not_found. eauto. }
  destruct (ParseManifest env (test_manifest overwritten)) as [e|handler].
  { intros H. injection H as <- <-. left. eauto. }
  destruct (first_outside (projects handler)).
  { intros H. injection H as <- <-. left. eauto. }
  intros H. right.
  destruct (only_write_new_manifest (writes_to (new_manifest_path self))
              (new_manifest_path self)
              (fun data => str_eqb_refl (new_manifest_path self))
              (fun fmt args => eq_refl) env self top bottom
              (snd (open_w (new_manifest_path self) (prepared self w))))
    as (evs & T & Pevs).
  rewrite H in T. cbn [snd open_w prepared trace] in T.
  exists evs. split; [|exact Pevs]. rewrite T, <- !app_assoc. reflexivity.
Qed.

Lemma X16_builder_opens_the_staged_file_once_and_writes_only_there_witness :
  exists evs,
    trace (snd (CreateNewManifest Demo.env Demo.self Demo.fresh))
    = trace Demo.fresh
        ++ [Call (PrepForChanges (manifest_dir Demo.self) false);
            OpenW (new_manifest_path Demo.self)] ++ evs /\
    forallb (writes_to (new_manifest_path Demo.self)) evs = true.
Proof.
  destruct (X16_builder_opens_the_staged_file_once_and_writes_only_there
              Demo.env Demo.self Demo.fresh
              (snd (CreateNewManifest Demo.env Demo.self Demo.fresh))
              (inr tt)) as [(_ & _ & e & He)|H].
  - vm_compute. reflexivity.
  - discriminate He.
  - exact H.
Defined.
